(** * Elasticsearch full replicator ([es_replicator.py]): shallow embedding

    The development follows the structure of class [ESFullReplicator]:
    the content fingerprint ([_generate_doc_hash]), the per-collection
    replication ([replicate_index], [_replicate_single_index], one pass of
    [replicate_all_indices]), the drift verifier ([verify_replication]) and
    the checkpoint initialisation ([_init_last_sync_time]).

    Python values are an inductive type, Python dictionaries are
    association lists in insertion order, Python integers are [Z].  The two
    Elasticsearch clients and the clock are an interface ([Runtime]) whose
    operations transform an abstract world and may raise; the replicator's
    own code is written in a small state-and-exception monad in which, as in
    Python, an exception leaves every earlier mutation in place. *)

From Stdlib Require Import ZArith List String Ascii Bool Lia Permutation.
From Stdlib Require Import DecimalString.
Import ListNotations.
Set Warnings "-register-all".
Local Open Scope string_scope.
Local Open Scope list_scope.
Local Open Scope Z_scope.

(** ** Python values *)

(** The JSON-shaped values that occur in a document's [_source]. A [VDict]
    lists its items in insertion order, as a Python [dict] does; a Python
    dict never holds two items with the same key. Floating point numbers are
    left out, and a string holds code points below 256. *)
Inductive PyVal : Type :=
| VNone : PyVal
| VBool : bool -> PyVal
| VInt : Z -> PyVal
| VStr : string -> PyVal
| VList : list PyVal -> PyVal
| VDict : list (string * PyVal) -> PyVal.

Definition items := list (string * PyVal).

(** The exceptions the program can meet; all of them derive from Python's
    [Exception]. [NotFoundError] is the client's 404 error, [TransportError]
    stands for every other failure of a request. *)
Inductive exn : Type :=
| NameError : string -> exn
| KeyError : string -> exn
| AttributeError : string -> exn
| IndexError : exn
| ValueError : exn
| TypeError : exn
| NotFoundError : exn
| TransportError : string -> exn.

Inductive Res (A : Type) : Type :=
| Ok : A -> Res A
| Raise : exn -> Res A.
Arguments Ok {A} _.
Arguments Raise {A} _.

Definition is_not_found (e : exn) : bool :=
  match e with NotFoundError => true | _ => false end.

(** ** Dictionaries *)

(** [d.get(k)] / [k in d] *)
Fixpoint dict_get {A : Type} (k : string) (d : list (string * A)) : option A :=
  match d with
  | [] => None
  | (k', v) :: d' => if String.eqb k k' then Some v else dict_get k d'
  end.

Definition dict_mem {A : Type} (k : string) (d : list (string * A)) : bool :=
  match dict_get k d with Some _ => true | None => false end.

(** [d[k] = v]: an existing key keeps its position, a new key goes last. *)
Fixpoint dict_set {A : Type} (k : string) (v : A) (d : list (string * A))
  : list (string * A) :=
  match d with
  | [] => [(k, v)]
  | (k', v') :: d' =>
      if String.eqb k k' then (k, v) :: d' else (k', v') :: dict_set k v d'
  end.

(** [del d[k]] for a key that is present (absent keys are guarded by [in]). *)
Fixpoint dict_del {A : Type} (k : string) (d : list (string * A))
  : list (string * A) :=
  match d with
  | [] => []
  | (k', v') :: d' =>
      if String.eqb k k' then d' else (k', v') :: dict_del k d'
  end.

(** ** [str] and [repr] *)

Definition hex_digit (n : Z) : ascii :=
  ascii_of_N (Z.to_N (if n <? 10 then 48 + n else 87 + n)).

Definition hex_byte (n : Z) : string :=
  String (hex_digit (Z.shiftr n 4)) (String (hex_digit (Z.land n 15)) EmptyString).

Definition code (c : ascii) : Z := Z.of_N (N_of_ascii c).

Fixpoint contains_char (c : ascii) (s : string) : bool :=
  match s with
  | EmptyString => false
  | String c' s' => Ascii.eqb c c' || contains_char c s'
  end.

Definition squote : ascii := ascii_of_N 39.
Definition dquote : ascii := ascii_of_N 34.
Definition backslash : ascii := ascii_of_N 92.

(** A character of a [str] is a code point; the strings of the model hold
    the code points below 256. Of these [str.isprintable] refuses the
    control characters (below 32, and 127 to 159), the no-break space (160)
    and the soft hyphen (173). *)
Definition isprintable (c : ascii) : bool :=
  (32 <=? code c) && (code c <? 127)
  || (160 <? code c) && negb (code c =? 173).

(** The body of [repr(s)] for the quote character [q]: the backslash, the
    quote and the three common control characters have their own escapes,
    every other character that is not printable is written [\xNN]. *)
Fixpoint repr_chars (q : ascii) (s : string) : string :=
  match s with
  | EmptyString => EmptyString
  | String c s' =>
      let rest := repr_chars q s' in
      if Ascii.eqb c backslash then String backslash (String backslash rest)
      else if Ascii.eqb c q then String backslash (String q rest)
      else if code c =? 9 then String backslash (String "t"%char rest)
      else if code c =? 10 then String backslash (String "n"%char rest)
      else if code c =? 13 then String backslash (String "r"%char rest)
      else if negb (isprintable c)
           then String backslash (String "x"%char (hex_byte (code c) ++ rest)%string)
      else String c rest
  end.

(** [s.encode('utf-8')]: a code point below 128 is one byte, one from 128
    to 255 is two. *)
Fixpoint encode_utf8 (s : string) : string :=
  match s with
  | EmptyString => EmptyString
  | String c s' =>
      if code c <? 128 then String c (encode_utf8 s')
      else String (ascii_of_N (Z.to_N (Z.lor 192 (Z.shiftr (code c) 6))))
             (String (ascii_of_N (Z.to_N (Z.lor 128 (Z.land (code c) 63))))
                (encode_utf8 s'))
  end.

(** [repr] of a [str]: single quotes, unless the text has a single quote
    and no double quote. *)
Definition repr_str (s : string) : string :=
  let q := if contains_char squote s && negb (contains_char dquote s)
           then dquote else squote in
  String q (repr_chars q s ++ String q EmptyString)%string.

Definition repr_int (z : Z) : string := NilZero.string_of_int (Z.to_int z).

Fixpoint repr (v : PyVal) : string :=
  match v with
  | VNone => "None"
  | VBool true => "True"
  | VBool false => "False"
  | VInt z => repr_int z
  | VStr s => repr_str s
  | VList l =>
      ("[" ++ String.concat ", " (map repr l) ++ "]")%string
  | VDict d =>
      ("{" ++ String.concat ", "
                (map (fun kv => repr_str (fst kv) ++ ": " ++ repr (snd kv)) d)
           ++ "}")%string
  end.

(** [repr] of the tuple [(k, v)] that [dict.items()] yields. *)
Definition repr_item (kv : string * PyVal) : string :=
  ("(" ++ repr_str (fst kv) ++ ", " ++ repr (snd kv) ++ ")")%string.

(** [str] of a list of item tuples. *)
Definition str_items (l : items) : string :=
  ("[" ++ String.concat ", " (map repr_item l) ++ "]")%string.

(** ** [sorted] *)

(** The order of two item tuples of one dict. Python compares tuples
    position by position; the keys of a dict are pairwise distinct, so the
    first position decides, by code points. *)
Definition item_lt (a b : string * PyVal) : bool := String.ltb (fst a) (fst b).

(** [sorted] is stable and uses [<] only: an element is placed before the
    first element that is not smaller than it. *)
Fixpoint insert_item (x : string * PyVal) (l : items) : items :=
  match l with
  | [] => [x]
  | y :: l' => if item_lt y x then y :: insert_item x l' else x :: y :: l'
  end.

Fixpoint sorted (l : items) : items :=
  match l with
  | [] => []
  | x :: l' => insert_item x (sorted l')
  end.

(** ** SHA-256 ([hashlib.sha256(...).hexdigest()]) *)

Module SHA256.

Definition mask32 : Z := 0xffffffff.
Definition add32 (x y : Z) : Z := Z.land (x + y) mask32.
Definition rotr (n x : Z) : Z :=
  Z.lor (Z.shiftr x n) (Z.land (Z.shiftl x (32 - n)) mask32).
Definition not32 (x : Z) : Z := Z.lxor x mask32.

Definition Ch (x y z : Z) : Z := Z.lxor (Z.land x y) (Z.land (not32 x) z).
Definition Maj (x y z : Z) : Z :=
  Z.lxor (Z.lxor (Z.land x y) (Z.land x z)) (Z.land y z).
Definition Sigma0 (x : Z) : Z := Z.lxor (Z.lxor (rotr 2 x) (rotr 13 x)) (rotr 22 x).
Definition Sigma1 (x : Z) : Z := Z.lxor (Z.lxor (rotr 6 x) (rotr 11 x)) (rotr 25 x).
Definition sigma0 (x : Z) : Z := Z.lxor (Z.lxor (rotr 7 x) (rotr 18 x)) (Z.shiftr x 3).
Definition sigma1 (x : Z) : Z := Z.lxor (Z.lxor (rotr 17 x) (rotr 19 x)) (Z.shiftr x 10).

(** The constants are taken from the primes, as the standard defines
    them: the first 32 bits of the fractional part of a root. *)
Definition is_prime (n : Z) : bool :=
  forallb (fun d => negb (n mod Z.of_nat d =? 0)) (seq 2 (Z.to_nat n - 2)).

Definition primes (count : nat) : list Z :=
  firstn count (filter is_prime (map Z.of_nat (seq 2 400))).

(** The largest [r] below [2 ^ bits] with [r ^ 3 <= n]. *)
Fixpoint cube_root (bits : nat) (n r : Z) : Z :=
  match bits with
  | O => r
  | S b =>
      let r' := r + Z.shiftl 1 (Z.of_nat b) in
      cube_root b n (if r' * r' * r' <=? n then r' else r)
  end.

Definition frac32_cube_root (p : Z) : Z :=
  Z.land (cube_root 40 (Z.shiftl p 96) 0) mask32.

Definition frac32_square_root (p : Z) : Z :=
  Z.land (Z.sqrt (Z.shiftl p 64)) mask32.

Definition K : list Z := Eval vm_compute in map frac32_cube_root (primes 64).

Definition H0 : list Z := Eval vm_compute in map frac32_square_root (primes 8).

(** Big-endian bytes of [x], [n] of them. *)
Fixpoint be_bytes (n : nat) (x : Z) : list Z :=
  match n with
  | O => []
  | S n' => Z.land (Z.shiftr x (8 * Z.of_nat n')) 255 :: be_bytes n' x
  end.

(** The message followed by the bit 1, zero bytes and the 64-bit length. *)
Definition pad (msg : list Z) : list Z :=
  let len := Z.of_nat (List.length msg) in
  let zeros := Z.to_nat ((55 - len) mod 64) in
  msg ++ [128] ++ repeat 0 zeros ++ be_bytes 8 (8 * len).

Fixpoint words_of (n : nat) (bs : list Z) : list Z :=
  match n, bs with
  | S n', b0 :: b1 :: b2 :: b3 :: rest =>
      (Z.shiftl b0 24 + Z.shiftl b1 16 + Z.shiftl b2 8 + b3) :: words_of n' rest
  | _, _ => []
  end.

Fixpoint blocks_of (n : nat) (bs : list Z) : list (list Z) :=
  match n, bs with
  | S n', _ :: _ => words_of 16 (firstn 64 bs) :: blocks_of n' (skipn 64 bs)
  | _, _ => []
  end.

Definition w (i : nat) (win : list Z) : Z := nth i win 0.

(** One round: [win] holds the sixteen schedule words starting at the
    current one. *)
Definition round (st : list Z * list Z) (k : Z) : list Z * list Z :=
  let '(v, win) := st in
  let a := w 0 v in let b := w 1 v in let c := w 2 v in let d := w 3 v in
  let e := w 4 v in let f := w 5 v in let g := w 6 v in let h := w 7 v in
  let t1 := add32 (add32 (add32 (add32 h (Sigma1 e)) (Ch e f g)) k) (w 0 win) in
  let t2 := add32 (Sigma0 a) (Maj a b c) in
  let next := add32 (add32 (add32 (sigma1 (w 14 win)) (w 9 win))
                           (sigma0 (w 1 win))) (w 0 win) in
  ([add32 t1 t2; a; b; c; add32 d t1; e; f; g], tl win ++ [next]).

Definition compress (h : list Z) (block : list Z) : list Z :=
  let '(v, _) := fold_left round K (h, block) in
  map (fun p => add32 (fst p) (snd p)) (combine h v).

Definition digest (msg : list Z) : list Z :=
  let p := pad msg in
  fold_left compress (blocks_of (List.length p) p) H0.

Definition hex_word (x : Z) : string :=
  String.concat EmptyString (map hex_byte (be_bytes 4 x)).

Definition hexdigest (s : string) : string :=
  String.concat EmptyString (map hex_word (digest (map code (list_ascii_of_string s)))).

End SHA256.

(** ** The fingerprint *)

(** [_generate_doc_hash(doc_source)]:
    [hashlib.sha256(str(sorted(doc_source.items())).encode('utf-8')).hexdigest()].
    [items()] exists on a dict only. [doc_str] is the local of that name:
    the bytes that are hashed. *)
Definition doc_str (d : items) : string := encode_utf8 (str_items (sorted d)).

Definition _generate_doc_hash (doc_source : PyVal) : Res string :=
  match doc_source with
  | VDict d => Ok (SHA256.hexdigest (doc_str d))
  | _ => Raise (AttributeError "items")
  end.

(** ** Python equality *)

(** [a == b] on values: [True == 1], lists compare element by element and
    dicts compare as mappings, whatever the insertion order. *)
Fixpoint py_eq (a b : PyVal) {struct a} : bool :=
  match a, b with
  | VNone, VNone => true
  | VBool x, VBool y => Bool.eqb x y
  | VBool x, VInt y => (if x then 1 else 0) =? y
  | VInt x, VBool y => x =? (if y then 1 else 0)
  | VInt x, VInt y => x =? y
  | VStr x, VStr y => String.eqb x y
  | VList xs, VList ys =>
      (fix go (xs ys : list PyVal) : bool :=
         match xs, ys with
         | [], [] => true
         | x :: xs', y :: ys' => py_eq x y && go xs' ys'
         | _, _ => false
         end) xs ys
  | VDict xs, VDict ys =>
      Nat.eqb (List.length xs) (List.length ys) &&
      (fix go (xs : items) : bool :=
         match xs with
         | [] => true
         | (k, v) :: xs' =>
             match dict_get k ys with
             | Some v' => py_eq v v'
             | None => false
             end && go xs'
         end) xs
  | _, _ => false
  end.

(** ** Requests, responses and effects *)

(** A hit of a scan, a search or a get: ['_id'] is always there, ['_source']
    is missing when the index does not store it. *)
Record hit : Type := mk_hit { hit_id : string; hit_source : option PyVal }.

(** The action dict staged by [process_batch]. *)
Record action : Type := mk_action {
  _op_type : string;
  _index : string;
  _id : string;
  _source : items
}.

(** Keyword arguments of [helpers.scan]. *)
Record scan_request : Type := mk_scan {
  scan_index : string;
  scan_query : PyVal;
  scan_size : Z;
  scan_scroll : string;
  preserve_order : bool;
  scan_request_timeout : Z
}.

(** Keyword arguments of [helpers.bulk] and of [options] on its client. *)
Record bulk_request : Type := mk_bulk {
  bulk_actions : list action;
  stats_only : bool;
  raise_on_error : bool;
  chunk_size : Z;
  bulk_request_timeout : Z;
  bulk_max_retries : Z;
  bulk_retry_on_timeout : bool
}.

(** The body of the sampling search. *)
Record search_body : Type := mk_search {
  search_size : Z;
  random_score : bool;
  search_source : list string
}.

(** Requests that change the target or open a cursor, in the order issued.
    [EvCreatePlain] is [indices.create] without a body, [EvIndexDoc] the
    write of one document by [index(index, id, body)]. *)
Inductive event : Type :=
| EvPutSettings (index refresh_interval : string)
| EvCreate (index : string) (settings mappings : items)
| EvScan (req : scan_request)
| EvBulk (req : bulk_request)
| EvCreatePlain (index : string)
| EvIndexDoc (index id : string) (body : items).

(** The two clients ([source_es], [target_es]), the clock and the ISO
    parser. [get_settings] and [get_mapping] answer with a dict from index
    name to, respectively, the ['settings'] and the ['mappings'] dict;
    [count] answers with the value of ['count'], [bulk] with the pair
    [(success, failed)]. *)
Record Runtime (W : Type) : Type := {
  target_put_settings : string -> string -> W -> Res unit * W;
  target_indices_exists : string -> W -> Res bool * W;
  target_indices_create : string -> items -> items -> W -> Res unit * W;
  target_indices_get : string -> W -> Res unit * W;
  target_count : string -> W -> Res Z * W;
  target_search : string -> search_body -> W -> Res (list hit) * W;
  target_get : string -> string -> W -> Res hit * W;
  target_bulk : bulk_request -> W -> Res (Z * Z) * W;
  source_indices_exists : string -> W -> Res bool * W;
  source_indices_get : string -> W -> Res unit * W;
  source_get_settings : string -> W -> Res (list (string * items)) * W;
  source_get_mapping : string -> W -> Res (list (string * items)) * W;
  source_count : string -> W -> Res Z * W;
  source_search : string -> search_body -> W -> Res (list hit) * W;
  source_scan : scan_request -> W -> Res (list hit) * W;
  datetime_now : W -> Z * W;
  fromisoformat : PyVal -> Res Z
}.

Arguments target_put_settings {W} _ _ _ _.
Arguments target_indices_exists {W} _ _ _.
Arguments target_indices_create {W} _ _ _ _ _.
Arguments target_indices_get {W} _ _ _.
Arguments target_count {W} _ _ _.
Arguments target_search {W} _ _ _ _.
Arguments target_get {W} _ _ _ _.
Arguments target_bulk {W} _ _ _.
Arguments source_indices_exists {W} _ _ _.
Arguments source_indices_get {W} _ _ _.
Arguments source_get_settings {W} _ _ _.
Arguments source_get_mapping {W} _ _ _.
Arguments source_count {W} _ _ _.
Arguments source_search {W} _ _ _ _.
Arguments source_scan {W} _ _ _.
Arguments datetime_now {W} _ _.
Arguments fromisoformat {W} _ _.

(** ** Names bound at module level *)

(** What a global name of [es_replicator.py] is bound to. A callable that
    turns the scanned hits and a size into batches is the only kind the
    batching loop could use. *)
Inductive pyobj : Type :=
| PyModule
| PyClass
| PyFunction
| PyBatcher (f : list hit -> Z -> list (list hit)).

Definition globals := list (string * pyobj).

(** The imports (lines 1-12) and the top-level [class] and [def]
    statements of the file. No builtin is called [batch_iterator]. *)
Definition module_globals : globals :=
  [("logging", PyModule); ("datetime", PyClass); ("timedelta", PyClass);
   ("Elasticsearch", PyClass); ("helpers", PyModule);
   ("es_exceptions", PyModule); ("time", PyModule); ("re", PyModule);
   ("hashlib", PyModule); ("argparse", PyModule); ("yaml", PyModule);
   ("Dict", PyClass); ("Any", PyClass); ("List", PyClass);
   ("Optional", PyClass); ("ThreadPoolExecutor", PyClass);
   ("islice", PyClass); ("ESFullReplicator", PyClass);
   ("load_config", PyFunction); ("parse_args", PyFunction);
   ("merge_configs", PyFunction); ("main", PyFunction)].

(** ** Statistics *)

Record Stats : Type := mk_stats { processed : Z; updated : Z; failed : Z }.

Record TotalStats : Type := mk_total {
  total_processed : Z;
  total_updated : Z;
  total_failed : Z;
  total_checked : Z;
  total_mismatches : Z
}.

Record VerifyStats : Type := mk_verify {
  checked : Z;
  mismatches : Z;
  missing_indices : Z;
  count_mismatches : Z
}.

(** ** Attributes set in [__init__] *)

Definition scroll_time : string := "60m".
Definition batch_size : Z := 10000.
Definition max_workers : Z := 100.
Definition max_index_workers : Z := 5.
Definition checksum_field : string := "_doc_hash".

(** [timedelta(days=1)], in microseconds, the unit of a [datetime]. *)
Definition timedelta_days (d : Z) : Z := d * 86400 * 1000000.

(** ** The monad *)

(** A computation reads and writes a state and returns or raises; what it
    wrote before raising stays written. *)
Definition M (S A : Type) : Type := S -> Res A * S.

Definition ret {S A : Type} (a : A) : M S A := fun s => (Ok a, s).

Definition bind {S A B : Type} (c : M S A) (k : A -> M S B) : M S B :=
  fun s => match c s with
           | (Ok a, s') => k a s'
           | (Raise e, s') => (Raise e, s')
           end.

Definition raise {S A : Type} (e : exn) : M S A := fun s => (Raise e, s).

(** [try: c  except Exception as e: h e] *)
Definition try_except {S A : Type} (c : M S A) (h : exn -> M S A) : M S A :=
  fun s => match c s with
           | (Ok a, s') => (Ok a, s')
           | (Raise e, s') => h e s'
           end.

Declare Scope monad_scope.
Delimit Scope monad_scope with monad.
Notation "x <- c ;; k" := (bind c (fun x => k))
  (at level 61, c at next level, right associativity) : monad_scope.
Notation "c ;; k" := (bind c (fun _ => k))
  (at level 61, right associativity) : monad_scope.
Local Open Scope monad_scope.

(** ** Pure parts of the replicator *)

(** [a or b] for an optional string: [None] and [''] are false. *)
Definition or_else (a : option string) (b : string) : string :=
  match a with
  | None => b
  | Some x => if String.eqb x EmptyString then b else x
  end.

(** [v.get(k)]: [None] for an absent key, [AttributeError] off a dict. *)
Definition py_get (k : string) (v : PyVal) : Res PyVal :=
  match v with
  | VDict d => Ok (match dict_get k d with Some x => x | None => VNone end)
  | _ => Raise (AttributeError "get")
  end.

(** The body of the [try] in [process_batch] for one document. *)
Definition make_action (target_index : string) (doc : hit) : Res action :=
  match hit_source doc with
  | None => Raise (KeyError "_source")
  | Some src =>
      match _generate_doc_hash src, src with
      | Ok doc_hash, VDict d =>
          Ok {| _op_type := "index";
                _index := target_index;
                _id := hit_id doc;
                _source := dict_set checksum_field (VStr doc_hash) d |}
      | Ok _, _ => Raise (AttributeError "keys")
      | Raise e, _ => Raise e
      end
  end.

(** [process_batch(batch)], a closure over [stats] and [target_index]: a
    document that cannot be tagged is counted and skipped. *)
Fixpoint process_batch (target_index : string) (batch : list hit)
    (actions : list action) (stats : Stats) : list action * Stats :=
  match batch with
  | [] => (actions, stats)
  | doc :: batch' =>
      match make_action target_index doc with
      | Ok a => process_batch target_index batch' (actions ++ [a]) stats
      | Raise _ =>
          process_batch target_index batch' actions
            {| processed := processed stats;
               updated := updated stats;
               failed := failed stats + 1 |}
      end
  end.

(** Lines 351-360: the cursor request. *)
Definition scan_request_for (source_index : string) : scan_request :=
  {| scan_index := source_index;
     scan_query := VDict [("query", VDict [("match_all", VDict [])])];
     scan_size := batch_size;
     scan_scroll := scroll_time;
     preserve_order := true;
     scan_request_timeout := 300 |}.

(** Lines 365-376: the bulk request of one batch. *)
Definition bulk_request_for (actions : list action) : bulk_request :=
  {| bulk_actions := actions;
     stats_only := true;
     raise_on_error := false;
     chunk_size := Z.of_nat (List.length actions);
     bulk_request_timeout := 300;
     bulk_max_retries := 5;
     bulk_retry_on_timeout := true |}.

(** Lines 384-392: the results of the futures, in submission order. When a
    future raised, the handler adds [len(actions)], where [actions] is
    still the list built for the last batch. *)
Fixpoint collect_results (futures : list (Res (Z * Z)))
    (actions : list action) (stats : Stats) : Stats :=
  match futures with
  | [] => stats
  | Ok (success, failed_) :: futures' =>
      collect_results futures' actions
        {| processed := processed stats + success;
           updated := updated stats + success;
           failed := failed stats + failed_ |}
  | Raise _ :: futures' =>
      collect_results futures' actions
        {| processed := processed stats;
           updated := updated stats;
           failed := failed stats + Z.of_nat (List.length actions) |}
  end.

(** Lines 528-536: one pass over the ids of the source sample. *)
Fixpoint compare_samples (source_sample target_sample : items)
    (stats : VerifyStats) : VerifyStats :=
  match source_sample with
  | [] => stats
  | (doc_id, fp) :: rest =>
      let m :=
        match dict_get doc_id target_sample with
        | None => mismatches stats + 1
        | Some fp' => if negb (py_eq fp fp') then mismatches stats + 1
                      else mismatches stats
        end in
      compare_samples rest target_sample
        {| checked := checked stats + 1;
           mismatches := m;
           missing_indices := missing_indices stats;
           count_mismatches := count_mismatches stats |}
  end.

(** [{hit['_id']: hit['_source'].get(checksum_field) for hit in hits}] *)
Fixpoint sample_of (hits : list hit) (acc : items) : Res items :=
  match hits with
  | [] => Ok acc
  | h :: hits' =>
      match hit_source h with
      | None => Raise (KeyError "_source")
      | Some src =>
          match py_get checksum_field src with
          | Ok fp => sample_of hits' (dict_set (hit_id h) fp acc)
          | Raise e => Raise e
          end
      end
  end.

(** Lines 506-515: the sampling query. *)
Definition sample_query (sample_size : Z) : search_body :=
  {| search_size := sample_size;
     random_score := true;
     search_source := [checksum_field] |}.

(** [system_settings] of [_create_target_index]. *)
Definition system_settings : list string :=
  ["uuid"; "version"; "creation_date"; "provided_name"; "history.uuid";
   "history.retention.lease.period"; "history.retention.lease.period.unit"].

(** Lines 431-441 on the ['index'] section: drop ['history'], then every
    system setting that is present. *)
Definition clean_index_section (idx : items) : items :=
  fold_left (fun d setting => if dict_mem setting d then dict_del setting d else d)
            system_settings
            (if dict_mem "history" idx then dict_del "history" idx else idx).

(** [k in s] for two strings: [k] occurs in [s]. *)
Fixpoint is_substring (k s : string) : bool :=
  String.prefix k s ||
  match s with
  | EmptyString => false
  | String _ s' => is_substring k s'
  end.

(** [k in v] for a string [k]: a key of a dict, an element of a list, a
    part of a str; [None], a bool and an int cannot be searched. *)
Definition py_contains (k : string) (v : PyVal) : Res bool :=
  match v with
  | VDict d => Ok (dict_mem k d)
  | VList l => Ok (existsb (py_eq (VStr k)) l)
  | VStr s => Ok (is_substring k s)
  | _ => Raise TypeError
  end.

(** Lines 433-441 on an ['index'] section that is no dict: the tests
    [name in section] are made all the same, in the order of the code, and
    pass over a section that holds none of the names. A name that is found
    is then used as a subscript, which a str and a list refuse. *)
Fixpoint probe_section (section : PyVal) (names : list string) : Res unit :=
  match names with
  | [] => Ok tt
  | name :: rest =>
      match py_contains name section with
      | Raise e => Raise e
      | Ok true => Raise TypeError
      | Ok false => probe_section section rest
      end
  end.

(** The cleaned ['settings'] dict. *)
Definition clean_settings (index_settings : items) : Res items :=
  match dict_get "index" index_settings with
  | None => Ok index_settings
  | Some (VDict idx) =>
      Ok (dict_set "index" (VDict (clean_index_section idx)) index_settings)
  | Some section =>
      match probe_section section ("history" :: system_settings) with
      | Ok _ => Ok index_settings
      | Raise e => Raise e
      end
  end.

(** Lines 447-452: the fingerprint field added to the mapping. Only a dict
    under ['properties'] takes the new item. *)
Definition checksum_mapping : PyVal :=
  VDict [("type", VStr "keyword"); ("doc_values", VBool false);
         ("index", VBool false)].

Definition add_checksum_mapping (mapping : items) : Res items :=
  let mapping' :=
    if dict_mem "properties" mapping then mapping
    else dict_set "properties" (VDict []) mapping in
  match dict_get "properties" mapping' with
  | Some (VDict props) =>
      Ok (dict_set "properties"
            (VDict (dict_set checksum_field checksum_mapping props)) mapping')
  | _ => Raise TypeError
  end.

(** The first loop of [_detect_timestamp_field]. *)
Fixpoint first_date_field (properties : items) : Res (option string) :=
  match properties with
  | [] => Ok None
  | (field, props) :: rest =>
      match py_get "type" props with
      | Raise e => Raise e
      | Ok t => if py_eq t (VStr "date") then Ok (Some field)
                else first_date_field rest
      end
  end.

Fixpoint first_date_subfield (field : string) (sub : items) : Res (option string) :=
  match sub with
  | [] => Ok None
  | (subfield, subprops) :: rest =>
      match py_get "type" subprops with
      | Raise e => Raise e
      | Ok t => if py_eq t (VStr "date")
                then Ok (Some (field ++ "." ++ subfield)%string)
                else first_date_subfield field rest
      end
  end.

(** The second loop of [_detect_timestamp_field]. *)
Fixpoint first_nested_date_field (properties : items) : Res (option string) :=
  match properties with
  | [] => Ok None
  | (field, props) :: rest =>
      match py_get "type" props, props with
      | Raise e, _ => Raise e
      | Ok t, VDict p =>
          if py_eq t (VStr "object") && dict_mem "properties" p then
            match dict_get "properties" p with
            | Some (VDict sub) =>
                match first_date_subfield field sub with
                | Ok None => first_nested_date_field rest
                | r => r
                end
            | _ => Raise (AttributeError "items")
            end
          else first_nested_date_field rest
      | Ok _, _ => Raise (AttributeError "get")
      end
  end.

(** [total_stats[k] += stats.get(k, 0)] for the five keys of [total_stats];
    a per-index result has three of them. *)
Definition add_stats (total : TotalStats) (stats : Stats) : TotalStats :=
  {| total_processed := total_processed total + processed stats;
     total_updated := total_updated total + updated stats;
     total_failed := total_failed total + failed stats;
     total_checked := total_checked total + 0;
     total_mismatches := total_mismatches total + 0 |}.

Definition zero_stats : Stats := {| processed := 0; updated := 0; failed := 0 |}.
Definition zero_total : TotalStats := mk_total 0 0 0 0 0.
Definition zero_verify : VerifyStats := mk_verify 0 0 0 0.

(** ** The replicator over a runtime *)

(** The state of a run: the world behind the two clients, the requests
    issued so far and the two attributes of [self] that are assigned after
    construction. *)
Record state (W : Type) : Type := mk_state {
  world : W;
  log : list event;
  timestamp_field : option string;
  last_sync_time : option Z
}.
Arguments mk_state {W} _ _ _ _.
Arguments world {W} _.
Arguments log {W} _.
Arguments timestamp_field {W} _.
Arguments last_sync_time {W} _.

(** The attributes as [__init__] leaves them before its two checks. *)
Definition new_state {W : Type} (w : W) : state W :=
  {| world := w; log := []; timestamp_field := None; last_sync_time := None |}.

Section Replicator.

Context {W : Type} (rt : Runtime W).

(** A request that is recorded: its event, then the runtime's answer. *)
Definition call {A : Type} (ev : event) (op : W -> Res A * W)
  : M (state W) A :=
  fun s =>
    let '(r, w') := op (world s) in
    (r, {| world := w'; log := log s ++ [ev];
           timestamp_field := timestamp_field s;
           last_sync_time := last_sync_time s |}).

(** A request that only reads. *)
Definition ask {A : Type} (op : W -> Res A * W) : M (state W) A :=
  fun s =>
    let '(r, w') := op (world s) in
    (r, {| world := w'; log := log s;
           timestamp_field := timestamp_field s;
           last_sync_time := last_sync_time s |}).

Definition of_res {S A : Type} (r : Res A) : M S A := fun s => (r, s).

Definition set_timestamp_field (v : option string) : M (state W) unit :=
  fun s => (Ok tt, {| world := world s; log := log s;
                      timestamp_field := v;
                      last_sync_time := last_sync_time s |}).

Definition set_last_sync_time (v : option Z) : M (state W) unit :=
  fun s => (Ok tt, {| world := world s; log := log s;
                      timestamp_field := timestamp_field s;
                      last_sync_time := v |}).

Definition now : M (state W) Z :=
  fun s =>
    let '(t, w') := datetime_now rt (world s) in
    (Ok t, {| world := w'; log := log s;
              timestamp_field := timestamp_field s;
              last_sync_time := last_sync_time s |}).

(** *** [_init_last_sync_time] *)

Definition meta_index : string := ".replication_meta".

Definition getitem (k : string) (v : PyVal) : Res PyVal :=
  match v with
  | VDict d => match dict_get k d with
               | Some x => Ok x
               | None => Raise (KeyError k)
               end
  | _ => Raise (KeyError k)
  end.

Definition _init_last_sync_time : M (state W) unit :=
  try_except
    (ex <- ask (target_indices_exists rt meta_index) ;;
     if ex then
       h <- ask (target_get rt meta_index "last_sync") ;;
       doc <- of_res (match hit_source h with
                      | Some d => Ok d
                      | None => Raise (KeyError "_source")
                      end) ;;
       ts <- of_res (getitem "timestamp" doc) ;;
       t <- of_res (fromisoformat rt ts) ;;
       set_last_sync_time (Some t)
     else ret tt)
    (fun _ =>
       t <- now ;;
       set_last_sync_time (Some (t - timedelta_days 1))).

(** *** [_detect_timestamp_field] *)

Definition _detect_timestamp_field (index : string) : M (state W) (option string) :=
  try_except
    (mappings <- ask (source_get_mapping rt index) ;;
     m <- of_res (match dict_get index mappings with
                  | Some m => Ok m
                  | None => Raise (KeyError index)
                  end) ;;
     match dict_get "properties" m with
     | None => ret None
     | Some (VDict properties) =>
         r <- of_res (first_date_field properties) ;;
         match r with
         | Some f => ret (Some f)
         | None => of_res (first_nested_date_field properties)
         end
     | Some _ => raise (AttributeError "items")
     end)
    (fun _ => ret None).

(** *** [_create_target_index] *)

(** An empty settings answer fails at [list(settings.keys())[0]]; the
    handler then reads [index_settings] before it was assigned, and that
    error is the one that leaves the function. Every other error is logged
    and raised again. *)
Definition _create_target_index (target_index : string)
    (settings mappings : list (string * items)) : M (state W) unit :=
  match settings with
  | [] => raise (NameError "index_settings")
  | (index_name, index_settings) :: _ =>
      cleaned <- of_res (clean_settings index_settings) ;;
      m <- of_res (match dict_get index_name mappings with
                   | Some m => Ok m
                   | None => Raise (KeyError index_name)
                   end) ;;
      m' <- of_res (add_checksum_mapping m) ;;
      call (EvCreate target_index cleaned m')
           (target_indices_create rt target_index cleaned m')
  end.

(** *** [replicate_index] *)

Definition lift {L A : Type} (c : M (state W) A) : M (L * state W) A :=
  fun ls => let '(r, s') := c (snd ls) in (r, (fst ls, s')).

Definition get_local {L : Type} : M (L * state W) L :=
  fun ls => (Ok (fst ls), ls).

Definition modify_local {L : Type} (f : L -> L) : M (L * state W) unit :=
  fun ls => (Ok tt, (f (fst ls), snd ls)).

(** The callee of line 351 is looked up before its arguments are built. *)
Definition resolve_batcher (g : globals)
  : Res (list hit -> Z -> list (list hit)) :=
  match dict_get "batch_iterator" g with
  | None => Raise (NameError "batch_iterator")
  | Some (PyBatcher f) => Ok f
  | Some _ => Raise (AttributeError "__call__")
  end.

(** Lines 351-381: each batch is tagged and, when an action is left, handed
    to the pool. The pool is run in submission order: a future holds what
    [helpers.bulk] returned or raised. *)
Fixpoint submit_batches (target_index : string) (batches : list (list hit))
    (futures : list (Res (Z * Z))) (actions : list action)
  : M (Stats * state W) (list (Res (Z * Z)) * list action) :=
  match batches with
  | [] => ret (futures, actions)
  | batch :: rest =>
      stats <- get_local ;;
      let '(actions', stats') := process_batch target_index batch [] stats in
      modify_local (fun _ => stats') ;;
      match actions' with
      | [] => submit_batches target_index rest futures actions'
      | _ :: _ =>
          let req := bulk_request_for actions' in
          fun ls =>
            let '(r, s') := call (EvBulk req) (target_bulk rt req) (snd ls) in
            submit_batches target_index rest (futures ++ [r]) actions'
              (fst ls, s')
      end
  end.

(** Lines 351-392 for the batches the iterator yields: submission, then
    the results of the futures. *)
Definition load_batches (target_index : string) (batches : list (list hit))
  : M (Stats * state W) unit :=
  fa <- submit_batches target_index batches [] [] ;;
  modify_local (collect_results (fst fa) (snd fa)).

(** Lines 296-319, up to the document count: [None] stands for the two
    early [return stats], [Some total_docs] for reaching line 321. *)
Definition replicate_prepare (source_index target_index : string)
  : M (Stats * state W) (option Z) :=
  lift (call (EvPutSettings target_index "-1")
             (target_put_settings rt target_index "-1")) ;;
  ex <- lift (ask (source_indices_exists rt source_index)) ;;
  if negb ex then ret None
  else
    index_settings <- lift (ask (source_get_settings rt source_index)) ;;
    index_mappings <- lift (ask (source_get_mapping rt source_index)) ;;
    tex <- lift (ask (target_indices_exists rt target_index)) ;;
    (if negb tex
     then lift (_create_target_index target_index index_settings index_mappings)
     else ret tt) ;;
    total_docs <- lift (ask (source_count rt source_index)) ;;
    if total_docs =? 0 then ret None else ret (Some total_docs).

(** The [try] block of [replicate_index], with [stats] as its local. The
    scan is a generator; here its hits are fetched when it is created. *)
Definition replicate_index_body (g : globals) (source_index target_index : string)
  : M (Stats * state W) Stats :=
  r <- replicate_prepare source_index target_index ;;
  match r with
  | None => get_local
  | Some total_docs =>
      batch_iterator <- of_res (resolve_batcher g) ;;
      let req := scan_request_for source_index in
      hits <- lift (call (EvScan req) (source_scan rt req)) ;;
      load_batches target_index (batch_iterator hits batch_size) ;;
      lift (call (EvPutSettings target_index "1s")
                 (target_put_settings rt target_index "1s")) ;;
      get_local
  end.

(** [replicate_index] in a module whose globals are [g]:
    [except NotFoundError] returns [stats] as it stands, any other
    exception is logged and raised again. *)
Definition replicate_index_in (g : globals) (source_index : string)
    (target_index : option string) : M (state W) Stats :=
  fun s =>
    let target_index := or_else target_index source_index in
    match replicate_index_body g source_index target_index (zero_stats, s) with
    | (Ok stats, (_, s')) => (Ok stats, s')
    | (Raise e, (stats, s')) =>
        if is_not_found e then (Ok stats, s') else (Raise e, s')
    end.

(** The method of the program. *)
Definition replicate_index : string -> option string -> M (state W) Stats :=
  replicate_index_in module_globals.

(** *** [_replicate_single_index] and one pass of [replicate_all_indices] *)

Definition _replicate_single_index (index : string) : M (state W) Stats :=
  try_except
    (tf <- _detect_timestamp_field index ;;
     set_timestamp_field tf ;;
     replicate_index index None)
    (fun _ => ret {| processed := 0; updated := 0; failed := 1 |}).

(** Lines 204-206: every index is submitted; the index pool is run in
    submission order. *)
Fixpoint submit_indices (indices : list string)
  : M (state W) (list (string * Res Stats)) :=
  match indices with
  | [] => ret []
  | index :: rest =>
      fun s =>
        let '(r, s') := _replicate_single_index index s in
        match submit_indices rest s' with
        | (Ok fs, s'') => (Ok ((index, r) :: fs), s'')
        | (Raise e, s'') => (Raise e, s'')
        end
  end.

(** Lines 209-217. *)
Fixpoint collect_indices (index_futures : list (string * Res Stats))
    (total_stats : TotalStats) : TotalStats :=
  match index_futures with
  | [] => total_stats
  | (_, Ok stats) :: rest => collect_indices rest (add_stats total_stats stats)
  | (_, Raise _) :: rest =>
      collect_indices rest
        {| total_processed := total_processed total_stats;
           total_updated := total_updated total_stats;
           total_failed := total_failed total_stats + 1;
           total_checked := total_checked total_stats;
           total_mismatches := total_mismatches total_stats |}
  end.

(** Lines 192-217: the statistics of one pass over [indices]. *)
Definition replicate_pass (indices : list string) : M (state W) TotalStats :=
  index_futures <- submit_indices indices ;;
  ret (collect_indices index_futures zero_total).

(** *** [verify_replication] *)

Definition add_count_diff (stats : VerifyStats) (diff : Z) : VerifyStats :=
  {| checked := checked stats;
     mismatches := mismatches stats + diff;
     missing_indices := missing_indices stats;
     count_mismatches := count_mismatches stats + diff |}.

Definition add_missing (stats : VerifyStats) : VerifyStats :=
  {| checked := checked stats;
     mismatches := mismatches stats + 1;
     missing_indices := missing_indices stats + 1;
     count_mismatches := count_mismatches stats |}.

(** Lines 517-536, the inner [try]. *)
Definition verify_sample (index : string) (sample_size : Z)
    (stats : VerifyStats) : M (state W) VerifyStats :=
  try_except
    (let query := sample_query sample_size in
     source_hits <- ask (source_search rt index query) ;;
     source_sample <- of_res (sample_of source_hits []) ;;
     target_hits <- ask (target_search rt index query) ;;
     target_sample <- of_res (sample_of target_hits []) ;;
     ret (compare_samples source_sample target_sample stats))
    (fun _ => ret stats).

(** The body of the loop over [indices]. *)
Definition verify_index (index : string) (stats : VerifyStats)
  : M (state W) VerifyStats :=
  try_except
    (present <-
       try_except
         (ask (target_indices_get rt index) ;;
          ask (source_indices_get rt index) ;;
          ret true)
         (fun e => if is_not_found e then ret false else raise e) ;;
     if negb present then ret (add_missing stats)
     else
       source_count_ <- ask (source_count rt index) ;;
       target_count_ <- ask (target_count rt index) ;;
       let stats1 :=
         if negb (source_count_ =? target_count_)
         then add_count_diff stats (Z.abs (source_count_ - target_count_))
         else stats in
       let sample_size := Z.min 1000 source_count_ in
       if sample_size =? 0 then ret stats1
       else verify_sample index sample_size stats1)
    (fun _ => ret stats).

Fixpoint verify_loop (indices : list string) (stats : VerifyStats)
  : M (state W) VerifyStats :=
  match indices with
  | [] => ret stats
  | index :: rest =>
      stats' <- verify_index index stats ;;
      verify_loop rest stats'
  end.

Definition verify_replication (indices : list string) : M (state W) VerifyStats :=
  verify_loop indices zero_verify.

End Replicator.

(** ** Vocabulary of the statements *)

(** The actions of the documents of a batch that can be tagged, in order. *)
Definition tagged (target_index : string) (batch : list hit) : list action :=
  flat_map (fun doc => match make_action target_index doc with
                       | Ok a => [a]
                       | Raise _ => []
                       end) batch.

(** The documents of a batch that cannot be tagged. *)
Definition untaggable (target_index : string) (batch : list hit) : list hit :=
  filter (fun doc => match make_action target_index doc with
                     | Ok _ => false
                     | Raise _ => true
                     end) batch.

Definition nonempty {A : Type} (l : list A) : bool :=
  match l with [] => false | _ :: _ => true end.

Definition bulk_events (l : list event) : list bulk_request :=
  flat_map (fun ev => match ev with EvBulk r => [r] | _ => [] end) l.

Definition scan_events (l : list event) : list scan_request :=
  flat_map (fun ev => match ev with EvScan r => [r] | _ => [] end) l.

(** The values written to [refresh_interval] of [index], oldest first. *)
Definition refresh_writes (index : string) (l : list event) : list string :=
  flat_map (fun ev => match ev with
                      | EvPutSettings i v => if String.eqb i index then [v] else []
                      | _ => []
                      end) l.

(** A bulk request whose every action is indexed. *)
Definition accepts_all {W : Type} (rt : Runtime W) : Prop :=
  forall req w,
    fst (target_bulk rt req w) = Ok (Z.of_nat (List.length (bulk_actions req)), 0).

(** An entry of the source sample that is absent from the target sample. *)
Definition absent_in (target_sample : items) (e : string * PyVal) : bool :=
  match dict_get (fst e) target_sample with None => true | Some _ => false end.

(** An entry of the source sample whose id is in the target sample. *)
Definition differs_in (target_sample : items) (e : string * PyVal) : bool :=
  match dict_get (fst e) target_sample with
  | Some fp' => negb (py_eq (snd e) fp')
  | None => false
  end.

Definition matches_in (target_sample : items) (e : string * PyVal) : bool :=
  match dict_get (fst e) target_sample with
  | Some fp' => py_eq (snd e) fp'
  | None => false
  end.

Definition count_of {A : Type} (p : A -> bool) (l : list A) : Z :=
  Z.of_nat (List.length (filter p l)).

(** [mismatches] of a returned report. *)
Definition fmap_mismatches (r : Res VerifyStats) : option Z :=
  match r with Ok st => Some (mismatches st) | Raise _ => None end.

(** ** An in-memory runtime *)

(** Two clusters held in memory, for running the replicator on concrete
    collections. A request on an index the cluster does not hold raises
    [NotFoundError]. *)
Module Toy.

Record world : Type := mk_world {
  source : list (string * list hit);
  target : list (string * list hit);
  refresh : list (string * string);
  clock : Z
}.

Definition with_target (w : world) (t : list (string * list hit)) : world :=
  {| source := source w; target := t; refresh := refresh w; clock := clock w |}.

Definition with_refresh (w : world) (r : list (string * string)) : world :=
  {| source := source w; target := target w; refresh := r; clock := clock w |}.

Definition on_index {A : Type} (cluster : list (string * list hit))
    (index : string) (f : list hit -> A) (w : world) : Res A * world :=
  match dict_get index cluster with
  | Some docs => (Ok (f docs), w)
  | None => (Raise NotFoundError, w)
  end.

(** Source filtering: the fields of [fields] only. *)
Definition project (fields : list string) (h : hit) : hit :=
  {| hit_id := hit_id h;
     hit_source :=
       match hit_source h with
       | Some (VDict d) =>
           Some (VDict (filter (fun kv => existsb (String.eqb (fst kv)) fields) d))
       | other => other
       end |}.

Definition search (cluster : list (string * list hit)) (index : string)
    (q : search_body) : world -> Res (list hit) * world :=
  on_index cluster index
    (fun docs => map (project (search_source q))
                     (firstn (Z.to_nat (search_size q)) docs)).

Fixpoint find_doc (id : string) (docs : list hit) : option hit :=
  match docs with
  | [] => None
  | h :: docs' => if String.eqb id (hit_id h) then Some h else find_doc id docs'
  end.

Fixpoint upsert (h : hit) (docs : list hit) : list hit :=
  match docs with
  | [] => [h]
  | h' :: docs' =>
      if String.eqb (hit_id h) (hit_id h') then h :: docs' else h' :: upsert h docs'
  end.

Definition apply_action (t : list (string * list hit)) (a : action)
  : list (string * list hit) :=
  let docs := match dict_get (_index a) t with Some d => d | None => [] end in
  dict_set (_index a)
    (upsert {| hit_id := _id a; hit_source := Some (VDict (_source a)) |} docs) t.

Definition parse_iso (v : PyVal) : Res Z :=
  match v with
  | VStr s =>
      if String.eqb s "1970-01-02T00:00:00" then Ok (timedelta_days 1)
      else if String.eqb s "1970-01-11T00:00:00" then Ok (timedelta_days 10)
      else Raise ValueError
  | _ => Raise ValueError
  end.

Definition runtime : Runtime world :=
  {| target_put_settings := fun index v w =>
       if dict_mem index (target w)
       then (Ok tt, with_refresh w (dict_set index v (refresh w)))
       else (Raise NotFoundError, w);
     target_indices_exists := fun index w => (Ok (dict_mem index (target w)), w);
     target_indices_create := fun index _ _ w =>
       (Ok tt, with_target w (dict_set index [] (target w)));
     target_indices_get := fun index w => on_index (target w) index (fun _ => tt) w;
     target_count := fun index w =>
       on_index (target w) index (fun d => Z.of_nat (List.length d)) w;
     target_search := fun index q w => search (target w) index q w;
     target_get := fun index id w =>
       match dict_get index (target w) with
       | Some docs => match find_doc id docs with
                      | Some h => (Ok h, w)
                      | None => (Raise NotFoundError, w)
                      end
       | None => (Raise NotFoundError, w)
       end;
     target_bulk := fun req w =>
       (Ok (Z.of_nat (List.length (bulk_actions req)), 0),
        with_target w (fold_left apply_action (bulk_actions req) (target w)));
     source_indices_exists := fun index w => (Ok (dict_mem index (source w)), w);
     source_indices_get := fun index w => on_index (source w) index (fun _ => tt) w;
     source_get_settings := fun index w =>
       on_index (source w) index
         (fun _ => [(index, [("index", VDict [("number_of_shards", VStr "1");
                                              ("uuid", VStr "u1")])])]) w;
     source_get_mapping := fun index w =>
       on_index (source w) index (fun _ => [(index, [])]) w;
     source_count := fun index w =>
       on_index (source w) index (fun d => Z.of_nat (List.length d)) w;
     source_search := fun index q w => search (source w) index q w;
     source_scan := fun req w => on_index (source w) (scan_index req) (fun d => d) w;
     datetime_now := fun w => (clock w, w);
     fromisoformat := parse_iso |}.

(** The same clusters behind a cursor that fails with [e]. *)
Definition with_failing_scan (e : exn) : Runtime world :=
  {| target_put_settings := target_put_settings runtime;
     target_indices_exists := target_indices_exists runtime;
     target_indices_create := target_indices_create runtime;
     target_indices_get := target_indices_get runtime;
     target_count := target_count runtime;
     target_search := target_search runtime;
     target_get := target_get runtime;
     target_bulk := target_bulk runtime;
     source_indices_exists := source_indices_exists runtime;
     source_indices_get := source_indices_get runtime;
     source_get_settings := source_get_settings runtime;
     source_get_mapping := source_get_mapping runtime;
     source_count := source_count runtime;
     source_search := source_search runtime;
     source_scan := fun _ w => (Raise e, w);
     datetime_now := datetime_now runtime;
     fromisoformat := fromisoformat runtime |}.

(** Documents [0 .. n-1], each with one field. *)
Definition doc (i : nat) : hit :=
  {| hit_id := repr_int (Z.of_nat i);
     hit_source := Some (VDict [("n", VInt (Z.of_nat i))]) |}.

Definition docs (n : nat) : list hit := map doc (seq 0 n).

(** The same documents, the first one with its field altered. *)
Definition altered (n : nat) : list hit :=
  match docs n with
  | [] => []
  | h :: rest =>
      {| hit_id := hit_id h; hit_source := Some (VDict [("n", VInt (-1))]) |} :: rest
  end.

(** A document as the loader writes it: its fields and their fingerprint. *)
Definition tag (h : hit) : hit :=
  match make_action "logs" h with
  | Ok a => {| hit_id := _id a; hit_source := Some (VDict (_source a)) |}
  | Raise _ => h
  end.

(** A document without a source. *)
Definition broken (id : string) : hit := {| hit_id := id; hit_source := None |}.

End Toy.

(** ** Concrete collections *)


(** A source of 100 documents and a target with the same 100 documents,
    one field of one document altered; no document carries a fingerprint
    field. *)
Definition altered_target : Toy.world :=
  {| Toy.source := [("logs", Toy.docs 100)];
     Toy.target := [("logs", Toy.altered 100)];
     Toy.refresh := [];
     Toy.clock := 0 |}.

(** A source whose 100 documents carry their fingerprint, and a target
    where one document was altered and tagged again. *)
Definition drifted_replica : Toy.world :=
  {| Toy.source := [("logs", map Toy.tag (Toy.docs 100))];
     Toy.target := [("logs", map Toy.tag (Toy.altered 100))];
     Toy.refresh := [];
     Toy.clock := 0 |}.

(** A source of 100 plain documents and the target the loader would
    write from it: every document with its fingerprint. *)
Definition fresh_replica : Toy.world :=
  {| Toy.source := [("logs", Toy.docs 100)];
     Toy.target := [("logs", map Toy.tag (Toy.docs 100))];
     Toy.refresh := [];
     Toy.clock := 0 |}.

Definition sample_or_empty (hits : list hit) : items :=
  match sample_of hits [] with Ok x => x | Raise _ => [] end.

(** What the sampling search of [Toy] answers for a collection. *)
Definition sampled (docs : list hit) : list hit :=
  map (Toy.project [checksum_field]) (firstn 100 docs).

(** The state in which [_replicate_single_index] calls [replicate_index]:
    the timestamp field is detected and stored first. *)
Definition after_detect {W : Type} (rt : Runtime W) (index : string)
    (s : state W) : state W :=
  snd ((tf <- _detect_timestamp_field rt index ;; set_timestamp_field tf) s).

Definition is_create (ev : event) : Prop :=
  match ev with EvCreate _ _ _ => True | _ => False end.

Definition bulk_event (actions : list action) : event :=
  EvBulk (bulk_request_for actions).

(** A target that holds the index, with the default refresh interval. *)
Definition live_target (docs : list hit) : Toy.world :=
  {| Toy.source := [("logs", docs)];
     Toy.target := [("logs", [])];
     Toy.refresh := [("logs", "1s")];
     Toy.clock := 0 |}.

(** A target that does not hold the index yet. *)
Definition missing_target (docs : list hit) : Toy.world :=
  {| Toy.source := [("logs", docs)];
     Toy.target := [];
     Toy.refresh := [];
     Toy.clock := 0 |}.

(** Two source collections, the first with documents, the second empty. *)
Definition two_collections : Toy.world :=
  {| Toy.source := [("a", Toy.docs 3); ("b", [])];
     Toy.target := [("a", []); ("b", [])];
     Toy.refresh := [("a", "1s"); ("b", "1s")];
     Toy.clock := 0 |}.

(** A target without the metadata index, at clock time ten days. *)
Definition no_checkpoint : Toy.world :=
  {| Toy.source := [];
     Toy.target := [];
     Toy.refresh := [];
     Toy.clock := timedelta_days 10 |}.

(** A metadata index without the checkpoint record. *)
Definition no_record : Toy.world :=
  {| Toy.source := [];
     Toy.target := [(".replication_meta", [])];
     Toy.refresh := [];
     Toy.clock := timedelta_days 10 |}.

(** A checkpoint written one day after the epoch. *)
Definition with_checkpoint : Toy.world :=
  {| Toy.source := [];
     Toy.target :=
       [(".replication_meta",
         [mk_hit "last_sync"
                 (Some (VDict [("timestamp", VStr "1970-01-02T00:00:00")]))])];
     Toy.refresh := [];
     Toy.clock := timedelta_days 10 |}.

(** A module in which [batch_iterator] is bound to a function that yields
    all hits as one batch. *)
Definition globals_with_batcher : globals :=
  ("batch_iterator", PyBatcher (fun hits _ => [hits])) :: module_globals.

(** The list [actions] holds after the loop. *)
Definition last_actions (t : string) (batches : list (list hit))
    (actions : list action) : list action :=
  last (map (tagged t) batches) actions.

Definition submitted (t : string) (batches : list (list hit)) : list (list action) :=
  filter nonempty (map (tagged t) batches).

(** ** Exclusion patterns *)

(** The regular expressions of [exclude_patterns], in compiled form: a
    sequence of atoms, each possibly under a star. This is the syntax the
    default patterns use: literal characters, escaped punctuation, [.], a
    postfix [*] and [^]. *)
Inductive atom : Type :=
| ABol
| AAny
| AChr (c : ascii).

Definition regex : Type := list (atom * bool).

Definition is_alnum (c : ascii) : bool :=
  let n := code c in
  ((48 <=? n) && (n <=? 57)) || ((65 <=? n) && (n <=? 90))
  || ((97 <=? n) && (n <=? 122)).

Definition is_special (c : ascii) : bool :=
  existsb (Ascii.eqb c)
    ["$"; "+"; "?"; "{"; "}"; "["; "]"; "("; ")"; "|"]%char.

(** [re.compile] on that syntax; [acc] holds the atoms read so far, last
    one first. A star needs an unstarred character atom before it. *)
Fixpoint re_compile_from (p : string) (acc : regex) : option regex :=
  match p with
  | EmptyString => Some (rev acc)
  | String c p' =>
      if Ascii.eqb c "^" then re_compile_from p' ((ABol, false) :: acc)
      else if Ascii.eqb c "." then re_compile_from p' ((AAny, false) :: acc)
      else if Ascii.eqb c "*" then
        match acc with
        | (ABol, _) :: _ => None
        | (a, false) :: acc' => re_compile_from p' ((a, true) :: acc')
        | _ => None
        end
      else if Ascii.eqb c backslash then
        match p' with
        | String e p'' =>
            if is_alnum e then None
            else re_compile_from p'' ((AChr e, false) :: acc)
        | EmptyString => None
        end
      else if is_special c then None
      else re_compile_from p' ((AChr c, false) :: acc)
  end.

Definition re_compile (p : string) : option regex := re_compile_from p [].

(** One character against one atom; [.] takes anything but a newline. The
    text is read byte by byte, which is character by character for the ASCII
    names and patterns at hand. *)
Definition atom_ok (a : atom) (c : ascii) : bool :=
  match a with
  | ABol => false
  | AAny => negb (code c =? 10)
  | AChr c' => Ascii.eqb c' c
  end.

(** [re.match(r, s)] is not [None]: the pattern matches at the beginning
    of [s]; what follows the match is free. [at_start] tells whether the
    position is the beginning of the text, where [^] holds. *)
Fixpoint re_match_here (r : regex) (s : string) (at_start : bool) : bool :=
  match r with
  | [] => true
  | (a, false) :: r' =>
      match a with
      | ABol => at_start && re_match_here r' s at_start
      | _ =>
          match s with
          | String c s' => atom_ok a c && re_match_here r' s' false
          | EmptyString => false
          end
      end
  | (a, true) :: r' =>
      (fix star (s : string) (at_start : bool) : bool :=
         re_match_here r' s at_start
         || match s with
            | String c s' => atom_ok a c && star s' false
            | EmptyString => false
            end) s at_start
  end.

Definition re_match (r : regex) (s : string) : bool := re_match_here r s true.

Definition literal (p : string) : regex :=
  map (fun c => (AChr c, false)) (list_ascii_of_string p).

(** [self.exclude_patterns] as [__init__] sets it (lines 66-71). *)
Definition default_exclude_sources : list string :=
  ["^\."; "_ilm_history.*"; "_watcher_history.*"; "_security_audit_log.*"].

Definition default_exclude_patterns : list regex :=
  [[(ABol, false); (AChr ".", false)];
   literal "_ilm_history" ++ [(AAny, true)];
   literal "_watcher_history" ++ [(AAny, true)];
   literal "_security_audit_log" ++ [(AAny, true)]].

(** [_should_replicate]: no pattern matches at the beginning of the name. *)
Definition _should_replicate (exclude_patterns : list regex)
    (index_name : string) : bool :=
  negb (existsb (fun pattern => re_match pattern index_name) exclude_patterns).

(** ** Sets of names *)

(** A Python [set] of strings, as a list without repetition. The order in
    which Python lists a set is not fixed; here it is the order of first
    occurrence, and no statement depends on it. *)
Fixpoint set_of (l : list string) : list string :=
  match l with
  | [] => []
  | x :: l' =>
      let s := set_of l' in
      if existsb (String.eqb x) s then s else x :: s
  end.

(** [a - b] *)
Definition set_diff (a b : list string) : list string :=
  filter (fun x => negb (existsb (String.eqb x) b)) a.

(** ** The other requests of the program *)

(** How a [time.sleep] ends: when its time is over, or with the
    [KeyboardInterrupt] that an interrupt of the process raises in the main
    thread while it waits there. [KeyboardInterrupt] is no [Exception]: the
    handlers for [Exception] let it pass. The sleeps are where the main
    thread waits between two turns of the loop, and where the model
    delivers an interrupt. *)
Inductive sleep_end : Type := Slept | Interrupted.

(** How [replicate_all_indices] returns: the loop was left by its [break],
    or a [KeyboardInterrupt] was caught (line 235 logs it). Python returns
    [None] both times. *)
Inductive run_end : Type := Completed | Stopped.

(** [cat.indices] answers with the value of ['index'] of every row;
    [create_plain] is [indices.create] without a body, [index_doc] is
    [index(index, id, body)], [sleep] is what [time.sleep] does to the
    world for a length that is not negative, and how it ends. *)
Record Services (W : Type) : Type := {
  source_cat_indices : W -> Res (list string) * W;
  target_cat_indices : W -> Res (list string) * W;
  target_create_plain : string -> W -> Res unit * W;
  target_index_doc : string -> string -> items -> W -> Res unit * W;
  isoformat : Z -> string;
  sleep : Z -> W -> sleep_end * W
}.

Arguments source_cat_indices {W} _ _.
Arguments target_cat_indices {W} _ _.
Arguments target_create_plain {W} _ _ _.
Arguments target_index_doc {W} _ _ _ _ _.
Arguments isoformat {W} _ _.
Arguments sleep {W} _ _ _.

Section Coordinator.

Context {W : Type} (rt : Runtime W) (sv : Services W).

(** [time.sleep(interval)]: a negative length is a [ValueError]. *)
Definition time_sleep (interval : Z) : M (state W) sleep_end :=
  fun s =>
    if interval <? 0 then (Raise ValueError, s)
    else let '(e, w') := sleep sv interval (world s) in
         (Ok e, {| world := w'; log := log s;
                   timestamp_field := timestamp_field s;
                   last_sync_time := last_sync_time s |}).

(** The record [_save_sync_time] writes. *)
Definition checkpoint_body (iso : string) : items := [("timestamp", VStr iso)].

(** [_save_sync_time]: every error is logged and dropped. *)
Definition _save_sync_time : M (state W) unit :=
  try_except
    (ex <- ask (target_indices_exists rt meta_index) ;;
     (if negb ex
      then call (EvCreatePlain meta_index) (target_create_plain sv meta_index)
      else ret tt) ;;
     t <- now rt ;;
     let body := checkpoint_body (isoformat sv t) in
     call (EvIndexDoc meta_index "last_sync" body)
          (target_index_doc sv meta_index "last_sync" body))
    (fun _ => ret tt).

(** [get_all_indices]: an error is logged and raised again. *)
Definition get_all_indices (exclude_patterns : list regex)
  : M (state W) (list string) :=
  try_except
    (indices <- ask (source_cat_indices sv) ;;
     ret (filter (_should_replicate exclude_patterns) indices))
    (fun e => raise e).

(** [get_missing_indices] *)
Definition get_missing_indices (exclude_patterns : list regex)
  : M (state W) (list string) :=
  try_except
    (src <- ask (source_cat_indices sv) ;;
     let source_indices := set_of (filter (_should_replicate exclude_patterns) src) in
     tgt <- ask (target_cat_indices sv) ;;
     let target_indices := set_of tgt in
     ret (set_diff source_indices target_indices))
    (fun e => raise e).

(** The [while True] of [replicate_all_indices]; every turn of the loop
    takes one unit of [fuel], and [None] says that the fuel ran out with the
    loop still turning. [Some Completed] is the [break]; [Some Stopped] is a
    [KeyboardInterrupt] on its way out of the loop: no handler inside the
    loop catches it. *)
Fixpoint replicate_loop (fuel : nat) (exclude_patterns : list regex)
    (continuous : bool) (interval : Z) : M (state W) (option run_end) :=
  match fuel with
  | O => ret None
  | S fuel' =>
      _ <- now rt ;;
      indices <- get_all_indices exclude_patterns ;;
      match indices with
      | [] =>
          e <- time_sleep interval ;;
          match e with
          | Interrupted => ret (Some Stopped)
          | Slept => replicate_loop fuel' exclude_patterns continuous interval
          end
      | _ :: _ =>
          _ <- replicate_pass rt indices ;;
          _ <- now rt ;;
          _save_sync_time ;;
          if negb continuous then ret (Some Completed)
          else
            e <- time_sleep interval ;;
            match e with
            | Interrupted => ret (Some Stopped)
            | Slept => replicate_loop fuel' exclude_patterns continuous interval
            end
      end
  end.

(** [replicate_all_indices]: [except KeyboardInterrupt] logs and lets the
    method return, so [Some Stopped] is a return like [Some Completed];
    [except Exception] logs and raises again. *)
Definition replicate_all_indices (fuel : nat) (exclude_patterns : list regex)
    (continuous : bool) (interval : Z) : M (state W) (option run_end) :=
  try_except (replicate_loop fuel exclude_patterns continuous interval)
             (fun e => raise e).

(** The loop of [replicate_missing_indices] with its [total_stats]. *)
Fixpoint missing_loop (indices : list string) (total_stats : Stats)
  : M (state W) Stats :=
  match indices with
  | [] => ret total_stats
  | index :: rest =>
      fun s =>
        match (tf <- _detect_timestamp_field rt index ;;
               set_timestamp_field tf ;;
               replicate_index rt index None) s with
        | (Ok stats, s') =>
            missing_loop rest
              {| processed := processed total_stats + processed stats;
                 updated := updated total_stats + updated stats;
                 failed := failed total_stats + failed stats |} s'
        | (Raise _, s') =>
            missing_loop rest
              {| processed := processed total_stats;
                 updated := updated total_stats;
                 failed := failed total_stats + 1 |} s'
        end
  end.

(** [replicate_missing_indices]; the totals it logs are returned. *)
Definition replicate_missing_indices (exclude_patterns : list regex)
  : M (state W) (option Stats) :=
  try_except
    (indices <- get_missing_indices exclude_patterns ;;
     match indices with
     | [] => ret None
     | _ :: _ =>
         total <- missing_loop indices zero_stats ;;
         ret (Some total)
     end)
    (fun e => raise e).

End Coordinator.

(** An event of a run that loads nothing: the refresh interval of an index
    is disabled, or an index is created. *)
Definition is_quiet (ev : event) : Prop :=
  match ev with
  | EvPutSettings _ v => v = "-1"
  | EvCreate _ _ _ => True
  | _ => False
  end.

(** A write of the checkpoint: the metadata index is created, or the
    record [last_sync] is written to it. *)
Definition is_checkpoint_write (ev : event) : Prop :=
  match ev with
  | EvCreatePlain index => index = meta_index
  | EvIndexDoc index id _ => index = meta_index /\ id = "last_sync"
  | _ => False
  end.

(** The in-memory clusters answering the other requests. *)
Definition toy_isoformat (t : Z) : string :=
  if t =? timedelta_days 1 then "1970-01-02T00:00:00"
  else if t =? timedelta_days 10 then "1970-01-11T00:00:00"
  else "?".

Definition toy_services : Services Toy.world :=
  {| source_cat_indices := fun w => (Ok (map fst (Toy.source w)), w);
     target_cat_indices := fun w => (Ok (map fst (Toy.target w)), w);
     target_create_plain := fun index w =>
       (Ok tt, Toy.with_target w (dict_set index [] (Toy.target w)));
     target_index_doc := fun index id body w =>
       (Ok tt,
        Toy.with_target w
          (dict_set index
             (Toy.upsert (mk_hit id (Some (VDict body)))
                (match dict_get index (Toy.target w) with
                 | Some d => d
                 | None => []
                 end))
             (Toy.target w)));
     isoformat := toy_isoformat;
     sleep := fun interval w =>
       (Slept,
        {| Toy.source := Toy.source w; Toy.target := Toy.target w;
           Toy.refresh := Toy.refresh w;
           Toy.clock := Toy.clock w + interval * 1000000 |}) |}.

(** Source collections [a], [b], [c] and a system collection; the target
    holds [b] and a collection of its own. *)
Definition three_and_one : Toy.world :=
  {| Toy.source := [("a", []); ("b", []); (".kibana", []); ("c", [])];
     Toy.target := [("b", []); ("z", [])];
     Toy.refresh := [];
     Toy.clock := 0 |}.

(** Reserved prefixes of the default patterns. *)
Definition reserved_prefix (name : string) : bool :=
  String.prefix "." name
  || String.prefix "_ilm_history" name
  || String.prefix "_watcher_history" name
  || String.prefix "_security_audit_log" name.

(** The statistics [_replicate_single_index] answers with after an error. *)
Definition one_failure : Stats := {| processed := 0; updated := 0; failed := 1 |}.

(** How many of the futures of a pass hold [one_failure]. *)
Definition failures_of (fs : list (string * Res Stats)) : Z :=
  count_of (fun f => match snd f with
                     | Ok st => failed st =? 1
                     | Raise _ => true
                     end) fs.

(** A source without any collection. *)
Definition empty_source : Toy.world :=
  {| Toy.source := [(".kibana", [])];
     Toy.target := [];
     Toy.refresh := [];
     Toy.clock := 0 |}.

(** A target that holds the metadata index, at clock time one day. *)
Definition day_one : Toy.world :=
  {| Toy.source := [];
     Toy.target := [(".replication_meta", [])];
     Toy.refresh := [];
     Toy.clock := timedelta_days 1 |}.


(** The same clusters with a process that is interrupted in the sleep that
    starts once the clock shows [at_] or more. *)
Definition interrupted_from (at_ : Z) : Services Toy.world :=
  {| source_cat_indices := source_cat_indices toy_services;
     target_cat_indices := target_cat_indices toy_services;
     target_create_plain := target_create_plain toy_services;
     target_index_doc := target_index_doc toy_services;
     isoformat := isoformat toy_services;
     sleep := fun interval w =>
       if at_ <=? Toy.clock w then (Interrupted, w)
       else sleep toy_services interval w |}.

(** The keys [_create_target_index] removes from the ['index'] section. *)
Definition removed_settings : list string := "history" :: system_settings.

(** [if k in d: del d[k]] *)
Definition discard (k : string) (d : items) : items :=
  if dict_mem k d then dict_del k d else d.

(** Settings as the source cluster reports them for an index. *)
Definition reported_settings : items :=
  [("index",
    VDict [("number_of_shards", VStr "3"); ("uuid", VStr "Zx1");
           ("history", VDict [("uuid", VStr "h1")]);
           ("version", VDict [("created", VStr "8100099")]);
           ("number_of_replicas", VStr "1"); ("creation_date", VStr "17");
           ("provided_name", VStr "logs")]);
   ("analysis", VDict [])].

(** A mapping with a date field and a field that bears the name of the
    fingerprint field. *)
Definition reported_mapping : items :=
  [("dynamic", VStr "strict");
   ("properties",
    VDict [("ts", VDict [("type", VStr "date")]);
           ("_doc_hash", VDict [("type", VStr "text")])])].

(** A store whose bulk requests all fail with a transport error. *)
Definition rejects_all {W : Type} (rt : Runtime W) : Prop :=
  forall req w, exists e, fst (target_bulk rt req w) = Raise e.

Definition toy_rejecting : Runtime Toy.world :=
  {| target_put_settings := target_put_settings Toy.runtime;
     target_indices_exists := target_indices_exists Toy.runtime;
     target_indices_create := target_indices_create Toy.runtime;
     target_indices_get := target_indices_get Toy.runtime;
     target_count := target_count Toy.runtime;
     target_search := target_search Toy.runtime;
     target_get := target_get Toy.runtime;
     target_bulk := fun _ w => (Raise (TransportError "bulk"), w);
     source_indices_exists := source_indices_exists Toy.runtime;
     source_indices_get := source_indices_get Toy.runtime;
     source_get_settings := source_get_settings Toy.runtime;
     source_get_mapping := source_get_mapping Toy.runtime;
     source_count := source_count Toy.runtime;
     source_search := source_search Toy.runtime;
     source_scan := source_scan Toy.runtime;
     datetime_now := datetime_now Toy.runtime;
     fromisoformat := fromisoformat Toy.runtime |}.

(** A property definition whose type is [date]. *)
Definition is_date (props : PyVal) : bool :=
  match py_get "type" props with
  | Ok t => py_eq t (VStr "date")
  | Raise _ => false
  end.

(** A property definition that is an object and not of type [date]. *)
Definition plain_property (props : PyVal) : bool :=
  match props with
  | VDict _ => negb (is_date props)
  | _ => false
  end.

(** A fingerprint as a keyword field stores it: a string, or nothing. *)
Definition is_keyword (v : PyVal) : bool :=
  match v with
  | VStr _ | VNone => true
  | _ => false
  end.

(** A mapping whose first property is an object with a date inside and
    whose third property is a date. *)
Definition nested_first_mapping : list (string * items) :=
  [("logs",
    [("properties",
      VDict [("meta", VDict [("type", VStr "object");
                             ("properties",
                              VDict [("seen", VDict [("type", VStr "date")])])]);
             ("user", VDict [("type", VStr "keyword")]);
             ("created", VDict [("type", VStr "date")])])])].

(** The in-memory source, reporting [nested_first_mapping]. *)
Definition toy_with_mapping : Runtime Toy.world :=
  {| target_put_settings := target_put_settings Toy.runtime;
     target_indices_exists := target_indices_exists Toy.runtime;
     target_indices_create := target_indices_create Toy.runtime;
     target_indices_get := target_indices_get Toy.runtime;
     target_count := target_count Toy.runtime;
     target_search := target_search Toy.runtime;
     target_get := target_get Toy.runtime;
     target_bulk := target_bulk Toy.runtime;
     source_indices_exists := source_indices_exists Toy.runtime;
     source_indices_get := source_indices_get Toy.runtime;
     source_get_settings := source_get_settings Toy.runtime;
     source_get_mapping := fun _ w => (Ok nested_first_mapping, w);
     source_count := source_count Toy.runtime;
     source_search := source_search Toy.runtime;
     source_scan := source_scan Toy.runtime;
     datetime_now := datetime_now Toy.runtime;
     fromisoformat := fromisoformat Toy.runtime |}.

(** A collection missing on the target, one short on the target, one in
    step. *)
Definition mixed_clusters : Toy.world :=
  {| Toy.source := [("gone", Toy.docs 2); ("short", Toy.docs 5); ("same", Toy.docs 4)];
     Toy.target := [("short", Toy.docs 3); ("same", Toy.docs 4)];
     Toy.refresh := [];
     Toy.clock := 0 |}.

(** ** Configuration *)

(** A configuration is a dict of sections (['source'], ['target'],
    ['replication']), each a dict of settings. A tuple is written as a
    [VList]. *)
Definition Config : Type := list (string * items).

(** The namespace [parse_args] returns. *)
Record Args : Type := mk_args {
  arg_config : option string;
  arg_missing_only : bool;
  arg_verify_only : bool;
  arg_source_hosts : option string;
  arg_source_user : option string;
  arg_source_password : option string;
  arg_target_hosts : option string;
  arg_target_user : option string;
  arg_target_password : option string;
  arg_continuous : bool;
  arg_interval : Z;
  arg_timestamp_field : option string;
  arg_exclude_patterns : option string
}.

(** The namespace of a command line without any flag: every [store_true]
    is [False], [--interval] has its default, the rest is [None]. *)
Definition default_args : Args :=
  {| arg_config := None; arg_missing_only := false; arg_verify_only := false;
     arg_source_hosts := None; arg_source_user := None;
     arg_source_password := None; arg_target_hosts := None;
     arg_target_user := None; arg_target_password := None;
     arg_continuous := false; arg_interval := 3600;
     arg_timestamp_field := None; arg_exclude_patterns := None |}.

(** The string of an optional argument when it is true: neither [None]
    nor empty. *)
Definition truthy (a : option string) : option string :=
  match a with
  | Some x => if String.eqb x EmptyString then None else Some x
  | None => None
  end.

(** [s.split(sep)] for a one-character separator. *)
Fixpoint split_on (sep : ascii) (s : string) : list string :=
  match s with
  | EmptyString => [EmptyString]
  | String c s' =>
      if Ascii.eqb c sep then EmptyString :: split_on sep s'
      else match split_on sep s' with
           | h :: t => String c h :: t
           | [] => [String c EmptyString]
           end
  end.

Definition str_list (l : list string) : PyVal := VList (map VStr l).

(** [config[section][key] = v] for a section that is present. *)
Definition set_in (section key : string) (v : PyVal) (config : Config) : Config :=
  match dict_get section config with
  | Some d => dict_set section (dict_set key v d) config
  | None => config
  end.

(** [if section in config and 'timeout' in config[section]:
       del config[section]['timeout']] *)
Definition drop_timeout (section : string) (config : Config) : Config :=
  match dict_get section config with
  | Some d => if dict_mem "timeout" d
              then dict_set section (dict_del "timeout" d) config
              else config
  | None => config
  end.

(** [if section not in config: config[section] = {}] *)
Definition ensure_section (section : string) (config : Config) : Config :=
  if dict_mem section config then config else dict_set section [] config.

(** Lines 621-624 and 630-633: hosts and credentials of one cluster. *)
Definition merge_cluster (section : string) (hosts user password : option string)
    (config : Config) : Config :=
  let config :=
    match truthy hosts with
    | Some h => set_in section "hosts" (str_list (split_on "," h)) config
    | None => config
    end in
  match truthy user, truthy password with
  | Some u, Some p => set_in section "basic_auth" (VList [VStr u; VStr p]) config
  | _, _ => config
  end.

(** [file_config.copy() if file_config else {}]: the file's configuration,
    the empty dict when there is no file. *)
Definition file_or_empty (file_config : option Config) : Config :=
  match file_config with Some c => c | None => [] end.

(** [merge_configs(file_config, args)] *)
Definition merge_configs (file_config : option Config) (args : Args) : Config :=
  let config := file_or_empty file_config in
  let config := drop_timeout "source" config in
  let config := drop_timeout "target" config in
  let config := ensure_section "source" config in
  let config := merge_cluster "source" (arg_source_hosts args)
                  (arg_source_user args) (arg_source_password args) config in
  let config := ensure_section "target" config in
  let config := merge_cluster "target" (arg_target_hosts args)
                  (arg_target_user args) (arg_target_password args) config in
  let config := ensure_section "replication" config in
  let config := if arg_continuous args
                then set_in "replication" "continuous" (VBool true) config
                else config in
  let config := if negb (arg_interval args =? 0)
                then set_in "replication" "interval" (VInt (arg_interval args)) config
                else config in
  let config := match truthy (arg_timestamp_field args) with
                | Some f => set_in "replication" "timestamp_field" (VStr f) config
                | None => config
                end in
  match truthy (arg_exclude_patterns args) with
  | Some p => set_in "replication" "exclude_patterns"
                (str_list (split_on "," p)) config
  | None => config
  end.

(** [config.get(section, {}).get(key)] *)
Definition setting (section key : string) (config : Config) : option PyVal :=
  match dict_get section config with
  | Some d => dict_get key d
  | None => None
  end.

(** Lines 718-719 of [main]: the interval handed to the run. *)
Definition main_interval (config : Config) : PyVal :=
  match setting "replication" "interval" config with
  | Some v => v
  | None => VInt 3600
  end.

(** Lines 27-34 and 50-60 of [__init__] for one cluster: the config
    without ['timeout'], ['http_auth'] moved to ['basic_auth'], then the
    two keyword arguments of the client. *)
Definition without_timeout (config : items) : items :=
  filter (fun kv => negb (String.eqb (fst kv) "timeout")) config.

Definition rename_http_auth (config : items) : items :=
  match dict_get "http_auth" config with
  | Some a => dict_set "basic_auth" a (dict_del "http_auth" config)
  | None => config
  end.

Definition client_kwargs (config : items) : Res (PyVal * PyVal) :=
  let config := rename_http_auth (without_timeout config) in
  match dict_get "hosts" config with
  | None => Raise (KeyError "hosts")
  | Some hosts =>
      match dict_get "basic_auth" config with
      | None => Raise (KeyError "basic_auth")
      | Some auth => Ok (hosts, auth)
      end
  end.

(** Lines 659-662 of [main]: the two checks before the replicator is
    built. *)
Definition check_hosts (config : Config) : Res unit :=
  match setting "source" "hosts" config with
  | None => Raise ValueError
  | Some _ =>
      match setting "target" "hosts" config with
      | None => Raise ValueError
      | Some _ => Ok tt
      end
  end.

(** A configuration file with an interval of ten minutes. *)
Definition file_with_interval : Config :=
  [("source", [("hosts", str_list ["http://a:9200"]); ("timeout", VInt 30);
               ("basic_auth", VList [VStr "u"; VStr "p"])]);
   ("target", [("hosts", str_list ["http://b:9200"])]);
   ("replication", [("interval", VInt 600); ("continuous", VBool true)])].

(** ** Tactics *)

Ltac run_monad :=
  unfold bind, ret, raise, try_except, call, ask, of_res, lift, get_local,
         modify_local; simpl.

(** * Properties *)

(** ** SHA-256 against the published test vectors *)

Example sha_abc :
  SHA256.hexdigest "abc" =
  "ba7816bf8f01cfea414140de5dae2223b00361a396177a9cb410ff61f20015ad".
Proof. vm_compute. reflexivity. Qed.

Example sha_empty :
  SHA256.hexdigest EmptyString =
  "e3b0c44298fc1c149afbf4c8996fb92427ae41e4649b934ca495991b7852b855".
Proof. vm_compute. reflexivity. Qed.

Example sha_two_blocks :
  SHA256.hexdigest "abcdbcdecdefdefgefghfghighijhijkijkljklmklmnlmnomnopnopq" =
  "248d6a61d20638b8e5c026930c3e6039a33ce45964ff2167f6ecedd419db06c1".
Proof. vm_compute. reflexivity. Qed.

Example doc_str_example :
  doc_str [("b", VInt (-2)); ("a", VStr "x");
           ("c", VDict [("z", VNone); ("k", VList [VBool true; VInt 0])])]
  = "[('a', 'x'), ('b', -2), ('c', {'z': None, 'k': [True, 0]})]".
Proof. vm_compute. reflexivity. Qed.

(** Characters above the ASCII range: a printable one is kept and encoded
    in two bytes, the no-break space is escaped. *)
Example doc_str_latin :
  doc_str [("k", VStr (String (ascii_of_N 233) (String (ascii_of_N 160) "!")))]
  = ("[('k', '" ++ String (ascii_of_N 195) (String (ascii_of_N 169) "\xa0!')]"))%string.
Proof. vm_compute. reflexivity. Qed.

(** ** The order of keys *)

Lemma ascii_compare_refl (a : ascii) : Ascii.compare a a = Eq.
Proof. unfold Ascii.compare. apply N.compare_refl. Qed.

Lemma ascii_compare_lt_trans (a b c : ascii) :
  Ascii.compare a b = Lt -> Ascii.compare b c = Lt -> Ascii.compare a c = Lt.
Proof.
  unfold Ascii.compare. rewrite !N.compare_lt_iff. apply N.lt_trans.
Qed.

Lemma string_compare_lt_trans (s1 : string) :
  forall s2 s3,
    String.compare s1 s2 = Lt -> String.compare s2 s3 = Lt ->
    String.compare s1 s3 = Lt.
Proof.
  induction s1 as [| a s1 IH]; intros [| b s2] [| c s3]; simpl;
    try discriminate; try reflexivity.
  destruct (Ascii.compare a b) eqn:Hab; try discriminate;
    destruct (Ascii.compare b c) eqn:Hbc; try discriminate; intros H1 H2.
  - apply Ascii.compare_eq_iff in Hab, Hbc. subst.
    rewrite ascii_compare_refl. eauto.
  - apply Ascii.compare_eq_iff in Hab. subst. rewrite Hbc. reflexivity.
  - apply Ascii.compare_eq_iff in Hbc. subst. rewrite Hab. reflexivity.
  - rewrite (ascii_compare_lt_trans _ _ _ Hab Hbc). reflexivity.
Qed.

Lemma ltb_trans (a b c : string) :
  String.ltb a b = true -> String.ltb b c = true -> String.ltb a c = true.
Proof.
  unfold String.ltb.
  destruct (String.compare a b) eqn:Hab; try discriminate.
  destruct (String.compare b c) eqn:Hbc; try discriminate.
  rewrite (string_compare_lt_trans _ _ _ Hab Hbc). reflexivity.
Qed.

Lemma ltb_asym (a b : string) : String.ltb a b = true -> String.ltb b a = false.
Proof.
  unfold String.ltb. rewrite (String.compare_antisym b a).
  destruct (String.compare a b); simpl; congruence.
Qed.

Lemma ltb_total (a b : string) :
  a <> b -> String.ltb a b = false -> String.ltb b a = true.
Proof.
  unfold String.ltb. rewrite (String.compare_antisym b a). intros Hne.
  destruct (String.compare a b) eqn:H; simpl; try congruence.
  apply String.compare_eq_iff in H. contradiction.
Qed.

(** ** [sorted] does not depend on the insertion order *)

Lemma insert_item_comm (x y : string * PyVal) (l : items) :
  fst x <> fst y ->
  insert_item x (insert_item y l) = insert_item y (insert_item x l).
Proof.
  intros Hne.
  assert (Hone : String.ltb (fst x) (fst y) = negb (String.ltb (fst y) (fst x))).
  { destruct (String.ltb (fst y) (fst x)) eqn:E; simpl.
    - apply ltb_asym. exact E.
    - apply ltb_total; [intros H; apply Hne; symmetry; exact H | exact E]. }
  induction l as [| z l IH]; simpl; unfold item_lt.
  - rewrite Hone. destruct (String.ltb (fst y) (fst x)); reflexivity.
  - destruct (String.ltb (fst z) (fst y)) eqn:Ezy;
      destruct (String.ltb (fst z) (fst x)) eqn:Ezx; simpl; unfold item_lt;
      rewrite ?Ezy, ?Ezx.
    + rewrite IH. reflexivity.
    + destruct (String.ltb (fst y) (fst x)) eqn:E; simpl in Hone; rewrite Hone.
      * rewrite (ltb_trans _ _ _ Ezy E) in Ezx. discriminate.
      * simpl; unfold item_lt; rewrite ?Ezy, ?Ezx; reflexivity.
    + destruct (String.ltb (fst y) (fst x)) eqn:E; simpl in Hone.
      * simpl; unfold item_lt; rewrite ?Ezy, ?Ezx; reflexivity.
      * rewrite (ltb_trans _ _ _ Ezx Hone) in Ezy. discriminate.
    + rewrite Hone.
      destruct (String.ltb (fst y) (fst x)) eqn:E; simpl; unfold item_lt;
        rewrite ?Ezy, ?Ezx; reflexivity.
Qed.

Lemma sorted_permutation (l1 l2 : items) :
  Permutation l1 l2 -> NoDup (map fst l1) -> sorted l1 = sorted l2.
Proof.
  induction 1 as [| x l l' Hp IH | x y l | l l' l'' Hp1 IH1 Hp2 IH2];
    simpl; intros Hnd.
  - reflexivity.
  - inversion Hnd; subst. rewrite IH by assumption. reflexivity.
  - inversion Hnd as [| ? ? Hin Hnd']; subst.
    apply insert_item_comm. intros Heq. apply Hin. left. symmetry. exact Heq.
  - rewrite IH1 by assumption. apply IH2.
    eapply Permutation_NoDup; [apply Permutation_map; exact Hp1 | exact Hnd].
Qed.

(** C5, as the code has it. For two field maps with the same keys, each
    bound to the same value written the same way, the fingerprint is
    computed and is the same string in whatever order the keys of the map
    were inserted: the pairs of the map are sorted by key before they are
    rendered and hashed. *)
Theorem fingerprint_insertion_order (m1 m2 : items) :
  NoDup (map fst m1) ->
  Permutation m1 m2 ->
  exists h, _generate_doc_hash (VDict m1) = Ok h /\
            _generate_doc_hash (VDict m2) = Ok h.
Proof.
  intros Hnd Hp. exists (SHA256.hexdigest (doc_str m1)). split; [reflexivity |].
  unfold _generate_doc_hash, doc_str.
  rewrite (sorted_permutation m1 m2 Hp Hnd). reflexivity.
Qed.

Lemma fingerprint_insertion_order_witness :
  exists h,
    _generate_doc_hash (VDict [("user", VStr "ana"); ("age", VInt 7)]) = Ok h /\
    _generate_doc_hash (VDict [("age", VInt 7); ("user", VStr "ana")]) = Ok h.
Proof.
  apply (fingerprint_insertion_order
           [("user", VStr "ana"); ("age", VInt 7)]
           [("age", VInt 7); ("user", VStr "ana")]).
  - simpl. repeat constructor; simpl; intuition discriminate.
  - apply perm_swap.
Defined.

(** C5 fails as stated: the two field maps have the same keys and the
    same values, they are equal as Python values, and only the insertion
    order inside the nested map differs. Sorting reaches the pairs of the
    field map itself; the nested map is rendered in its own order, and the
    fingerprints differ. *)
Lemma nested_order_changes_fingerprint :
  let m1 := [("geo", VDict [("lat", VInt 1); ("lon", VInt 2)])] in
  let m2 := [("geo", VDict [("lon", VInt 2); ("lat", VInt 1)])] in
  py_eq (VDict m1) (VDict m2) = true /\
  _generate_doc_hash (VDict m1) <> _generate_doc_hash (VDict m2).
Proof.
  split; [reflexivity |]. vm_compute. discriminate.
Qed.

(** ** Drift verification *)

Lemma count_of_cons {A : Type} (p : A -> bool) (x : A) (l : list A) :
  count_of p (x :: l) = (if p x then 1 else 0) + count_of p l.
Proof.
  unfold count_of. simpl. destruct (p x); simpl List.length; lia.
Qed.

Lemma count_of_nonneg {A : Type} (p : A -> bool) (l : list A) : 0 <= count_of p l.
Proof. unfold count_of. lia. Qed.

(** The comparison loop in closed form. *)
Lemma compare_samples_spec (ss ts : items) :
  forall st,
    compare_samples ss ts st =
    {| checked := checked st + Z.of_nat (List.length ss);
       mismatches := mismatches st + count_of (absent_in ts) ss
                     + count_of (differs_in ts) ss;
       missing_indices := missing_indices st;
       count_mismatches := count_mismatches st |}.
Proof.
  induction ss as [| [doc_id fp] ss IH]; intros st.
  - destruct st. simpl. unfold count_of. simpl. f_equal; lia.
  - cbn [compare_samples]. rewrite IH. rewrite !count_of_cons.
    cbn [List.length]. rewrite Nat2Z.inj_succ.
    unfold absent_in, differs_in.
    cbn [fst snd checked mismatches missing_indices count_mismatches].
    destruct (dict_get doc_id ts) as [fp' |]; [destruct (py_eq fp fp') |];
      cbn [negb]; f_equal; lia.
Qed.

Lemma sample_partition (ss ts : items) :
  Z.of_nat (List.length ss) =
  count_of (matches_in ts) ss + count_of (absent_in ts) ss
  + count_of (differs_in ts) ss.
Proof.
  induction ss as [| [doc_id fp] ss IH].
  - reflexivity.
  - rewrite !count_of_cons. cbn [List.length]. rewrite Nat2Z.inj_succ, IH.
    unfold matches_in, absent_in, differs_in. cbn [fst snd].
    destruct (dict_get doc_id ts) as [fp' |]; [destruct (py_eq fp fp') |];
      cbn [negb]; lia.
Qed.

Section VerifyProps.

Context {W : Type} (rt : Runtime W).

Local Opaque Z.min.



(** C3, as the code has it. For one collection with the same count [n] on
    both sides, the verifier reports no count mismatch, and as many content
    mismatches as the source sample has ids whose stored fingerprint field
    is absent from, or differs from, the target sample: the stored
    [_doc_hash] values are compared, no fingerprint is recomputed. *)
Theorem verify_reports_stored_fingerprint_drift (index : string) (s : state W)
    (w1 w2 w3 w4 w5 w6 : W) (n : Z) (sh th : list hit) (ss ts : items) :
  target_indices_get rt index (world s) = (Ok tt, w1) ->
  source_indices_get rt index w1 = (Ok tt, w2) ->
  source_count rt index w2 = (Ok n, w3) ->
  target_count rt index w3 = (Ok n, w4) ->
  n <> 0 ->
  source_search rt index (sample_query (Z.min 1000 n)) w4 = (Ok sh, w5) ->
  target_search rt index (sample_query (Z.min 1000 n)) w5 = (Ok th, w6) ->
  sample_of sh [] = Ok ss ->
  sample_of th [] = Ok ts ->
  exists st' s',
    verify_replication rt [index] s = (Ok st', s') /\
    count_mismatches st' = 0 /\
    mismatches st' = count_of (absent_in ts) ss + count_of (differs_in ts) ss /\
    checked st' = Z.of_nat (List.length ss) /\
    missing_indices st' = 0.
Proof.
  intros H1 H2 H3 H4 Hn H5 H6 H7 H8.
  unfold verify_replication, verify_loop, verify_index, verify_sample.
  run_monad.
  rewrite H1. simpl. rewrite H2. simpl. rewrite H3. simpl. rewrite H4. simpl.
  rewrite Z.eqb_refl. simpl.
  destruct (Z.eqb_spec (Z.min 1000 n) 0) as [Hz | Hz]; [lia |]. simpl.
  rewrite H5. simpl. rewrite H7. simpl. rewrite H6. simpl. rewrite H8. simpl.
  rewrite compare_samples_spec. eexists _, _. split; [reflexivity |].
  simpl. repeat split; lia.
Qed.

End VerifyProps.

(** C9, as the code has it. In the comparison of the two samples every id
    of the source sample that is absent from the target sample, and every id
    present in both with unequal fingerprints, adds exactly one to
    [mismatches]; [checked] grows by one for every id of the source sample,
    the matching ones and the mismatching ones alike. *)
Theorem compare_samples_counts (ss ts : items) (st : VerifyStats) :
  mismatches (compare_samples ss ts st)
  = mismatches st + count_of (absent_in ts) ss + count_of (differs_in ts) ss /\
  checked (compare_samples ss ts st)
  = checked st + count_of (matches_in ts) ss
    + count_of (absent_in ts) ss + count_of (differs_in ts) ss /\
  checked (compare_samples ss ts st) = checked st + Z.of_nat (List.length ss) /\
  missing_indices (compare_samples ss ts st) = missing_indices st /\
  count_mismatches (compare_samples ss ts st) = count_mismatches st.
Proof.
  rewrite compare_samples_spec. simpl.
  pose proof (sample_partition ss ts). repeat split; lia.
Qed.

(** The claim's reading of [checked] fails: one matching id and one id
    missing on the target give [checked = 2], not 1. *)
Lemma checked_counts_mismatching_ids :
  let ss := [("a", VStr "h1"); ("b", VStr "h2")] in
  let ts := [("a", VStr "h1")] in
  count_of (matches_in ts) ss = 1 /\
  mismatches (compare_samples ss ts zero_verify) = 1 /\
  checked (compare_samples ss ts zero_verify) = 2 /\
  checked (compare_samples ss ts zero_verify) <> count_of (matches_in ts) ss.
Proof.
  vm_compute. repeat split; discriminate.
Qed.

(** *** The verifier on concrete collections *)

(** C3 fails as stated: the altered field goes unreported, because the
    stored fingerprint fields of the two samples are what is compared. *)
Lemma altered_field_not_reported :
  List.length (Toy.docs 100) = 100%nat /\
  map hit_id (Toy.altered 100) = map hit_id (Toy.docs 100) /\
  tl (Toy.altered 100) = tl (Toy.docs 100) /\
  hd_error (Toy.docs 100) = Some (mk_hit "0" (Some (VDict [("n", VInt 0)]))) /\
  hd_error (Toy.altered 100) = Some (mk_hit "0" (Some (VDict [("n", VInt (-1))]))) /\
  fst (verify_replication Toy.runtime ["logs"] (new_state altered_target))
  = Ok {| checked := 100; mismatches := 0;
          missing_indices := 0; count_mismatches := 0 |} /\
  fmap_mismatches
    (fst (verify_replication Toy.runtime ["logs"] (new_state altered_target)))
  <> Some 1.
Proof.
  vm_compute. repeat split; discriminate.
Qed.

Lemma verify_reports_stored_fingerprint_drift_witness :
  exists st' s',
    verify_replication Toy.runtime ["logs"] (new_state drifted_replica)
    = (Ok st', s') /\
    count_mismatches st' = 0 /\
    mismatches st' = 1 /\
    checked st' = 100.
Proof.
  destruct (verify_reports_stored_fingerprint_drift Toy.runtime "logs"
              (new_state drifted_replica)
              drifted_replica drifted_replica drifted_replica
              drifted_replica drifted_replica drifted_replica 100
              (sampled (map Toy.tag (Toy.docs 100)))
              (sampled (map Toy.tag (Toy.altered 100)))
              (sample_or_empty (sampled (map Toy.tag (Toy.docs 100))))
              (sample_or_empty (sampled (map Toy.tag (Toy.altered 100)))))
    as (st' & s' & Hv & Hc & Hm & Hk & _);
    try reflexivity.
  - discriminate.
  - exists st', s'. split; [exact Hv |]. split; [exact Hc |].
    split; [rewrite Hm; vm_compute; reflexivity | rewrite Hk; reflexivity].
Defined.

(** The loader's own output is reported as drift throughout: the source
    documents carry no fingerprint field, so every sampled id differs. *)
Lemma replica_reported_as_drift :
  fst (verify_replication Toy.runtime ["logs"] (new_state fresh_replica))
  = Ok {| checked := 100; mismatches := 100;
          missing_indices := 0; count_mismatches := 0 |}.
Proof. vm_compute. reflexivity. Qed.

(** ** Checkpoint initialisation *)

(** C4 fails on the code when the metadata collection is absent: the
    existence test answers [False], no exception is raised, and the
    attribute keeps the [None] of [__init__] instead of the clock minus one
    day. *)
Theorem absent_checkpoint_leaves_none :
  fst (target_indices_exists Toy.runtime meta_index no_checkpoint) = Ok false /\
  fst (_init_last_sync_time Toy.runtime (new_state no_checkpoint)) = Ok tt /\
  last_sync_time (snd (_init_last_sync_time Toy.runtime (new_state no_checkpoint)))
  = None /\
  last_sync_time (snd (_init_last_sync_time Toy.runtime (new_state no_checkpoint)))
  <> Some (Toy.clock no_checkpoint - timedelta_days 1).
Proof.
  vm_compute. repeat split; discriminate.
Qed.

Section CheckpointProps.

Context {W : Type} (rt : Runtime W).

(** Whenever the existence test answers [False], the attribute is left as
    it was. *)
Lemma init_last_sync_time_absent_index (s : state W) (w' : W) :
  target_indices_exists rt meta_index (world s) = (Ok false, w') ->
  fst (_init_last_sync_time rt s) = Ok tt /\
  last_sync_time (snd (_init_last_sync_time rt s)) = last_sync_time s.
Proof.
  intros H. unfold _init_last_sync_time. run_monad. rewrite H. simpl.
  split; reflexivity.
Qed.

(** An unreadable metadata index: the clock minus one day. *)
Lemma init_last_sync_time_unreadable (s : state W) (e : exn) (w1 w2 : W) (t : Z) :
  target_indices_exists rt meta_index (world s) = (Raise e, w1) ->
  datetime_now rt w1 = (t, w2) ->
  last_sync_time (snd (_init_last_sync_time rt s)) = Some (t - timedelta_days 1).
Proof.
  intros H1 H2. unfold _init_last_sync_time, now. run_monad.
  rewrite H1. simpl. rewrite H2. reflexivity.
Qed.

(** A metadata index without a readable record: the clock minus one day. *)
Lemma init_last_sync_time_missing_record (s : state W) (e : exn)
    (w1 w2 w3 : W) (t : Z) :
  target_indices_exists rt meta_index (world s) = (Ok true, w1) ->
  target_get rt meta_index "last_sync" w1 = (Raise e, w2) ->
  datetime_now rt w2 = (t, w3) ->
  last_sync_time (snd (_init_last_sync_time rt s)) = Some (t - timedelta_days 1).
Proof.
  intros H1 H2 H3. unfold _init_last_sync_time, now. run_monad.
  rewrite H1. simpl. rewrite H2. simpl. rewrite H3. reflexivity.
Qed.

(** A readable record: the persisted timestamp. *)
Lemma init_last_sync_time_persisted (s : state W) (w1 w2 : W) (h : hit)
    (d ts : PyVal) (t : Z) :
  target_indices_exists rt meta_index (world s) = (Ok true, w1) ->
  target_get rt meta_index "last_sync" w1 = (Ok h, w2) ->
  hit_source h = Some d ->
  getitem "timestamp" d = Ok ts ->
  fromisoformat rt ts = Ok t ->
  last_sync_time (snd (_init_last_sync_time rt s)) = Some t.
Proof.
  intros H1 H2 H3 H4 H5. unfold _init_last_sync_time. run_monad.
  rewrite H1. simpl. rewrite H2. simpl. rewrite H3. simpl. rewrite H4. simpl.
  rewrite H5. reflexivity.
Qed.

End CheckpointProps.

(** The record absent from an existing metadata index: the default. *)
Example missing_record_gives_default :
  last_sync_time (snd (_init_last_sync_time Toy.runtime (new_state no_record)))
  = Some (Toy.clock no_record - timedelta_days 1).
Proof. vm_compute. reflexivity. Qed.

(** A readable record: the persisted timestamp. *)
Example persisted_checkpoint_is_read :
  last_sync_time (snd (_init_last_sync_time Toy.runtime (new_state with_checkpoint)))
  = Some (timedelta_days 1).
Proof. vm_compute. reflexivity. Qed.

(** ** Replication of one collection *)

Section ReplicateProps.

Context {W : Type} (rt : Runtime W).

(** Detection never raises and issues no recorded request. *)
Lemma detect_timestamp_field_total (index : string) (s : state W) :
  exists tf w',
    _detect_timestamp_field rt index s
    = (Ok tf, {| world := w'; log := log s;
                 timestamp_field := timestamp_field s;
                 last_sync_time := last_sync_time s |}).
Proof.
  unfold _detect_timestamp_field. run_monad.
  destruct (source_get_mapping rt index (world s)) as [[m | e] w1]; simpl;
    [| eexists _, _; reflexivity].
  destruct (dict_get index m) as [mm |]; simpl; [| eexists _, _; reflexivity].
  destruct (dict_get "properties" mm) as [[| | | | |props] |]; simpl;
    try (eexists _, _; reflexivity).
  destruct (first_date_field props) as [[f |] | e]; simpl;
    try (eexists _, _; reflexivity).
  destruct (first_nested_date_field props) as [r | e]; simpl;
    eexists _, _; reflexivity.
Qed.

Lemma after_detect_log (index : string) (s : state W) :
  log (after_detect rt index s) = log s.
Proof.
  unfold after_detect, bind, set_timestamp_field.
  destruct (detect_timestamp_field_total index s) as (tf & w' & H).
  rewrite H. reflexivity.
Qed.

(** The requests before the loop: the refresh interval is disabled, then
    the target index is created at most once; [stats] is not touched. *)
Lemma replicate_prepare_log (source_index target_index : string)
    (st : Stats) (s : state W) :
  exists r s' evs,
    replicate_prepare rt source_index target_index (st, s) = (r, (st, s')) /\
    log s' = log s ++ EvPutSettings target_index "-1" :: evs /\
    Forall is_create evs.
Proof.
  unfold replicate_prepare, _create_target_index. run_monad.
  destruct (target_put_settings rt target_index "-1" (world s)) as [[[] | e] w1];
    simpl; [| eexists _, _, []; repeat split; constructor].
  destruct (source_indices_exists rt source_index w1) as [[[|] | e] w2];
    simpl; try (eexists _, _, []; repeat split; constructor).
  destruct (source_get_settings rt source_index w2) as [[settings | e] w3];
    simpl; [| eexists _, _, []; repeat split; constructor].
  destruct (source_get_mapping rt source_index w3) as [[mappings | e] w4];
    simpl; [| eexists _, _, []; repeat split; constructor].
  destruct (target_indices_exists rt target_index w4) as [[[|] | e] w5];
    simpl; try (eexists _, _, []; repeat split; constructor).
  - destruct (source_count rt source_index w5) as [[n | e] w6]; simpl;
      [destruct (n =? 0) |]; eexists _, _, []; repeat split; constructor.
  - destruct settings as [| [index_name index_settings] settings']; simpl;
      [eexists _, _, []; repeat split; constructor |].
    destruct (clean_settings index_settings) as [cleaned | e]; simpl;
      [| eexists _, _, []; repeat split; constructor].
    destruct (dict_get index_name mappings) as [m |]; simpl;
      [| eexists _, _, []; repeat split; constructor].
    destruct (add_checksum_mapping m) as [m' | e]; simpl;
      [| eexists _, _, []; repeat split; constructor].
    destruct (target_indices_create rt target_index cleaned m' w5)
      as [[[] | e] w6]; simpl.
    + destruct (source_count rt source_index w6) as [[n | e] w7]; simpl;
        [destruct (n =? 0) |];
        (eexists _, _, [_]; repeat split;
         [simpl; rewrite <- app_assoc; reflexivity
         | repeat constructor]).
    + eexists _, _, [_]; repeat split;
        [simpl; rewrite <- app_assoc; reflexivity | repeat constructor].
Qed.

(** In the module as written the callee of the batching loop is unbound. *)
Lemma batch_iterator_unbound :
  resolve_batcher module_globals = Raise (NameError "batch_iterator").
Proof. reflexivity. Qed.

(** The three ways out of [replicate_index]. *)
Lemma replicate_index_cases (source_index : string) (target_index : option string)
    (s : state W) :
  replicate_index rt source_index target_index s =
  match replicate_prepare rt source_index (or_else target_index source_index)
          (zero_stats, s) with
  | (Ok None, (st, s')) => (Ok st, s')
  | (Ok (Some _), (_, s')) => (Raise (NameError "batch_iterator"), s')
  | (Raise e, (st, s')) => if is_not_found e then (Ok st, s') else (Raise e, s')
  end.
Proof.
  unfold replicate_index, replicate_index_in, replicate_index_body.
  unfold bind at 1.
  destruct (replicate_prepare rt source_index
              (or_else target_index source_index) (zero_stats, s))
    as [[[n |] | e] [st s']]; reflexivity.
Qed.

(** The refresh interval is written once, to ["-1"], and never again: no
    path of [replicate_index] reaches the restoring request. *)
Lemma replicate_index_never_restores (source_index : string)
    (target_index : option string) (s : state W) :
  exists evs,
    log (snd (replicate_index rt source_index target_index s))
    = log s ++ EvPutSettings (or_else target_index source_index) "-1" :: evs /\
    Forall is_create evs.
Proof.
  rewrite replicate_index_cases.
  destruct (replicate_prepare_log source_index
              (or_else target_index source_index) zero_stats s)
    as (r & s' & evs & Hp & Hl & Hc).
  rewrite Hp. exists evs. split; [| exact Hc].
  destruct r as [[n |] | e]; [| | destruct (is_not_found e)]; exact Hl.
Qed.

Lemma bulk_events_app (l1 l2 : list event) :
  bulk_events (l1 ++ l2) = bulk_events l1 ++ bulk_events l2.
Proof. unfold bulk_events. apply flat_map_app. Qed.

Lemma scan_events_app (l1 l2 : list event) :
  scan_events (l1 ++ l2) = scan_events l1 ++ scan_events l2.
Proof. unfold scan_events. apply flat_map_app. Qed.

Lemma creates_have_no_bulk (evs : list event) :
  Forall is_create evs -> bulk_events evs = [] /\ scan_events evs = [].
Proof.
  induction 1 as [| ev evs Hev _ [IH1 IH2]]; [split; reflexivity |].
  destruct ev; simpl in Hev; try contradiction. simpl. split; assumption.
Qed.

(** Reaching the loop means that the source collection exists and that
    its count is not zero. *)
Lemma replicate_prepare_some_inv (source_index target_index : string)
    (st st' : Stats) (s s' : state W) (n : Z) :
  replicate_prepare rt source_index target_index (st, s) = (Ok (Some n), (st', s')) ->
  n <> 0 /\
  (exists w w', source_indices_exists rt source_index w = (Ok true, w')) /\
  (exists w, source_count rt source_index w = (Ok n, world s')).
Proof.
  unfold replicate_prepare, _create_target_index. run_monad.
  destruct (target_put_settings rt target_index "-1" (world s)) as [[[] | e] w1];
    simpl; [| discriminate].
  destruct (source_indices_exists rt source_index w1) as [[[|] | e] w2] eqn:Hex;
    simpl; try discriminate.
  destruct (source_get_settings rt source_index w2) as [[settings | e] w3];
    simpl; [| discriminate].
  destruct (source_get_mapping rt source_index w3) as [[mappings | e] w4];
    simpl; [| discriminate].
  destruct (target_indices_exists rt target_index w4) as [[[|] | e] w5];
    simpl; try discriminate.
  - destruct (source_count rt source_index w5) as [[k | e] w6] eqn:Hc; simpl;
      [| discriminate].
    destruct (Z.eqb_spec k 0); intros H; inversion H; subst.
    split; [assumption |]. split; [eexists _, _; exact Hex |].
    eexists. exact Hc.
  - destruct settings as [| [index_name index_settings] settings']; simpl;
      [discriminate |].
    destruct (clean_settings index_settings) as [cleaned | e]; simpl;
      [| discriminate].
    destruct (dict_get index_name mappings) as [m |]; simpl; [| discriminate].
    destruct (add_checksum_mapping m) as [m' | e]; simpl; [| discriminate].
    destruct (target_indices_create rt target_index cleaned m' w5)
      as [[[] | e] w6]; simpl; [| discriminate].
    destruct (source_count rt source_index w6) as [[k | e] w7] eqn:Hc; simpl;
      [| discriminate].
    destruct (Z.eqb_spec k 0); intros H; inversion H; subst.
    split; [assumption |]. split; [eexists _, _; exact Hex |].
    eexists. exact Hc.
Qed.

(** The loop is reached when every request before it succeeds, the
    source collection exists, the target holds the index and the count is
    not zero. *)
Lemma replicate_prepare_reaches_loop (source_index target_index : string)
    (s : state W) (w1 w2 w3 w4 w5 w6 : W)
    (settings mappings : list (string * items)) (n : Z) :
  target_put_settings rt target_index "-1" (world s) = (Ok tt, w1) ->
  source_indices_exists rt source_index w1 = (Ok true, w2) ->
  source_get_settings rt source_index w2 = (Ok settings, w3) ->
  source_get_mapping rt source_index w3 = (Ok mappings, w4) ->
  target_indices_exists rt target_index w4 = (Ok true, w5) ->
  source_count rt source_index w5 = (Ok n, w6) ->
  n <> 0 ->
  fst (replicate_prepare rt source_index target_index (zero_stats, s))
  = Ok (Some n).
Proof.
  intros H1 H2 H3 H4 H5 H6 Hn. unfold replicate_prepare. run_monad.
  rewrite H1. simpl. rewrite H2. simpl. rewrite H3. simpl. rewrite H4. simpl.
  rewrite H5. simpl. rewrite H6. simpl.
  destruct (Z.eqb_spec n 0); [contradiction | reflexivity].
Qed.

(** C1, as the code has it. When the requests before the batching loop
    succeed for an existing, non-empty source collection (the loop is
    reached with a document count [n]), [replicate_index] raises
    [NameError] for [batch_iterator]; [_replicate_single_index] turns it
    into the statistics (0, 0, 1); no scan is opened and no bulk request is
    issued. *)
Theorem replicate_index_name_error (index : string) (s s1 : state W)
    (n : Z) (st1 : Stats) :
  replicate_prepare rt index index (zero_stats, after_detect rt index s)
  = (Ok (Some n), (st1, s1)) ->
  replicate_index rt index None (after_detect rt index s)
  = (Raise (NameError "batch_iterator"), s1) /\
  _replicate_single_index rt index s
  = (Ok {| processed := 0; updated := 0; failed := 1 |}, s1) /\
  bulk_events (log s1) = bulk_events (log s) /\
  scan_events (log s1) = scan_events (log s).
Proof.
  intros Hp.
  assert (Hr : replicate_index rt index None (after_detect rt index s)
               = (Raise (NameError "batch_iterator"), s1)).
  { rewrite replicate_index_cases. simpl or_else. rewrite Hp. reflexivity. }
  split; [exact Hr |]. split.
  - destruct (detect_timestamp_field_total index s) as (tf & w' & Hd).
    unfold after_detect, bind, set_timestamp_field in Hr.
    rewrite Hd in Hr. simpl in Hr.
    unfold _replicate_single_index, try_except, bind, set_timestamp_field.
    rewrite Hd. simpl. rewrite Hr. reflexivity.
  - destruct (replicate_prepare_log index index zero_stats
                (after_detect rt index s)) as (r & s' & evs & Hp' & Hl & Hc).
    rewrite Hp in Hp'. inversion Hp'; subst.
    rewrite Hl, after_detect_log, bulk_events_app, scan_events_app.
    destruct (creates_have_no_bulk evs Hc) as [Hb Hs].
    simpl. rewrite Hb, Hs, !app_nil_r. split; reflexivity.
Qed.

(** *** The batching loop *)

Lemma process_batch_spec (t : string) (batch : list hit) :
  forall acc st,
    process_batch t batch acc st =
    (acc ++ tagged t batch,
     {| processed := processed st;
        updated := updated st;
        failed := failed st + Z.of_nat (List.length (untaggable t batch)) |}).
Proof.
  induction batch as [| doc batch IH]; intros acc st.
  - simpl. rewrite app_nil_r, Z.add_0_r. destruct st; reflexivity.
  - cbn [process_batch tagged untaggable flat_map filter].
    destruct (make_action t doc) as [a | e]; rewrite IH.
    + rewrite <- app_assoc. reflexivity.
    + cbn [processed updated failed List.length app].
      rewrite Nat2Z.inj_succ. f_equal. f_equal. unfold untaggable. lia.
Qed.

Lemma tagged_untaggable_length (t : string) (batch : list hit) :
  (List.length (tagged t batch) + List.length (untaggable t batch)
   = List.length batch)%nat.
Proof.
  induction batch as [| doc batch IH]; [reflexivity |].
  cbn [tagged untaggable flat_map filter].
  destruct (make_action t doc); cbn [List.length app]; unfold tagged, untaggable in IH;
    lia.
Qed.

Lemma last_cons_default {A : Type} (l : list A) :
  forall (x d d' : A), last (x :: l) d = last (x :: l) d'.
Proof.
  induction l as [| y l IH]; intros x d d'; [reflexivity |].
  change (last (y :: l) d = last (y :: l) d'). apply IH.
Qed.

(** Every batch is tagged and, unless nothing is left of it, submitted:
    the loop has no way out but its end. *)
Lemma submit_batches_spec (t : string) (batches : list (list hit)) :
  forall futures actions st s,
  exists rs s',
    submit_batches rt t batches futures actions (st, s)
    = (Ok (futures ++ rs, last_actions t batches actions),
       ({| processed := processed st;
           updated := updated st;
           failed := failed st
                     + Z.of_nat (List.length (flat_map (untaggable t) batches)) |},
        s')) /\
    log s' = log s ++ map bulk_event (submitted t batches) /\
    timestamp_field s' = timestamp_field s /\
    last_sync_time s' = last_sync_time s /\
    (accepts_all rt ->
     rs = map (fun a => Ok (Z.of_nat (List.length a), 0)) (submitted t batches)).
Proof.
  induction batches as [| batch batches IH]; intros futures actions st s.
  - exists [], s. simpl. rewrite !app_nil_r, Z.add_0_r.
    destruct st; repeat split; reflexivity.
  - cbn [submit_batches]. unfold bind, get_local, modify_local.
    cbn [fst snd]. rewrite process_batch_spec. cbn [app].
    set (st1 := {| processed := processed st; updated := updated st;
                   failed := failed st
                             + Z.of_nat (List.length (untaggable t batch)) |}).
    assert (Hst : forall s0 : state W,
               ({| processed := processed st1; updated := updated st1;
                   failed := failed st1
                             + Z.of_nat (List.length (flat_map (untaggable t) batches)) |},
                s0)
               = ({| processed := processed st; updated := updated st;
                     failed := failed st
                               + Z.of_nat (List.length
                                             (flat_map (untaggable t) (batch :: batches))) |},
                  s0)).
    { intros s0. unfold st1. cbn [processed updated failed flat_map].
      rewrite length_app, Nat2Z.inj_add. f_equal. f_equal. lia. }
    assert (Hlast : forall acc,
               last_actions t batches (tagged t batch)
               = last_actions t (batch :: batches) acc).
    { intros acc. unfold last_actions. cbn [map last].
      destruct (map (tagged t) batches); [reflexivity |].
      apply last_cons_default. }
    unfold submitted. cbn [map filter].
    destruct (tagged t batch) as [| a l] eqn:Ht.
    + cbn [nonempty fst snd].
      destruct (IH futures [] st1 s) as (rs & s' & Hs & Hl & Htf & Hls & Hacc).
      exists rs, s'. rewrite Hs, Hst, (Hlast actions).
      repeat split; assumption.
    + cbn [nonempty]. unfold call. cbn [fst snd].
      destruct (target_bulk rt (bulk_request_for (a :: l)) (world s))
        as [r w'] eqn:Hb.
      match goal with
      | |- context [submit_batches rt t batches ?f ?ac (?st0, ?s0)] =>
          destruct (IH f ac st0 s0) as (rs & s' & Hs & Hl & Htf & Hls & Hacc)
      end.
      exists (r :: rs), s'. rewrite Hs, Hst, (Hlast actions), <- app_assoc.
      cbn [log timestamp_field last_sync_time] in Hl, Htf, Hls.
      repeat split.
      * rewrite Hl. cbn [map]. rewrite <- app_assoc. reflexivity.
      * exact Htf.
      * exact Hls.
      * intros Ha. cbn [map]. rewrite (Hacc Ha). f_equal.
        specialize (Ha (bulk_request_for (a :: l)) (world s)).
        rewrite Hb in Ha. exact Ha.
Qed.

Lemma collect_results_accepted (l : list (list action)) (actions : list action) :
  forall st,
    collect_results (map (fun a => Ok (Z.of_nat (List.length a), 0)) l) actions st
    = {| processed := processed st + Z.of_nat (List.length (List.concat l));
         updated := updated st + Z.of_nat (List.length (List.concat l));
         failed := failed st |}.
Proof.
  induction l as [| a l IH]; intros st.
  - simpl. rewrite !Z.add_0_r. destruct st; reflexivity.
  - cbn [map collect_results List.concat]. rewrite IH.
    cbn [processed updated failed]. rewrite length_app, Nat2Z.inj_add.
    f_equal; lia.
Qed.

Lemma submitted_length (t : string) (batches : list (list hit)) :
  List.length (List.concat (submitted t batches))
  = List.length (flat_map (tagged t) batches).
Proof.
  unfold submitted. induction batches as [| b batches IH]; [reflexivity |].
  cbn [map filter flat_map]. rewrite length_app.
  destruct (tagged t b) as [| a l]; cbn [nonempty List.concat];
    [| rewrite length_app]; rewrite IH; reflexivity.
Qed.

(** The loading loop of lines 351-392, taken by itself. Whatever the
    documents are, it returns without an exception and issues one bulk
    request, with [raise_on_error] off, for every batch that has a document
    left after tagging, each holding the actions of all its taggable
    documents. When the target indexes every submitted action, a batch of
    [n] documents of which exactly one cannot be tagged adds [n - 1] to
    [processed] and [updated] and 1 to [failed], and the batches around it
    are counted in full. *)
Lemma partial_failure_containment (t : string)
    (before after : list (list hit)) (batch : list hit)
    (st : Stats) (s : state W) :
  accepts_all rt ->
  List.length (untaggable t batch) = 1%nat ->
  exists st' s',
    load_batches rt t (before ++ batch :: after) (st, s) = (Ok tt, (st', s')) /\
    log s' = log s ++ map bulk_event (submitted t before)
                   ++ map bulk_event (submitted t [batch])
                   ++ map bulk_event (submitted t after) /\
    raise_on_error (bulk_request_for (tagged t batch)) = false /\
    Z.of_nat (List.length (tagged t batch)) = Z.of_nat (List.length batch) - 1 /\
    processed st' = processed st
                    + Z.of_nat (List.length (flat_map (tagged t) before))
                    + (Z.of_nat (List.length batch) - 1)
                    + Z.of_nat (List.length (flat_map (tagged t) after)) /\
    updated st' = updated st + (processed st' - processed st) /\
    failed st' = failed st
                 + Z.of_nat (List.length (flat_map (untaggable t) before))
                 + 1
                 + Z.of_nat (List.length (flat_map (untaggable t) after)).
Proof.
  intros Hacc Hone.
  pose proof (tagged_untaggable_length t batch) as Hlen.
  unfold load_batches. unfold bind at 1.
  destruct (submit_batches_spec t (before ++ batch :: after) [] [] st s)
    as (rs & s' & Hs & Hl & _ & _ & Hrs).
  rewrite Hs. unfold modify_local. cbn [fst snd].
  rewrite (Hrs Hacc). cbn [app]. rewrite collect_results_accepted.
  rewrite submitted_length.
  eexists _, s'. split; [reflexivity |].
  cbn [processed updated failed].
  rewrite !flat_map_app. cbn [flat_map]. rewrite !length_app.
  split.
  { rewrite Hl. unfold submitted. rewrite map_app, filter_app, map_app.
    cbn [map filter].
    destruct (nonempty (tagged t batch)); reflexivity. }
  split; [reflexivity |].
  split; [lia |].
  rewrite !Nat2Z.inj_add. repeat split; lia.
Qed.

(** *** The cursor request *)

Lemma scan_events_bulk (l : list (list action)) :
  scan_events (map bulk_event l) = [].
Proof. induction l as [| a l IH]; [reflexivity | exact IH]. Qed.

Lemma load_batches_log (t : string) (batches : list (list hit))
    (st : Stats) (s : state W) :
  exists st' s',
    load_batches rt t batches (st, s) = (Ok tt, (st', s')) /\
    log s' = log s ++ map bulk_event (submitted t batches).
Proof.
  unfold load_batches. unfold bind at 1.
  destruct (submit_batches_spec t batches [] [] st s)
    as (rs & s' & Hs & Hl & _).
  rewrite Hs. unfold modify_local. cbn [fst snd].
  eexists _, s'. split; [reflexivity | exact Hl].
Qed.

(** Whatever [batch_iterator] is bound to, [replicate_index] opens at most
    one cursor, with the request of lines 351-360. *)
Lemma replicate_index_body_scans (g : globals) (source_index t : string)
    (s : state W) :
  exists r st' s' l,
    replicate_index_body rt g source_index t (zero_stats, s) = (r, (st', s')) /\
    scan_events (log s') = scan_events (log s) ++ l /\
    (l = [] \/ l = [scan_request_for source_index]).
Proof.
  unfold replicate_index_body. unfold bind at 1.
  destruct (replicate_prepare_log source_index t zero_stats s)
    as (r & s1 & evs & Hp & Hl & Hc).
  rewrite Hp.
  assert (Hs1 : scan_events (log s1) = scan_events (log s)).
  { rewrite Hl, scan_events_app. simpl.
    rewrite (proj2 (creates_have_no_bulk evs Hc)), app_nil_r. reflexivity. }
  destruct r as [[n |] | e].
  - unfold bind at 1. unfold of_res at 1.
    destruct (resolve_batcher g) as [f | e].
    + unfold bind at 1. unfold lift at 1. unfold call at 1. cbn [fst snd].
      destruct (source_scan rt (scan_request_for source_index) (world s1))
        as [[hits | e] w2].
      * unfold bind at 1.
        match goal with
        | |- context [load_batches rt t ?b (?st0, ?s0)] =>
            destruct (load_batches_log t b st0 s0) as (st2 & s2 & Hb & Hl2)
        end.
        rewrite Hb. unfold bind at 1. unfold lift at 1. unfold call at 1.
        cbn [fst snd].
        destruct (target_put_settings rt t "1s" (world s2)) as [[[] | e] w3];
          (eexists _, _, _, [scan_request_for source_index];
           split; [reflexivity |]; split; [| right; reflexivity];
           cbn [log]; rewrite Hl2; cbn [log];
           rewrite !scan_events_app, scan_events_bulk, Hs1; simpl;
           rewrite !app_nil_r; reflexivity).
      * eexists _, _, _, [scan_request_for source_index].
        split; [reflexivity |]. split; [| right; reflexivity].
        cbn [log]. rewrite scan_events_app, Hs1. reflexivity.
    + eexists _, _, _, []. split; [reflexivity |].
      rewrite app_nil_r. split; [exact Hs1 | left; reflexivity].
  - eexists _, _, _, []. split; [reflexivity |].
    rewrite app_nil_r. split; [exact Hs1 | left; reflexivity].
  - eexists _, _, _, []. split; [reflexivity |].
    rewrite app_nil_r. split; [exact Hs1 | left; reflexivity].
Qed.

(** C10, as the code has it. Every cursor that [replicate_index] opens, in
    a module with any binding of [batch_iterator], is requested for the
    source collection with [preserve_order] on, pages of [batch_size]
    documents and the scroll lifetime of sixty minutes. *)
Theorem scan_requests_preserve_order (g : globals) (source_index : string)
    (target_index : option string) (s : state W) (req : scan_request) :
  In req (scan_events
            (log (snd (replicate_index_in rt g source_index target_index s)))) ->
  In req (scan_events (log s)) \/
  (req = scan_request_for source_index /\
   preserve_order req = true /\
   scan_index req = source_index /\
   scan_size req = 10000 /\
   scan_scroll req = "60m").
Proof.
  unfold replicate_index_in.
  destruct (replicate_index_body_scans g source_index
              (or_else target_index source_index) s)
    as (r & st' & s' & l & Hb & Hl & Hcase).
  rewrite Hb.
  assert (Hin : In req (scan_events (log s')) ->
                In req (scan_events (log s)) \/
                (req = scan_request_for source_index /\
                 preserve_order req = true /\
                 scan_index req = source_index /\
                 scan_size req = 10000 /\
                 scan_scroll req = "60m")).
  { rewrite Hl. intros H. apply in_app_or in H. destruct H as [H | H].
    - left. exact H.
    - destruct Hcase as [-> | ->]; [contradiction |].
      destruct H as [<- | []]. right. repeat split; reflexivity. }
  destruct r as [st0 | e]; [| destruct (is_not_found e)]; exact Hin.
Qed.

(** *** One pass over the collections *)

Lemma replicate_single_index_total (index : string) (s : state W) :
  exists st s', _replicate_single_index rt index s = (Ok st, s').
Proof.
  unfold _replicate_single_index, try_except.
  match goal with
  | |- context [match ?c s with _ => _ end] => destruct (c s) as [[st | e] s']
  end; eexists _, _; reflexivity.
Qed.

Lemma submit_indices_total (indices : list string) :
  forall s,
  exists fs s',
    submit_indices rt indices s = (Ok fs, s') /\
    map fst fs = indices /\
    Forall (fun f => exists st, snd f = Ok st) fs.
Proof.
  induction indices as [| index indices IH]; intros s.
  - exists [], s. repeat split. constructor.
  - cbn [submit_indices].
    destruct (replicate_single_index_total index s) as (st & s1 & H1).
    rewrite H1.
    destruct (IH s1) as (fs & s2 & H2 & Hm & Hf). rewrite H2.
    exists ((index, Ok st) :: fs), s2. repeat split.
    + cbn [map fst]. rewrite Hm. reflexivity.
    + constructor; [exists st; reflexivity | exact Hf].
Qed.

Lemma submit_indices_app (pre post : list string) :
  forall s fs1 s1 fs2 s2,
    submit_indices rt pre s = (Ok fs1, s1) ->
    submit_indices rt post s1 = (Ok fs2, s2) ->
    submit_indices rt (pre ++ post) s = (Ok (fs1 ++ fs2), s2).
Proof.
  induction pre as [| index pre IH]; intros s fs1 s1 fs2 s2 H1 H2.
  - cbn in H1. inversion H1; subst. exact H2.
  - cbn [app submit_indices] in *.
    destruct (_replicate_single_index rt index s) as [r s0].
    destruct (submit_indices_total pre s0) as (fs & s' & Hp & _).
    rewrite Hp in H1. inversion H1; subst.
    rewrite (IH s0 fs s1 fs2 s2 Hp H2). reflexivity.
Qed.

Lemma collect_indices_app (fs1 fs2 : list (string * Res Stats)) :
  forall total,
    collect_indices (fs1 ++ fs2) total
    = collect_indices fs2 (collect_indices fs1 total).
Proof.
  induction fs1 as [| [index [st | e]] fs1 IH]; intros total;
    [reflexivity | |]; cbn [app collect_indices]; apply IH.
Qed.

(** C7. In a pass over [pre ++ index :: post], when [replicate_index]
    raises for [index], [_replicate_single_index] catches the error and
    answers with the statistics (0, 0, 1); every collection of [post] is
    still replicated, and the totals of the pass are those of [pre], one
    more failure, and those of [post]. *)
Theorem failed_collection_does_not_abort_pass (pre post : list string)
    (index : string) (s s_fail : state W) (e : exn) :
  replicate_index rt index None
    (after_detect rt index (snd (submit_indices rt pre s)))
  = (Raise e, s_fail) ->
  _replicate_single_index rt index (snd (submit_indices rt pre s))
  = (Ok {| processed := 0; updated := 0; failed := 1 |}, s_fail) /\
  exists fs1 fs2 s',
    submit_indices rt pre s = (Ok fs1, snd (submit_indices rt pre s)) /\
    map fst fs1 = pre /\
    submit_indices rt post s_fail = (Ok fs2, s') /\
    map fst fs2 = post /\
    replicate_pass rt (pre ++ index :: post) s
    = (Ok (collect_indices fs2
             (add_stats (collect_indices fs1 zero_total)
                        {| processed := 0; updated := 0; failed := 1 |})),
       s') /\
    total_failed (add_stats (collect_indices fs1 zero_total)
                            {| processed := 0; updated := 0; failed := 1 |})
    = total_failed (collect_indices fs1 zero_total) + 1 /\
    total_processed (add_stats (collect_indices fs1 zero_total)
                               {| processed := 0; updated := 0; failed := 1 |})
    = total_processed (collect_indices fs1 zero_total).
Proof.
  intros Hr.
  destruct (submit_indices_total pre s) as (fs1 & s1 & Hpre & Hm1 & _).
  rewrite Hpre in *. cbn [snd] in *.
  assert (Hsingle : _replicate_single_index rt index s1
                    = (Ok {| processed := 0; updated := 0; failed := 1 |}, s_fail)).
  { destruct (detect_timestamp_field_total index s1) as (tf & w' & Hd).
    unfold after_detect, bind, set_timestamp_field in Hr.
    rewrite Hd in Hr. simpl in Hr.
    unfold _replicate_single_index, try_except, bind, set_timestamp_field.
    rewrite Hd. simpl. rewrite Hr. reflexivity. }
  split; [exact Hsingle |].
  destruct (submit_indices_total post s_fail) as (fs2 & s' & Hpost & Hm2 & _).
  exists fs1, fs2, s'.
  split; [reflexivity |]. split; [exact Hm1 |].
  split; [exact Hpost |]. split; [exact Hm2 |].
  split; [| split; cbn; lia].
  unfold replicate_pass, bind, ret.
  rewrite (submit_indices_app pre (index :: post) s fs1 s1
             ((index, Ok {| processed := 0; updated := 0; failed := 1 |}) :: fs2) s').
  - rewrite collect_indices_app. reflexivity.
  - exact Hpre.
  - cbn [submit_indices]. rewrite Hsingle, Hpost. reflexivity.
Qed.

End ReplicateProps.

(** *** Replication on concrete collections *)

Lemma replicate_index_name_error_witness :
  exists s1,
    replicate_index Toy.runtime "logs" None
      (after_detect Toy.runtime "logs" (new_state (live_target (Toy.docs 3))))
    = (Raise (NameError "batch_iterator"), s1) /\
    _replicate_single_index Toy.runtime "logs" (new_state (live_target (Toy.docs 3)))
    = (Ok {| processed := 0; updated := 0; failed := 1 |}, s1) /\
    bulk_events (log s1) = bulk_events (log (new_state (live_target (Toy.docs 3)))) /\
    scan_events (log s1) = scan_events (log (new_state (live_target (Toy.docs 3)))).
Proof.
  eexists.
  apply (replicate_index_name_error Toy.runtime "logs"
           (new_state (live_target (Toy.docs 3))) _ 3 zero_stats).
  vm_compute. reflexivity.
Defined.

(** C1 fails as stated: the source collection exists and holds three
    documents, the target does not hold the index yet; disabling the refresh
    interval raises [NotFoundError], which [replicate_index] answers with
    its untouched statistics. No [NameError], no failure counted. *)
Lemma missing_target_returns_zero_stats :
  let s := new_state (missing_target (Toy.docs 3)) in
  fst (source_indices_exists Toy.runtime "logs" (world s)) = Ok true /\
  fst (source_count Toy.runtime "logs" (world s)) = Ok 3 /\
  fst (replicate_index Toy.runtime "logs" None s) = Ok zero_stats /\
  fst (_replicate_single_index Toy.runtime "logs" s) = Ok zero_stats /\
  fst (replicate_index Toy.runtime "logs" None s)
  <> Raise (NameError "batch_iterator") /\
  fst (_replicate_single_index Toy.runtime "logs" s)
  <> Ok {| processed := 0; updated := 0; failed := 1 |}.
Proof.
  vm_compute. repeat split; discriminate.
Qed.

(** C2 fails on the code. The target holds the index with the default
    refresh interval and the source holds three documents: the run ends in
    the error of the batching loop, and the interval stays at ["-1"]; the
    restoring request is never issued. *)
Theorem refresh_interval_left_disabled :
  let w := live_target (Toy.docs 3) in
  let r := replicate_index Toy.runtime "logs" None (new_state w) in
  dict_get "logs" (Toy.refresh w) = Some "1s" /\
  fst r = Raise (NameError "batch_iterator") /\
  dict_get "logs" (Toy.refresh (world (snd r))) = Some "-1" /\
  refresh_writes "logs" (log (snd r)) = ["-1"].
Proof.
  vm_compute. repeat split.
Qed.

(** The early [return] for an empty collection leaves it disabled too. *)
Example empty_collection_left_disabled :
  let r := replicate_index Toy.runtime "logs" None (new_state (live_target [])) in
  fst r = Ok zero_stats /\
  dict_get "logs" (Toy.refresh (world (snd r))) = Some "-1".
Proof. vm_compute. repeat split. Qed.

(** With a binding for [batch_iterator] the loop runs, and only the path
    without any exception restores the interval. *)
Example bound_batcher_run :
  let r := replicate_index_in Toy.runtime globals_with_batcher "logs" None
             (new_state (live_target (Toy.docs 3))) in
  fst r = Ok {| processed := 3; updated := 3; failed := 0 |} /\
  dict_get "logs" (Toy.refresh (world (snd r))) = Some "1s" /\
  refresh_writes "logs" (log (snd r)) = ["-1"; "1s"] /\
  map hit_id (match dict_get "logs" (Toy.target (world (snd r))) with
              | Some d => d | None => [] end) = ["0"; "1"; "2"].
Proof. vm_compute. repeat split. Qed.

(** With the loop in place, an error of the cursor leaves the interval
    disabled as well: the restoring request stands after the loop, outside
    any [finally]. *)
Example scan_error_left_disabled :
  let r := replicate_index_in
             (Toy.with_failing_scan (TransportError "scroll"))
             globals_with_batcher "logs" None
             (new_state (live_target (Toy.docs 3))) in
  fst r = Raise (TransportError "scroll") /\
  dict_get "logs" (Toy.refresh (world (snd r))) = Some "-1" /\
  refresh_writes "logs" (log (snd r)) = ["-1"].
Proof. vm_compute. repeat split. Qed.

(** C6 fails on the code. The source collection holds three documents,
    one of them without a source object, and the target holds the index. The
    claim has the two other documents submitted in a bulk request and
    [failed = 1] for the third. The run ends in the [NameError] of line 351
    before any batch is formed: [_replicate_single_index] answers (0, 0, 1),
    no bulk request is issued and the target index stays empty. The loop
    itself is written as the claim says: in a module that binds
    [batch_iterator], the same run submits the two documents in one bulk
    request with [raise_on_error] off and counts one failure. *)
Theorem malformed_document_never_reached :
  let s := new_state (live_target [Toy.doc 0; Toy.broken "x"; Toy.doc 1]) in
  let r := _replicate_single_index Toy.runtime "logs" s in
  let b := replicate_index_in Toy.runtime globals_with_batcher "logs" None s in
  fst (source_count Toy.runtime "logs" (world s)) = Ok 3 /\
  fst (replicate_index Toy.runtime "logs" None s)
  = Raise (NameError "batch_iterator") /\
  fst r = Ok {| processed := 0; updated := 0; failed := 1 |} /\
  bulk_events (log (snd r)) = [] /\
  dict_get "logs" (Toy.target (world (snd r))) = Some [] /\
  fst b = Ok {| processed := 2; updated := 2; failed := 1 |} /\
  map (fun q => (map _id (bulk_actions q), raise_on_error q))
      (bulk_events (log (snd b))) = [(["0"; "1"], false)].
Proof.
  vm_compute. repeat split.
Qed.

(** The loop on two batches, the first with a document that cannot be
    tagged. *)
Lemma partial_failure_on_two_batches :
  exists st' s',
    load_batches Toy.runtime "logs"
      [[Toy.doc 0; Toy.broken "x"; Toy.doc 1]; [Toy.doc 2]]
      (zero_stats, new_state (live_target [])) = (Ok tt, (st', s')) /\
    processed st' = 3 /\ updated st' = 3 /\ failed st' = 1 /\
    map (fun r => map _id (bulk_actions r)) (bulk_events (log s'))
    = [["0"; "1"]; ["2"]].
Proof.
  destruct (partial_failure_containment Toy.runtime "logs" []
              [[Toy.doc 2]] [Toy.doc 0; Toy.broken "x"; Toy.doc 1]
              zero_stats (new_state (live_target [])) (fun _ _ => eq_refl))
    as (st' & s' & Hl & Hlog & _ & _ & Hp & Hu & Hf).
  - reflexivity.
  - exists st', s'. split; [exact Hl |].
    split; [rewrite Hp; reflexivity |].
    split; [rewrite Hu, Hp; reflexivity |].
    split; [rewrite Hf; reflexivity |].
    rewrite Hlog. vm_compute. reflexivity.
Qed.

Lemma failed_collection_does_not_abort_pass_witness :
  exists s_fail s',
    _replicate_single_index Toy.runtime "a" (new_state two_collections)
    = (Ok {| processed := 0; updated := 0; failed := 1 |}, s_fail) /\
    replicate_pass Toy.runtime ["a"; "b"] (new_state two_collections)
    = (Ok {| total_processed := 0; total_updated := 0; total_failed := 1;
             total_checked := 0; total_mismatches := 0 |}, s') /\
    refresh_writes "b" (log s') = ["-1"].
Proof.
  destruct (failed_collection_does_not_abort_pass Toy.runtime [] ["b"] "a"
              (new_state two_collections)
              (snd (replicate_index Toy.runtime "a" None
                      (after_detect Toy.runtime "a" (new_state two_collections))))
              (NameError "batch_iterator"))
    as (Hsingle & fs1 & fs2 & s' & Hpre & _ & Hpost & _ & Hpass & _).
  - vm_compute. reflexivity.
  - eexists _, s'. split; [exact Hsingle |].
    cbn in Hpre. inversion Hpre; subst fs1.
    vm_compute in Hpost. inversion Hpost; subst fs2 s'.
    cbn [app] in Hpass.
    split; [rewrite Hpass; vm_compute; reflexivity | vm_compute; reflexivity].
Defined.

(** C10 fails as stated: the cursor request asks for [preserve_order]. *)
Lemma scan_request_asks_for_order :
  let r := replicate_index_in Toy.runtime globals_with_batcher "logs" None
             (new_state (live_target (Toy.docs 3))) in
  scan_events (log (snd r)) = [scan_request_for "logs"] /\
  preserve_order (scan_request_for "logs") = true /\
  ~ (forall req, In req (scan_events (log (snd r))) -> preserve_order req = false).
Proof.
  split; [vm_compute; reflexivity |]. split; [reflexivity |].
  intros H. specialize (H (scan_request_for "logs")).
  assert (Hin : In (scan_request_for "logs")
                  (scan_events
                     (log (snd (replicate_index_in Toy.runtime globals_with_batcher
                                  "logs" None
                                  (new_state (live_target (Toy.docs 3)))))))).
  { vm_compute. left. reflexivity. }
  specialize (H Hin). clear Hin. cbn in H. discriminate H.
Qed.

Lemma scan_requests_preserve_order_witness :
  In (scan_request_for "logs") (scan_events (log (new_state (live_target (Toy.docs 3))))) \/
  (scan_request_for "logs" = scan_request_for "logs" /\
   preserve_order (scan_request_for "logs") = true /\
   scan_index (scan_request_for "logs") = "logs" /\
   scan_size (scan_request_for "logs") = 10000 /\
   scan_scroll (scan_request_for "logs") = "60m").
Proof.
  apply (scan_requests_preserve_order Toy.runtime globals_with_batcher "logs" None
           (new_state (live_target (Toy.docs 3))) (scan_request_for "logs")).
  vm_compute. left. reflexivity.
Defined.

(** * Further properties of the replicator *)

(** ** Exclusion patterns and discovery *)

Lemma star_any_matches (s : string) (b : bool) :
  re_match_here [(AAny, true)] s b = true.
Proof. destruct s; reflexivity. Qed.

Lemma literal_star_is_prefix (p : string) :
  forall s b,
    re_match_here (literal p ++ [(AAny, true)]) s b = String.prefix p s.
Proof.
  induction p as [| c p IH]; intros s b.
  - unfold literal. cbn [list_ascii_of_string map app].
    rewrite star_any_matches. destruct s; reflexivity.
  - unfold literal in *. cbn [list_ascii_of_string map app re_match_here].
    destruct s as [| c' s]; [reflexivity |].
    cbn [atom_ok String.prefix]. rewrite IH.
    destruct (ascii_dec c c') as [-> | Hne].
    + rewrite Ascii.eqb_refl. reflexivity.
    + destruct (Ascii.eqb_spec c c'); [contradiction | reflexivity].
Qed.

Lemma dot_pattern_is_prefix (s : string) :
  re_match [(ABol, false); (AChr ".", false)] s = String.prefix "." s.
Proof.
  unfold re_match. cbn [re_match_here andb].
  destruct s as [| c s]; [reflexivity |].
  cbn [atom_ok String.prefix].
  destruct (ascii_dec "." c) as [<- | Hne].
  - rewrite Ascii.eqb_refl. destruct s; reflexivity.
  - destruct (Ascii.eqb_spec "."%char c); [contradiction |].
    reflexivity.
Qed.

(** X1. The four default patterns are those of the source text, and with
    them a name is replicated exactly when it starts with none of [.],
    [_ilm_history], [_watcher_history], [_security_audit_log]: [re.match]
    anchors a pattern at the beginning, so a name that only contains one of
    these words further on is replicated. *)
Theorem default_patterns_exclude_by_prefix :
  map re_compile default_exclude_sources = map Some default_exclude_patterns /\
  forall name,
    _should_replicate default_exclude_patterns name = negb (reserved_prefix name).
Proof.
  split; [reflexivity |]. intros name.
  unfold _should_replicate, default_exclude_patterns, reserved_prefix.
  cbn [existsb]. rewrite dot_pattern_is_prefix. unfold re_match.
  rewrite !literal_star_is_prefix, orb_false_r, !orb_assoc. reflexivity.
Qed.

Example names_with_reserved_words :
  map (_should_replicate default_exclude_patterns)
      [".kibana"; "_ilm_history-1"; "logs"; "my_ilm_history"; "a.b"; ""]
  = [false; false; true; true; true; true].
Proof. vm_compute. reflexivity. Qed.

Lemma existsb_eqb_in (x : string) (l : list string) :
  existsb (String.eqb x) l = true <-> In x l.
Proof.
  rewrite existsb_exists. split.
  - intros (y & Hin & Heq). apply String.eqb_eq in Heq. subst. exact Hin.
  - intros Hin. exists x. split; [exact Hin | apply String.eqb_refl].
Qed.

Lemma set_of_in (x : string) (l : list string) : In x (set_of l) <-> In x l.
Proof.
  induction l as [| y l IH]; [reflexivity |].
  cbn [set_of]. destruct (existsb (String.eqb y) (set_of l)) eqn:E.
  - apply existsb_eqb_in in E. rewrite IH. cbn [In]. split; [auto |].
    intros [<- | H]; [apply IH; exact E | exact H].
  - cbn [In]. rewrite IH. reflexivity.
Qed.

Lemma set_of_nodup (l : list string) : NoDup (set_of l).
Proof.
  induction l as [| y l IH]; [constructor |].
  cbn [set_of]. destruct (existsb (String.eqb y) (set_of l)) eqn:E.
  - exact IH.
  - constructor; [| exact IH]. intros Hin.
    apply existsb_eqb_in in Hin. congruence.
Qed.

Section DiscoveryProps.

Context {W : Type} (sv : Services W).

(** X2. When both listings answer, [get_missing_indices] returns, without
    repetition, exactly the source names that pass the exclusion patterns and
    are not names of the target; the target's names are taken as they are,
    unfiltered. *)
Theorem missing_indices_are_the_difference (exclude_patterns : list regex)
    (s : state W) (src tgt : list string) (w1 w2 : W) :
  source_cat_indices sv (world s) = (Ok src, w1) ->
  target_cat_indices sv w1 = (Ok tgt, w2) ->
  exists l s',
    get_missing_indices sv exclude_patterns s = (Ok l, s') /\
    NoDup l /\
    forall x,
      In x l <->
      In x src /\ _should_replicate exclude_patterns x = true /\ ~ In x tgt.
Proof.
  intros H1 H2. unfold get_missing_indices. run_monad.
  rewrite H1. simpl. rewrite H2. simpl.
  eexists _, _. split; [reflexivity |]. split.
  - unfold set_diff. apply NoDup_filter. apply set_of_nodup.
  - intros x. unfold set_diff. rewrite filter_In, set_of_in, filter_In.
    rewrite negb_true_iff.
    split.
    + intros [[Hs Hp] Hn]. repeat split; try assumption.
      intros Hin. apply (proj2 (set_of_in x tgt)) in Hin.
      apply (proj2 (existsb_eqb_in x (set_of tgt))) in Hin. congruence.
    + intros (Hs & Hp & Hn). repeat split; try assumption.
      destruct (existsb (String.eqb x) (set_of tgt)) eqn:E; [| reflexivity].
      apply (proj1 (existsb_eqb_in x (set_of tgt))) in E.
      apply (proj1 (set_of_in x tgt)) in E. contradiction.
Qed.

End DiscoveryProps.

Lemma missing_indices_are_the_difference_witness :
  exists l s',
    get_missing_indices toy_services default_exclude_patterns
      (new_state three_and_one) = (Ok l, s') /\
    NoDup l /\
    forall x,
      In x l <->
      In x ["a"; "b"; ".kibana"; "c"] /\
      _should_replicate default_exclude_patterns x = true /\
      ~ In x ["b"; "z"].
Proof.
  apply (missing_indices_are_the_difference toy_services
           default_exclude_patterns (new_state three_and_one)
           ["a"; "b"; ".kibana"; "c"] ["b"; "z"] three_and_one three_and_one);
    reflexivity.
Defined.

Example missing_of_three_and_one :
  fst (get_missing_indices toy_services default_exclude_patterns
         (new_state three_and_one)) = Ok ["a"; "c"].
Proof. vm_compute. reflexivity. Qed.

(** ** A pass in the module as written *)

Section PassProps.

Context {W : Type} (rt : Runtime W).

Lemma quiet_of_creates (t : string) (evs : list event) :
  Forall is_create evs -> Forall is_quiet (EvPutSettings t "-1" :: evs).
Proof.
  intros H. constructor; [reflexivity |].
  induction H as [| ev evs Hev _ IH]; constructor; [| exact IH].
  destruct ev; simpl in *; try contradiction; exact I.
Qed.

(** [replicate_index] answers with untouched statistics or raises, and
    issues quiet requests only. *)
Lemma replicate_index_quiet (source_index : string)
    (target_index : option string) (s : state W) :
  exists r s' evs,
    replicate_index rt source_index target_index s = (r, s') /\
    (r = Ok zero_stats \/ exists e, r = Raise e) /\
    log s' = log s ++ evs /\ Forall is_quiet evs.
Proof.
  rewrite replicate_index_cases.
  destruct (replicate_prepare_log rt source_index
              (or_else target_index source_index) zero_stats s)
    as (r & s' & evs & Hp & Hl & Hc).
  rewrite Hp.
  assert (Hq := quiet_of_creates (or_else target_index source_index) evs Hc).
  destruct r as [[n |] | e]; [| | destruct (is_not_found e)];
    eexists _, s', _; (split; [reflexivity |]); (split; [| split; eassumption]);
    try (left; reflexivity); right; eexists; reflexivity.
Qed.

Lemma replicate_single_index_quiet (index : string) (s : state W) :
  exists st s' evs,
    _replicate_single_index rt index s = (Ok st, s') /\
    (st = zero_stats \/ st = one_failure) /\
    log s' = log s ++ evs /\ Forall is_quiet evs.
Proof.
  destruct (detect_timestamp_field_total rt index s) as (tf & w' & Hd).
  unfold _replicate_single_index, try_except, bind, set_timestamp_field.
  rewrite Hd. cbn [fst snd world log timestamp_field last_sync_time].
  match goal with
  | |- context [replicate_index rt index None ?s0] =>
      destruct (replicate_index_quiet index None s0)
        as (r & s' & evs & Hr & Hcase & Hl & Hq)
  end.
  rewrite Hr. cbn [log] in Hl.
  destruct Hcase as [-> | [e ->]]; eexists _, s', evs;
    (split; [reflexivity |]); (split; [| split; assumption]);
    [left | right]; reflexivity.
Qed.

Lemma submit_indices_quiet (indices : list string) :
  forall s,
  exists fs s' evs,
    submit_indices rt indices s = (Ok fs, s') /\
    List.length fs = List.length indices /\
    Forall (fun f => snd f = Ok zero_stats \/ snd f = Ok one_failure) fs /\
    log s' = log s ++ evs /\ Forall is_quiet evs.
Proof.
  induction indices as [| index indices IH]; intros s.
  - exists [], s, []. rewrite app_nil_r. repeat split; constructor.
  - cbn [submit_indices].
    destruct (replicate_single_index_quiet index s)
      as (st & s1 & evs1 & H1 & Hst & Hl1 & Hq1).
    rewrite H1.
    destruct (IH s1) as (fs & s2 & evs2 & H2 & Hlen & Hf & Hl2 & Hq2).
    rewrite H2. exists ((index, Ok st) :: fs), s2, (evs1 ++ evs2).
    split; [reflexivity |]. split; [cbn [List.length]; rewrite Hlen; reflexivity |].
    split.
    + constructor; [| exact Hf]. cbn [snd].
      destruct Hst as [-> | ->]; [left | right]; reflexivity.
    + split; [rewrite Hl2, Hl1, app_assoc; reflexivity |].
      apply Forall_app. split; assumption.
Qed.

Lemma collect_indices_quiet (fs : list (string * Res Stats)) :
  Forall (fun f => snd f = Ok zero_stats \/ snd f = Ok one_failure) fs ->
  forall total,
    collect_indices fs total =
    {| total_processed := total_processed total;
       total_updated := total_updated total;
       total_failed := total_failed total + failures_of fs;
       total_checked := total_checked total;
       total_mismatches := total_mismatches total |}.
Proof.
  unfold failures_of.
  induction 1 as [| [index r] fs Hr _ IH]; intros total.
  - cbn. rewrite Z.add_0_r. destruct total; reflexivity.
  - rewrite count_of_cons. cbn [snd] in *.
    destruct Hr as [-> | ->]; cbn [collect_indices]; rewrite IH;
      unfold add_stats, zero_stats, one_failure; cbn -[count_of Z.add];
      f_equal; lia.
Qed.

(** A pass returns, and what it sends is quiet. *)
Lemma replicate_pass_returns (indices : list string) (s : state W) :
  exists total s' evs,
    replicate_pass rt indices s = (Ok total, s') /\
    log s' = log s ++ evs /\
    Forall is_quiet evs.
Proof.
  destruct (submit_indices_quiet indices s)
    as (fs & s' & evs & Hs & _ & _ & Hl & Hq).
  unfold replicate_pass, bind, ret. rewrite Hs.
  eexists _, s', evs. split; [reflexivity |]. split; assumption.
Qed.

(** X3. In the module as written a pass over any list of collections,
    on any store, returns with [processed = 0] and [updated = 0]: no cursor is
    opened, no bulk request is issued and no refresh interval is restored;
    the only requests that change the target disable a refresh interval or
    create an index. [failed] counts the collections whose replication
    raised. *)
Theorem pass_loads_nothing (indices : list string) (s : state W) :
  exists total s' evs,
    replicate_pass rt indices s = (Ok total, s') /\
    total_processed total = 0 /\
    total_updated total = 0 /\
    0 <= total_failed total <= Z.of_nat (List.length indices) /\
    log s' = log s ++ evs /\
    Forall is_quiet evs /\
    bulk_events evs = [] /\ scan_events evs = [].
Proof.
  destruct (submit_indices_quiet indices s)
    as (fs & s' & evs & Hs & Hlen & Hf & Hl & Hq).
  unfold replicate_pass, bind, ret. rewrite Hs.
  rewrite (collect_indices_quiet fs Hf).
  eexists _, s', evs. split; [reflexivity |].
  cbn [total_processed total_updated total_failed zero_total].
  split; [reflexivity |]. split; [reflexivity |]. split.
  - unfold failures_of, count_of. rewrite <- Hlen.
    pose proof (filter_length_le
                  (fun f : string * Res Stats =>
                     match snd f with
                     | Ok st => failed st =? 1
                     | Raise _ => true
                     end) fs). lia.
  - split; [exact Hl |]. split; [exact Hq |].
    clear -Hq. induction Hq as [| ev evs Hev _ [IH1 IH2]]; [split; reflexivity |].
    destruct ev; simpl in Hev; try contradiction; simpl; split; assumption.
Qed.

End PassProps.

(** ** The checkpoint and the run *)

Lemma checkpoint_writes_load_nothing (evs : list event) :
  Forall (fun ev => is_quiet ev \/ is_checkpoint_write ev) evs ->
  bulk_events evs = [] /\ scan_events evs = [].
Proof.
  induction 1 as [| ev evs Hev _ [IH1 IH2]]; [split; reflexivity |].
  destruct ev; simpl in Hev; try (destruct Hev; contradiction);
    simpl; split; assumption.
Qed.

Section RunProps.

Context {W : Type} (rt : Runtime W) (sv : Services W).

(** Saving the checkpoint returns; what it sends is written to the
    metadata index. *)
Lemma save_sync_time_returns (s : state W) :
  exists s' evs,
    _save_sync_time rt sv s = (Ok tt, s') /\
    log s' = log s ++ evs /\
    Forall is_checkpoint_write evs.
Proof.
  unfold _save_sync_time, now. run_monad.
  destruct (target_indices_exists rt meta_index (world s)) as [[[|] | e] w1];
    simpl.
  - destruct (datetime_now rt w1) as [t w2]. simpl.
    destruct (target_index_doc sv meta_index "last_sync"
                (checkpoint_body (isoformat sv t)) w2) as [[[] | e] w3];
      simpl; eexists _, [_]; (split; [reflexivity |]);
      (split; [reflexivity |]); repeat constructor.
  - destruct (target_create_plain sv meta_index w1) as [[[] | e] w2]; simpl.
    + destruct (datetime_now rt w2) as [t w3]. simpl.
      destruct (target_index_doc sv meta_index "last_sync"
                  (checkpoint_body (isoformat sv t)) w3) as [[[] | e] w4];
        simpl; eexists _, [_; _]; (split; [reflexivity |]);
        (split; [rewrite <- app_assoc; reflexivity |]); repeat constructor.
    + eexists _, [_]. split; [reflexivity |].
      split; [reflexivity |]. repeat constructor.
  - eexists _, []. split; [reflexivity |].
    split; [rewrite app_nil_r; reflexivity | constructor].
Qed.

(** X4. [_save_sync_time] never raises, whatever the store answers; what
    it sends to change the target is the creation of the metadata index and
    the write of the record [last_sync] there; and it leaves the attribute
    [last_sync_time] of the replicator as it was: the time that is written
    out is not kept in memory. *)
Theorem save_sync_time_absorbs_errors (s : state W) :
  exists s' evs,
    _save_sync_time rt sv s = (Ok tt, s') /\
    log s' = log s ++ evs /\
    Forall is_checkpoint_write evs /\
    last_sync_time s' = last_sync_time s /\
    timestamp_field s' = timestamp_field s.
Proof.
  unfold _save_sync_time, now. run_monad.
  destruct (target_indices_exists rt meta_index (world s)) as [[[|] | e] w1];
    simpl.
  - destruct (datetime_now rt w1) as [t w2]. simpl.
    destruct (target_index_doc sv meta_index "last_sync"
                (checkpoint_body (isoformat sv t)) w2) as [[[] | e] w3];
      simpl; eexists _, [_]; (split; [reflexivity |]);
      (split; [reflexivity |]); (split; [repeat constructor |]);
      split; reflexivity.
  - destruct (target_create_plain sv meta_index w1) as [[[] | e] w2]; simpl.
    + destruct (datetime_now rt w2) as [t w3]. simpl.
      destruct (target_index_doc sv meta_index "last_sync"
                  (checkpoint_body (isoformat sv t)) w3) as [[[] | e] w4];
        simpl; eexists _, [_; _]; (split; [reflexivity |]);
        (split; [rewrite <- app_assoc; reflexivity |]);
        (split; [repeat constructor |]); split; reflexivity.
    + eexists _, [_]. split; [reflexivity |].
      split; [reflexivity |]. split; [repeat constructor |].
      split; reflexivity.
  - eexists _, []. split; [reflexivity |].
    split; [rewrite app_nil_r; reflexivity |]. split; [constructor |].
    split; reflexivity.
Qed.

(** X5. Writing the checkpoint and reading it at the next start agree:
    when the store keeps the record that was indexed and the ISO text of the
    clock reading parses back to it, [_init_last_sync_time] after
    [_save_sync_time] sets [last_sync_time] to the clock reading of the
    save. The metadata index is created first when it is absent. *)
Theorem checkpoint_round_trip (s : state W) (ex : bool)
    (w1 w2 w3 w4 w5 w6 : W) (t : Z) (h : hit) :
  target_indices_exists rt meta_index (world s) = (Ok ex, w1) ->
  (if ex then w2 = w1
   else target_create_plain sv meta_index w1 = (Ok tt, w2)) ->
  datetime_now rt w2 = (t, w3) ->
  target_index_doc sv meta_index "last_sync"
    [("timestamp", VStr (isoformat sv t))] w3 = (Ok tt, w4) ->
  target_indices_exists rt meta_index w4 = (Ok true, w5) ->
  target_get rt meta_index "last_sync" w5 = (Ok h, w6) ->
  hit_source h = Some (VDict [("timestamp", VStr (isoformat sv t))]) ->
  fromisoformat rt (VStr (isoformat sv t)) = Ok t ->
  world (snd (_save_sync_time rt sv s)) = w4 /\
  last_sync_time (snd (_init_last_sync_time rt (snd (_save_sync_time rt sv s))))
  = Some t.
Proof.
  intros H1 H2 H3 H4 H5 H6 H7 H8.
  assert (Hsave : world (snd (_save_sync_time rt sv s)) = w4).
  { unfold _save_sync_time, now, checkpoint_body. run_monad. rewrite H1. simpl.
    destruct ex; simpl.
    - subst w2. rewrite H3. simpl. rewrite H4. reflexivity.
    - rewrite H2. simpl. rewrite H3. simpl. rewrite H4. reflexivity. }
  split; [exact Hsave |].
  apply (init_last_sync_time_persisted rt _ w5 w6 h
           (VDict [("timestamp", VStr (isoformat sv t))])
           (VStr (isoformat sv t)) t).
  - rewrite Hsave. exact H5.
  - exact H6.
  - exact H7.
  - reflexivity.
  - exact H8.
Qed.

(** The listing step of a run, after the clock was read. *)
Lemma get_all_indices_log (exclude_patterns : list regex) (s : state W) :
  log (snd (get_all_indices sv exclude_patterns s)) = log s.
Proof.
  unfold get_all_indices. run_monad.
  destruct (source_cat_indices sv (world s)) as [[l | e] w1]; reflexivity.
Qed.

Lemma now_log (s : state W) :
  exists t s', now rt s = (Ok t, s') /\ log s' = log s.
Proof.
  unfold now. destruct (datetime_now rt (world s)) as [t w1].
  eexists _, _. split; reflexivity.
Qed.


(** X6. A one-shot run that finds at least one eligible collection at its
    first listing returns normally after that one pass, whatever every later
    request answers: the failures of the collections and of the checkpoint
    are absorbed. The module being as it is, the pass has loaded nothing:
    apart from disabling refresh intervals and creating indices, the run
    only writes the checkpoint. *)
Theorem one_shot_run_returns (fuel : nat) (exclude_patterns : list regex)
    (interval : Z) (s s1 : state W) (index : string) (indices : list string) :
  get_all_indices sv exclude_patterns (snd (now rt s))
  = (Ok (index :: indices), s1) ->
  exists s' evs,
    replicate_all_indices rt sv (S fuel) exclude_patterns false interval s
    = (Ok (Some Completed), s') /\
    log s' = log s ++ evs /\
    Forall (fun ev => is_quiet ev \/ is_checkpoint_write ev) evs /\
    bulk_events evs = [] /\ scan_events evs = [].
Proof.
  intros Hg. unfold replicate_all_indices, try_except.
  cbn [replicate_loop]. unfold bind at 1.
  destruct (now_log s) as (t0 & s0 & Hn0 & Hl0). rewrite Hn0 in *.
  cbn [snd] in Hg. unfold bind at 1. rewrite Hg.
  assert (Hl1 : log s1 = log s).
  { pose proof (get_all_indices_log exclude_patterns s0) as H.
    rewrite Hg in H. cbn [snd] in H. congruence. }
  unfold bind at 1.
  destruct (replicate_pass_returns rt (index :: indices) s1)
    as (total & s2 & evs & Hp & Hl2 & Hq).
  rewrite Hp. unfold bind at 1.
  destruct (now_log s2) as (t2 & s3 & Hn2 & Hl3). rewrite Hn2.
  unfold bind at 1.
  destruct (save_sync_time_returns s3) as (s4 & evs' & Hs & Hl4 & Hc).
  rewrite Hs. cbn [negb]. unfold ret.
  assert (Hall : Forall (fun ev => is_quiet ev \/ is_checkpoint_write ev)
                   (evs ++ evs')).
  { apply Forall_app. split.
    - eapply Forall_impl; [| exact Hq]. intros ev H. left. exact H.
    - eapply Forall_impl; [| exact Hc]. intros ev H. right. exact H. }
  exists s4, (evs ++ evs'). split; [reflexivity |].
  split; [rewrite Hl4, Hl3, Hl2, Hl1, app_assoc; reflexivity |].
  split; [exact Hall |]. apply checkpoint_writes_load_nothing. exact Hall.
Qed.



End RunProps.

Lemma checkpoint_round_trip_witness :
  last_sync_time
    (snd (_init_last_sync_time Toy.runtime
            (snd (_save_sync_time Toy.runtime toy_services (new_state day_one)))))
  = Some (timedelta_days 1).
Proof.
  eapply proj2.
  eapply (checkpoint_round_trip Toy.runtime toy_services (new_state day_one) true);
    reflexivity.
Defined.

Lemma one_shot_run_returns_witness :
  exists s' evs,
    replicate_all_indices Toy.runtime toy_services 1 default_exclude_patterns
      false 3600 (new_state two_collections) = (Ok (Some Completed), s') /\
    log s' = log (new_state two_collections) ++ evs /\
    Forall (fun ev => is_quiet ev \/ is_checkpoint_write ev) evs /\
    bulk_events evs = [] /\ scan_events evs = [].
Proof.
  eapply (one_shot_run_returns Toy.runtime toy_services 0
            default_exclude_patterns 3600 (new_state two_collections) _ "a" ["b"]).
  reflexivity.
Defined.

(** What that run sends: the two refresh intervals are disabled, then the
    checkpoint is written to a metadata index created for it. *)
Example one_shot_run_log :
  log (snd (replicate_all_indices Toy.runtime toy_services 1
              default_exclude_patterns false 3600 (new_state two_collections)))
  = [EvPutSettings "a" "-1"; EvPutSettings "b" "-1";
     EvCreatePlain meta_index;
     EvIndexDoc meta_index "last_sync" (checkpoint_body "?")].
Proof. vm_compute. reflexivity. Qed.


(** An interrupt ends both kinds of run with a normal return: a one-shot
    run that waits for a collection to appear, and a continuous run in the
    sleep after its first pass. *)
Example interrupted_runs_return :
  fst (replicate_all_indices Toy.runtime (interrupted_from 0) 5
         default_exclude_patterns false 3600 (new_state empty_source))
  = Ok (Some Stopped) /\
  fst (replicate_all_indices Toy.runtime (interrupted_from 0) 5
         default_exclude_patterns true 3600 (new_state two_collections))
  = Ok (Some Stopped).
Proof. vm_compute. split; reflexivity. Qed.

(** ** The missing-only mode *)

Section MissingProps.

Context {W : Type} (rt : Runtime W) (sv : Services W).

Lemma missing_loop_quiet (indices : list string) :
  forall total s,
  exists total' s' evs,
    missing_loop rt indices total s = (Ok total', s') /\
    processed total' = processed total /\
    updated total' = updated total /\
    failed total <= failed total' <= failed total + Z.of_nat (List.length indices) /\
    log s' = log s ++ evs /\ Forall is_quiet evs.
Proof.
  induction indices as [| index indices IH]; intros total s.
  - exists total, s, []. rewrite app_nil_r. cbn.
    repeat split; try lia; constructor.
  - cbn [missing_loop].
    destruct (detect_timestamp_field_total rt index s) as (tf & w' & Hd).
    unfold bind, set_timestamp_field. rewrite Hd.
    cbn [fst snd world log timestamp_field last_sync_time].
    match goal with
    | |- context [replicate_index rt index None ?s0] =>
        destruct (replicate_index_quiet rt index None s0)
          as (r & s1 & evs1 & Hr & Hcase & Hl1 & Hq1)
    end.
    rewrite Hr. cbn [log] in Hl1.
    destruct Hcase as [-> | [e ->]].
    + match goal with
      | |- context [missing_loop rt indices ?t0 s1] =>
          destruct (IH t0 s1) as (total' & s2 & evs2 & H2 & Hp & Hu & Hf & Hl2 & Hq2)
      end.
      exists total', s2, (evs1 ++ evs2). rewrite H2.
      cbn [processed updated failed zero_stats] in *.
      cbn [List.length]. rewrite Nat2Z.inj_succ.
      repeat split; try lia.
      * rewrite Hl2, Hl1, app_assoc. reflexivity.
      * apply Forall_app. split; assumption.
    + match goal with
      | |- context [missing_loop rt indices ?t0 s1] =>
          destruct (IH t0 s1) as (total' & s2 & evs2 & H2 & Hp & Hu & Hf & Hl2 & Hq2)
      end.
      exists total', s2, (evs1 ++ evs2). rewrite H2.
      cbn [processed updated failed] in *.
      cbn [List.length]. rewrite Nat2Z.inj_succ.
      repeat split; try lia.
      * rewrite Hl2, Hl1, app_assoc. reflexivity.
      * apply Forall_app. split; assumption.
Qed.

(** X9. The missing-only mode, in the module as written and on any store:
    once the two listings answered it never raises, whatever the replication
    of a collection does; its totals show no document processed or updated;
    and it opens no cursor, issues no bulk request and restores no refresh
    interval. It raises only the error of a listing. *)
Theorem missing_mode_loads_nothing (exclude_patterns : list regex)
    (s : state W) :
  exists r s' evs,
    replicate_missing_indices rt sv exclude_patterns s = (r, s') /\
    log s' = log s ++ evs /\
    Forall is_quiet evs /\
    match r with
    | Ok None => fst (get_missing_indices sv exclude_patterns s) = Ok []
    | Ok (Some total) =>
        processed total = 0 /\ updated total = 0 /\
        exists l, fst (get_missing_indices sv exclude_patterns s) = Ok l /\
                  0 <= failed total <= Z.of_nat (List.length l)
    | Raise e => fst (get_missing_indices sv exclude_patterns s) = Raise e
    end.
Proof.
  unfold replicate_missing_indices, try_except. unfold bind at 1.
  assert (Hlog : log (snd (get_missing_indices sv exclude_patterns s)) = log s).
  { unfold get_missing_indices. run_monad.
    destruct (source_cat_indices sv (world s)) as [[src | e] w1]; simpl;
      [| reflexivity].
    destruct (target_cat_indices sv w1) as [[tgt | e] w2]; reflexivity. }
  destruct (get_missing_indices sv exclude_patterns s) as [[[| i l] | e] s1];
    cbn [fst snd] in *.
  - exists (Ok None), s1, []. rewrite app_nil_r.
    repeat split; [exact Hlog | constructor].
  - unfold bind at 1.
    destruct (missing_loop_quiet (i :: l) zero_stats s1)
      as (total & s2 & evs & H2 & Hp & Hu & Hf & Hl & Hq).
    rewrite H2. exists (Ok (Some total)), s2, evs. unfold ret.
    split; [reflexivity |]. split; [rewrite Hl, Hlog; reflexivity |].
    split; [exact Hq |]. cbn [processed updated failed zero_stats] in *.
    split; [exact Hp |]. split; [exact Hu |].
    exists (i :: l). split; [reflexivity | lia].
  - exists (Raise e), s1, []. rewrite app_nil_r.
    repeat split; [exact Hlog | constructor].
Qed.

End MissingProps.

(** On the in-memory clusters the mode does not even create the missing
    collections: disabling the refresh interval of an absent index is the
    first request, and its 404 ends the replication of the collection. *)
Example missing_mode_on_three_and_one :
  let r := replicate_missing_indices Toy.runtime toy_services
             default_exclude_patterns (new_state three_and_one) in
  fst r = Ok (Some zero_stats) /\
  map fst (Toy.target (world (snd r))) = ["b"; "z"] /\
  log (snd r) = [EvPutSettings "a" "-1"; EvPutSettings "c" "-1"].
Proof. vm_compute. repeat split. Qed.

(** ** The schema of the target index *)

Lemma dict_get_set_same {A : Type} (k : string) (v : A) (d : list (string * A)) :
  dict_get k (dict_set k v d) = Some v.
Proof.
  induction d as [| [k' v'] d IH]; cbn [dict_set dict_get].
  - rewrite String.eqb_refl. reflexivity.
  - destruct (String.eqb k k') eqn:E; cbn [dict_get]; rewrite ?E, ?String.eqb_refl;
      [reflexivity | exact IH].
Qed.

Lemma dict_get_set_other {A : Type} (k k0 : string) (v : A) (d : list (string * A)) :
  k <> k0 -> dict_get k (dict_set k0 v d) = dict_get k d.
Proof.
  intros Hne. apply String.eqb_neq in Hne.
  induction d as [| [k' v'] d IH]; cbn [dict_set dict_get].
  - rewrite Hne. reflexivity.
  - destruct (String.eqb k0 k') eqn:E; cbn [dict_get].
    + apply String.eqb_eq in E. subst k'. rewrite Hne. reflexivity.
    + rewrite IH. reflexivity.
Qed.

Lemma dict_get_none_not_in {A : Type} (k : string) (d : list (string * A)) :
  ~ In k (map fst d) -> dict_get k d = None.
Proof.
  induction d as [| [k' v'] d IH]; [reflexivity |]. cbn [map fst In dict_get].
  intros H. destruct (String.eqb_spec k k') as [-> | Hne].
  - exfalso. apply H. left. reflexivity.
  - apply IH. intros Hin. apply H. right. exact Hin.
Qed.

Lemma discard_get_same (k : string) (d : items) :
  NoDup (map fst d) -> dict_get k (discard k d) = None.
Proof.
  unfold discard, dict_mem. destruct (dict_get k d) eqn:E; [| intros _; exact E].
  clear E. induction d as [| [k' v'] d IH]; [reflexivity |].
  cbn [map fst dict_del dict_get]. intros Hnd. inversion Hnd; subst.
  destruct (String.eqb_spec k k') as [-> | Hne].
  - apply dict_get_none_not_in. assumption.
  - cbn [dict_get]. destruct (String.eqb_spec k k'); [contradiction |].
    apply IH. assumption.
Qed.

Lemma dict_del_get_other (k k0 : string) (d : items) :
  k <> k0 -> dict_get k (dict_del k0 d) = dict_get k d.
Proof.
  intros Hne. induction d as [| [k' v'] d IH]; [reflexivity |].
  cbn [dict_del dict_get].
  destruct (String.eqb_spec k0 k') as [<- | Hne'].
  - destruct (String.eqb_spec k k0); [contradiction | reflexivity].
  - cbn [dict_get]. rewrite IH. reflexivity.
Qed.

Lemma discard_get_other (k k0 : string) (d : items) :
  k <> k0 -> dict_get k (discard k0 d) = dict_get k d.
Proof.
  intros Hne. unfold discard. destruct (dict_mem k0 d); [| reflexivity].
  apply dict_del_get_other. exact Hne.
Qed.

Lemma dict_del_keys_incl (k : string) (d : items) :
  forall x, In x (map fst (dict_del k d)) -> In x (map fst d).
Proof.
  induction d as [| [k' v'] d IH]; intros x; [auto |].
  cbn [dict_del]. destruct (String.eqb k k'); cbn [map fst In].
  - auto.
  - intros [H | H]; [left; exact H | right; apply IH; exact H].
Qed.

Lemma discard_nodup (k : string) (d : items) :
  NoDup (map fst d) -> NoDup (map fst (discard k d)).
Proof.
  unfold discard. destruct (dict_mem k d); [| auto].
  induction d as [| [k' v'] d IH]; [auto |].
  cbn [dict_del map fst]. intros Hnd. inversion Hnd; subst.
  destruct (String.eqb k k'); [assumption |].
  cbn [map fst]. constructor; [| apply IH; assumption].
  intros Hin. apply dict_del_keys_incl in Hin. contradiction.
Qed.

Lemma discard_all_get (ks : list string) :
  forall d k,
    NoDup (map fst d) ->
    dict_get k (fold_left (fun d0 setting => discard setting d0) ks d)
    = if existsb (String.eqb k) ks then None else dict_get k d.
Proof.
  induction ks as [| k0 ks IH]; intros d k Hnd; [reflexivity |].
  cbn [fold_left existsb]. rewrite IH by (apply discard_nodup; exact Hnd).
  destruct (String.eqb_spec k k0) as [-> | Hne]; cbn [orb].
  - rewrite discard_get_same by exact Hnd.
    destruct (existsb (String.eqb k0) ks); reflexivity.
  - rewrite discard_get_other by exact Hne. reflexivity.
Qed.

(** An ['index'] section that is no object: a text that holds none of the
    names passes untouched, a text that holds one cannot be cleaned, and
    [None] cannot be searched. *)
Example clean_settings_off_objects :
  clean_settings [("index", VStr "plain")] = Ok [("index", VStr "plain")] /\
  clean_settings [("index", VStr "the uuid")] = Raise TypeError /\
  clean_settings [("index", VList [VStr "version"])] = Raise TypeError /\
  clean_settings [("index", VNone)] = Raise TypeError /\
  clean_settings [("analysis", VDict [])] = Ok [("analysis", VDict [])].
Proof. repeat split. Qed.

(** X10. The settings sent for the target index: when the ['index']
    section is an object (with distinct keys, as every dict has), cleaning
    succeeds; the cleaned section has lost ['history'] and each of the seven
    system settings and has kept every other setting with its value, and
    every other section of the settings is passed on untouched. *)
Theorem cleaned_settings_drop_system_keys (index_settings idx : items) :
  dict_get "index" index_settings = Some (VDict idx) ->
  NoDup (map fst idx) ->
  exists cleaned idx',
    clean_settings index_settings = Ok cleaned /\
    dict_get "index" cleaned = Some (VDict idx') /\
    (forall k, dict_get k idx'
               = if existsb (String.eqb k) removed_settings then None
                 else dict_get k idx) /\
    (forall k, k <> "index" -> dict_get k cleaned = dict_get k index_settings).
Proof.
  intros Hidx Hnd. unfold clean_settings. rewrite Hidx.
  exists (dict_set "index" (VDict (clean_index_section idx)) index_settings),
         (clean_index_section idx).
  split; [reflexivity |]. split; [apply dict_get_set_same |]. split.
  - intros k. unfold clean_index_section, removed_settings.
    change (fold_left _ system_settings ?d)
      with (fold_left (fun d0 setting => discard setting d0) system_settings d).
    change (if dict_mem "history" idx then dict_del "history" idx else idx)
      with (discard "history" idx).
    rewrite discard_all_get by (apply discard_nodup; exact Hnd).
    cbn [existsb]. destruct (String.eqb_spec k "history") as [-> | Hne]; cbn [orb].
    + rewrite discard_get_same by exact Hnd.
      destruct (existsb (String.eqb "history") system_settings); reflexivity.
    + rewrite discard_get_other by exact Hne. reflexivity.
  - intros k Hne. apply dict_get_set_other. exact Hne.
Qed.

Lemma cleaned_settings_drop_system_keys_witness :
  exists cleaned idx',
    clean_settings reported_settings = Ok cleaned /\
    dict_get "index" cleaned = Some (VDict idx') /\
    map fst idx' = ["number_of_shards"; "number_of_replicas"] /\
    dict_get "analysis" cleaned = Some (VDict []).
Proof.
  destruct (cleaned_settings_drop_system_keys reported_settings
              [("number_of_shards", VStr "3"); ("uuid", VStr "Zx1");
               ("history", VDict [("uuid", VStr "h1")]);
               ("version", VDict [("created", VStr "8100099")]);
               ("number_of_replicas", VStr "1"); ("creation_date", VStr "17");
               ("provided_name", VStr "logs")])
    as (cleaned & idx' & Hc & Hi & _ & Ho).
  - reflexivity.
  - repeat constructor; simpl; intuition discriminate.
  - exists cleaned, idx'. split; [exact Hc |]. split; [exact Hi |].
    vm_compute in Hc. inversion Hc; subst cleaned.
    vm_compute in Hi. inversion Hi; subst idx'.
    split; reflexivity.
Defined.

(** X11. The mapping sent for the target index: when the source mapping
    has no ['properties'] or has an object there, the result defines
    [_doc_hash] as a keyword with [doc_values] and [index] off - replacing a
    source field of that name, if there is one - and keeps every other
    property and every other key of the mapping. *)
Theorem mapping_gets_fingerprint_field (mapping props : items) :
  (dict_get "properties" mapping = Some (VDict props) \/
   (dict_get "properties" mapping = None /\ props = [])) ->
  exists mapping' props',
    add_checksum_mapping mapping = Ok mapping' /\
    dict_get "properties" mapping' = Some (VDict props') /\
    dict_get checksum_field props' = Some checksum_mapping /\
    (forall k, k <> checksum_field -> dict_get k props' = dict_get k props) /\
    (forall k, k <> "properties" -> dict_get k mapping' = dict_get k mapping).
Proof.
  intros H. unfold add_checksum_mapping, dict_mem.
  destruct H as [H | [H ->]]; rewrite H.
  - rewrite H. eexists _, _. split; [reflexivity |].
    split; [apply dict_get_set_same |]. split; [apply dict_get_set_same |].
    split; intros k Hne; apply dict_get_set_other; exact Hne.
  - rewrite dict_get_set_same. eexists _, _. split; [reflexivity |].
    split; [apply dict_get_set_same |]. split; [apply dict_get_set_same |].
    split; intros k Hne.
    + apply dict_get_set_other. exact Hne.
    + rewrite !dict_get_set_other by exact Hne. reflexivity.
Qed.

Lemma mapping_gets_fingerprint_field_witness :
  exists mapping' props',
    add_checksum_mapping reported_mapping = Ok mapping' /\
    dict_get "properties" mapping' = Some (VDict props') /\
    dict_get checksum_field props' = Some checksum_mapping /\
    dict_get "ts" props' = Some (VDict [("type", VStr "date")]) /\
    dict_get "dynamic" mapping' = Some (VStr "strict").
Proof.
  destruct (mapping_gets_fingerprint_field reported_mapping
              [("ts", VDict [("type", VStr "date")]);
               ("_doc_hash", VDict [("type", VStr "text")])])
    as (mapping' & props' & Ha & Hp & Hc & Hk & Hm).
  - left. reflexivity.
  - exists mapping', props'. split; [exact Ha |]. split; [exact Hp |].
    split; [exact Hc |]. split.
    + rewrite Hk by discriminate. reflexivity.
    + rewrite Hm by discriminate. reflexivity.
Defined.

(** ** Tagging and loading *)

(** X12. A document whose source is an object (with distinct keys) is
    always tagged: the action is an [index] operation on the target index
    under the document's id; its source holds under [_doc_hash] the
    fingerprint of the fields as they were read - including an earlier
    [_doc_hash], which is then replaced - and every other field with its
    value. *)
Theorem tagged_document_keeps_fields (target_index : string) (doc : hit)
    (d : items) :
  hit_source doc = Some (VDict d) ->
  exists a,
    make_action target_index doc = Ok a /\
    _op_type a = "index" /\ _index a = target_index /\ _id a = hit_id doc /\
    dict_get checksum_field (_source a)
    = Some (VStr (SHA256.hexdigest (doc_str d))) /\
    (forall k, k <> checksum_field -> dict_get k (_source a) = dict_get k d) /\
    List.length (_source a)
    = (if dict_mem checksum_field d then List.length d else S (List.length d)).
Proof.
  intros H. unfold make_action. rewrite H. cbn [_generate_doc_hash].
  eexists. split; [reflexivity |]. cbn [_op_type _index _id _source].
  split; [reflexivity |]. split; [reflexivity |]. split; [reflexivity |].
  split; [apply dict_get_set_same |]. split.
  - intros k Hne. apply dict_get_set_other. exact Hne.
  - unfold dict_mem. generalize (VStr (SHA256.hexdigest (doc_str d))).
    clear H. intros v. induction d as [| [k' v'] d IH]; [reflexivity |].
    cbn [dict_set dict_get]. destruct (String.eqb checksum_field k');
      cbn [List.length]; [reflexivity |].
    rewrite IH. destruct (dict_get checksum_field d); reflexivity.
Qed.

Lemma tagged_document_keeps_fields_witness :
  exists a,
    make_action "logs" (Toy.doc 7) = Ok a /\
    _op_type a = "index" /\ _index a = "logs" /\ _id a = "7" /\
    dict_get checksum_field (_source a)
    = Some (VStr (SHA256.hexdigest "[('n', 7)]")) /\
    dict_get "n" (_source a) = Some (VInt 7) /\
    List.length (_source a) = 2%nat.
Proof.
  destruct (tagged_document_keeps_fields "logs" (Toy.doc 7) [("n", VInt 7)])
    as (a & Ha & Ho & Hi & Hid & Hc & Hk & Hl).
  - reflexivity.
  - exists a. split; [exact Ha |]. split; [exact Ho |]. split; [exact Hi |].
    split; [exact Hid |]. split; [exact Hc |]. split.
    + rewrite Hk by discriminate. reflexivity.
    + rewrite Hl. reflexivity.
Defined.

Lemma collect_results_raised (rs : list (Res (Z * Z))) (actions : list action) :
  Forall (fun r => exists e, r = Raise e) rs ->
  forall st,
    collect_results rs actions st
    = {| processed := processed st;
         updated := updated st;
         failed := failed st
                   + Z.of_nat (List.length rs) * Z.of_nat (List.length actions) |}.
Proof.
  induction 1 as [| r rs [e ->] _ IH]; intros st.
  - cbn. rewrite Z.add_0_r. destruct st; reflexivity.
  - cbn [collect_results]. rewrite IH. cbn [processed updated failed List.length].
    rewrite Nat2Z.inj_succ. f_equal. lia.
Qed.

Section LoaderProps.

Context {W : Type} (rt : Runtime W).

Lemma submit_batches_rejected (t : string) (batches : list (list hit)) :
  rejects_all rt ->
  forall futures actions st s,
  exists rs s' st',
    submit_batches rt t batches futures actions (st, s)
    = (Ok (futures ++ rs, last_actions t batches actions), (st', s')) /\
    Forall (fun r => exists e, r = Raise e) rs /\
    List.length rs = List.length (submitted t batches).
Proof.
  intros Hrej.
  induction batches as [| batch batches IH]; intros futures actions st s.
  - exists [], s, st. rewrite app_nil_r. repeat split. constructor.
  - cbn [submit_batches]. unfold bind, get_local, modify_local.
    cbn [fst snd]. rewrite process_batch_spec. cbn [app].
    assert (Hlast : forall acc,
               last_actions t batches (tagged t batch)
               = last_actions t (batch :: batches) acc).
    { intros acc. unfold last_actions. cbn [map last].
      destruct (map (tagged t) batches); [reflexivity |].
      apply last_cons_default. }
    unfold submitted. cbn [map filter].
    destruct (tagged t batch) as [| a l] eqn:Ht.
    + cbn [nonempty fst snd].
      match goal with
      | |- context [submit_batches rt t batches futures [] (?st0, s)] =>
          destruct (IH futures [] st0 s) as (rs & s' & st' & Hs & Hf & Hlen)
      end.
      exists rs, s', st'. rewrite Hs, (Hlast actions).
      repeat split; assumption.
    + cbn [nonempty]. unfold call. cbn [fst snd].
      destruct (Hrej (bulk_request_for (a :: l)) (world s)) as [e He].
      destruct (target_bulk rt (bulk_request_for (a :: l)) (world s))
        as [r w'] eqn:Hb.
      cbn [fst] in He. subst r.
      match goal with
      | |- context [submit_batches rt t batches ?f ?ac (?st0, ?s0)] =>
          destruct (IH f ac st0 s0) as (rs & s' & st' & Hs & Hf & Hlen)
      end.
      exists (Raise e :: rs), s', st'. rewrite Hs, (Hlast actions), <- app_assoc.
      repeat split.
      * constructor; [exists e; reflexivity | exact Hf].
      * cbn [List.length]. rewrite Hlen. reflexivity.
Qed.

(** X13. How failed bulk requests are counted: when every bulk request
    raises, each one adds to [failed] the number of actions of the last
    batch, not of its own batch; [processed] and [updated] stay as they
    were. With batches of different sizes the count is off from the number
    of documents that were not loaded. *)
Theorem failed_bulks_counted_by_last_batch (t : string)
    (batches : list (list hit)) (st : Stats) (s : state W) :
  rejects_all rt ->
  exists st' s',
    load_batches rt t batches (st, s) = (Ok tt, (st', s')) /\
    processed st' = processed st /\
    updated st' = updated st /\
    failed st' = failed st
                 + Z.of_nat (List.length (flat_map (untaggable t) batches))
                 + Z.of_nat (List.length (submitted t batches))
                   * Z.of_nat (List.length (last_actions t batches [])).
Proof.
  intros Hrej. unfold load_batches. unfold bind at 1.
  destruct (submit_batches_rejected t batches Hrej [] [] st s)
    as (rs & s' & st' & Hs & Hf & Hlen).
  destruct (submit_batches_spec rt t batches [] [] st s)
    as (rs0 & s0 & Hs0 & _).
  assert (Hst : st' = {| processed := processed st;
                         updated := updated st;
                         failed := failed st
                                   + Z.of_nat (List.length
                                                 (flat_map (untaggable t) batches)) |})
    by (rewrite Hs in Hs0; congruence).
  rewrite Hs. unfold modify_local. cbn [fst snd app].
  rewrite (collect_results_raised rs _ Hf).
  eexists _, _. split; [reflexivity |].
  cbn [processed updated failed]. rewrite Hlen, Hst.
  cbn [processed updated failed].
  split; [reflexivity |]. split; reflexivity.
Qed.

End LoaderProps.

Lemma failed_bulks_counted_by_last_batch_witness :
  exists st' s',
    load_batches toy_rejecting "logs" [Toy.docs 3; [Toy.doc 9]]
      (zero_stats, new_state (live_target [])) = (Ok tt, (st', s')) /\
    processed st' = 0 /\ updated st' = 0 /\ failed st' = 2.
Proof.
  destruct (failed_bulks_counted_by_last_batch toy_rejecting "logs"
              [Toy.docs 3; [Toy.doc 9]] zero_stats (new_state (live_target [])))
    as (st' & s' & Hl & Hp & Hu & Hf).
  - intros req w. exists (TransportError "bulk"). reflexivity.
  - exists st', s'. split; [exact Hl |]. split; [exact Hp |].
    split; [exact Hu |]. rewrite Hf. reflexivity.
Defined.

(** ** Detection of the timestamp field *)

Lemma first_date_field_found (before after : items) (f : string) (p : PyVal) :
  Forall (fun e => plain_property (snd e) = true) before ->
  is_date p = true ->
  first_date_field (before ++ (f, p) :: after) = Ok (Some f).
Proof.
  intros Hb Hp. induction Hb as [| [k v] before Hv _ IH]; cbn [app first_date_field].
  - unfold is_date in Hp. destruct (py_get "type" p) as [t | e]; [| discriminate].
    rewrite Hp. reflexivity.
  - cbn [snd] in Hv. unfold plain_property, is_date in Hv.
    destruct v as [| b | z | str | l | l]; try (cbv in Hv; discriminate).
    unfold py_get in Hv |- *. cbv beta iota in Hv |- *.
    apply negb_true_iff in Hv. rewrite Hv. exact IH.
Qed.

Section DetectProps.

Context {W : Type} (rt : Runtime W).

(** X14. Detection answers with the first top-level property of type
    [date], whatever stands before it: object properties with dates inside
    that come earlier in the mapping do not take precedence, because the
    nested properties are looked at only when no top-level date exists. *)
Theorem detect_prefers_top_level_date (index : string) (s : state W)
    (mappings : list (string * items)) (m before after : items)
    (f : string) (p : PyVal) (w1 : W) :
  source_get_mapping rt index (world s) = (Ok mappings, w1) ->
  dict_get index mappings = Some m ->
  dict_get "properties" m = Some (VDict (before ++ (f, p) :: after)) ->
  Forall (fun e => plain_property (snd e) = true) before ->
  is_date p = true ->
  fst (_detect_timestamp_field rt index s) = Ok (Some f).
Proof.
  intros H1 H2 H3 Hb Hp. unfold _detect_timestamp_field. run_monad.
  rewrite H1. simpl. rewrite H2. simpl. rewrite H3. simpl.
  rewrite (first_date_field_found before after f p Hb Hp). reflexivity.
Qed.

End DetectProps.

Lemma detect_prefers_top_level_date_witness :
  fst (_detect_timestamp_field toy_with_mapping "logs"
         (new_state (live_target []))) = Ok (Some "created").
Proof.
  apply (detect_prefers_top_level_date toy_with_mapping "logs"
           (new_state (live_target [])) nested_first_mapping
           [("properties",
             VDict [("meta", VDict [("type", VStr "object");
                                    ("properties",
                                     VDict [("seen", VDict [("type", VStr "date")])])]);
                    ("user", VDict [("type", VStr "keyword")]);
                    ("created", VDict [("type", VStr "date")])])]
           [("meta", VDict [("type", VStr "object");
                            ("properties",
                             VDict [("seen", VDict [("type", VStr "date")])])]);
            ("user", VDict [("type", VStr "keyword")])]
           [] "created" (VDict [("type", VStr "date")]) (live_target []));
    try reflexivity.
  repeat constructor.
Defined.

(** Without a top-level date the first date inside an object is taken. *)
Example nested_date_is_the_fallback :
  first_nested_date_field
    [("meta", VDict [("type", VStr "object");
                     ("properties",
                      VDict [("n", VDict [("type", VStr "long")]);
                             ("seen", VDict [("type", VStr "date")])])]);
     ("user", VDict [("type", VStr "keyword")])]
  = Ok (Some "meta.seen").
Proof. reflexivity. Qed.

(** ** The report of the verifier *)

Lemma count_of_none {A : Type} (p : A -> bool) (l : list A) :
  Forall (fun x => p x = false) l -> count_of p l = 0.
Proof.
  induction 1 as [| x l Hx _ IH]; [reflexivity |].
  rewrite count_of_cons, Hx, IH. reflexivity.
Qed.

Section ReportProps.

Context {W : Type} (rt : Runtime W).

Local Opaque Z.min.

Lemma verify_sample_step (index : string) (n : Z) (st : VerifyStats)
    (s : state W) :
  exists st' s',
    verify_sample rt index n st s = (Ok st', s') /\
    log s' = log s /\
    checked st <= checked st' /\
    mismatches st <= mismatches st' /\
    count_mismatches st' = count_mismatches st /\
    missing_indices st' = missing_indices st.
Proof.
  unfold verify_sample. run_monad.
  destruct (source_search rt index (sample_query n) (world s)) as [[sh | e] w1];
    [| eexists _, _; repeat split; lia].
  destruct (sample_of sh []) as [ss | e];
    [| eexists _, _; repeat split; lia].
  simpl.
  destruct (target_search rt index (sample_query n) w1) as [[th | e] w2];
    [| eexists _, _; repeat split; lia].
  destruct (sample_of th []) as [ts | e];
    [| eexists _, _; repeat split; lia].
  rewrite compare_samples_spec.
  eexists _, _. split; [reflexivity |]. simpl.
  pose proof (count_of_nonneg (absent_in ts) ss).
  pose proof (count_of_nonneg (differs_in ts) ss).
  repeat split; lia.
Qed.

Lemma verify_index_step (index : string) (st : VerifyStats) (s : state W) :
  exists st' s',
    verify_index rt index st s = (Ok st', s') /\
    log s' = log s /\
    checked st <= checked st' /\
    count_mismatches st <= count_mismatches st' /\
    missing_indices st <= missing_indices st' <= missing_indices st + 1 /\
    (missing_indices st' - missing_indices st)
    + (count_mismatches st' - count_mismatches st)
    <= mismatches st' - mismatches st.
Proof.
  unfold verify_index. run_monad.
  destruct (target_indices_get rt index (world s)) as [[[] | e] w1]; simpl.
  - destruct (source_indices_get rt index w1) as [[[] | e] w2]; simpl.
    + destruct (source_count rt index w2) as [[sc | e] w3]; simpl;
        [| eexists _, _; repeat split; lia].
      destruct (target_count rt index w3) as [[tc | e] w4]; simpl;
        [| eexists _, _; repeat split; lia].
      set (st1 := if negb (sc =? tc)
                  then add_count_diff st (Z.abs (sc - tc)) else st).
      assert (Hc : checked st1 = checked st /\
                   count_mismatches st <= count_mismatches st1 /\
                   missing_indices st1 = missing_indices st /\
                   count_mismatches st1 - count_mismatches st
                   = mismatches st1 - mismatches st).
      { unfold st1. destruct (sc =? tc); simpl; repeat split; lia. }
      destruct Hc as (Hc1 & Hc2 & Hc3 & Hc4).
      destruct (Z.min 1000 sc =? 0).
      * eexists _, _. split; [reflexivity |]. simpl. repeat split; lia.
      * match goal with
        | |- context [verify_sample rt index ?n st1 ?s0] =>
            destruct (verify_sample_step index n st1 s0)
              as (st' & s' & Hv & Hl & Hk & Hm & Hcm & Hmi)
        end.
        rewrite Hv. exists st', s'. split; [reflexivity |].
        simpl in Hl. repeat split; try lia. exact Hl.
    + destruct (is_not_found e); simpl; eexists _, _;
        (split; [reflexivity |]); simpl; repeat split; lia.
  - destruct (is_not_found e); simpl; eexists _, _;
      (split; [reflexivity |]); simpl; repeat split; lia.
Qed.




(** X15. The verifier never raises and issues no request that changes a
    cluster, on any store and any list of collections. In its report no
    counter is negative, [missing_indices] is at most the number of
    collections, and [mismatches] is at least [missing_indices +
    count_mismatches]: the difference [mismatches - count_mismatches], which
    [main] prints as the content mismatches, also counts every missing
    collection. *)
Theorem verify_report_invariants (indices : list string) (s : state W) :
  exists st s',
    verify_replication rt indices s = (Ok st, s') /\
    log s' = log s /\
    0 <= checked st /\
    0 <= count_mismatches st /\
    0 <= missing_indices st <= Z.of_nat (List.length indices) /\
    missing_indices st + count_mismatches st <= mismatches st.
Proof.
  unfold verify_replication.
  assert (H : forall st0 s0, exists st s',
             verify_loop rt indices st0 s0 = (Ok st, s') /\
             log s' = log s0 /\
             checked st0 <= checked st /\
             count_mismatches st0 <= count_mismatches st /\
             missing_indices st0 <= missing_indices st
             <= missing_indices st0 + Z.of_nat (List.length indices) /\
             (missing_indices st - missing_indices st0)
             + (count_mismatches st - count_mismatches st0)
             <= mismatches st - mismatches st0).
  { induction indices as [| index indices IH]; intros st0 s0.
    - exists st0, s0. cbn. repeat split; lia.
    - cbn [verify_loop]. unfold bind.
      destruct (verify_index_step index st0 s0)
        as (st1 & s1 & H1 & Hl1 & Hk1 & Hc1 & Hm1 & Hd1).
      rewrite H1.
      destruct (IH st1 s1) as (st2 & s2 & H2 & Hl2 & Hk2 & Hc2 & Hm2 & Hd2).
      rewrite H2. exists st2, s2. split; [reflexivity |].
      cbn [List.length]. rewrite Nat2Z.inj_succ.
      repeat split; try lia. congruence. }
  destruct (H zero_verify s) as (st & s' & Hv & Hl & Hk & Hc & Hm & Hd).
  exists st, s'. cbn in *. repeat split; try assumption; lia.
Qed.

End ReportProps.


(** One collection missing on the target, one two documents short, one in
    step: the missing collection is part of the printed content
    mismatches. *)
Example report_of_mixed_clusters :
  fst (verify_replication Toy.runtime ["gone"; "short"; "same"]
         (new_state mixed_clusters))
  = Ok {| checked := 9; mismatches := 5;
          missing_indices := 1; count_mismatches := 2 |}.
Proof. vm_compute. reflexivity. Qed.

(** ** Samples *)

Lemma dict_set_keys {A : Type} (k : string) (v : A) (d : list (string * A)) :
  forall x, In x (map fst (dict_set k v d)) <-> x = k \/ In x (map fst d).
Proof.
  induction d as [| [k' v'] d IH]; intros x; cbn [dict_set map fst In].
  - intuition.
  - destruct (String.eqb_spec k k') as [-> | Hne]; cbn [map fst In].
    + intuition.
    + rewrite IH. intuition.
Qed.

Lemma dict_set_nodup {A : Type} (k : string) (v : A) (d : list (string * A)) :
  NoDup (map fst d) -> NoDup (map fst (dict_set k v d)).
Proof.
  induction d as [| [k' v'] d IH]; cbn [dict_set map fst]; intros Hnd.
  - repeat constructor. intros [].
  - inversion Hnd; subst.
    destruct (String.eqb_spec k k') as [-> | Hne]; cbn [map fst].
    + constructor; assumption.
    + constructor; [| apply IH; assumption].
      rewrite dict_set_keys. intros [-> | Hin]; [apply Hne; reflexivity | contradiction].
Qed.

Lemma sample_of_nodup (hits : list hit) :
  forall acc ss,
    sample_of hits acc = Ok ss -> NoDup (map fst acc) -> NoDup (map fst ss).
Proof.
  induction hits as [| h hits IH]; intros acc ss; cbn [sample_of].
  - intros H Hnd. inversion H; subst. exact Hnd.
  - destruct (hit_source h) as [src |]; [| discriminate].
    destruct (py_get checksum_field src) as [fp | e]; [| discriminate].
    intros H Hnd. apply (IH _ _ H). apply dict_set_nodup. exact Hnd.
Qed.

Lemma dict_get_of_member (d : items) :
  NoDup (map fst d) ->
  forall k v, In (k, v) d -> dict_get k d = Some v.
Proof.
  induction d as [| [k' v'] d IH]; intros Hnd k v Hin; [contradiction |].
  cbn [map fst] in Hnd. inversion Hnd as [| ? ? Hnotin Hnd']; subst.
  cbn [dict_get]. destruct Hin as [Heq | Hin].
  - inversion Heq; subst. rewrite String.eqb_refl. reflexivity.
  - destruct (String.eqb_spec k k') as [-> | Hne].
    + exfalso. apply Hnotin. apply (in_map fst) in Hin. exact Hin.
    + apply IH; assumption.
Qed.

Lemma keyword_eq_refl (v : PyVal) : is_keyword v = true -> py_eq v v = true.
Proof.
  destruct v; try discriminate; intros _; [reflexivity |].
  cbn. apply String.eqb_refl.
Qed.

(** X16. Two samples that are the same report no drift: when the sample
    of the target is the one of the source, built from any hits, and the
    fingerprints are strings or absent, the comparison leaves [mismatches]
    as it was and adds the size of the sample to [checked]. *)
Theorem identical_samples_report_no_drift (hits : list hit) (ss : items)
    (st : VerifyStats) :
  sample_of hits [] = Ok ss ->
  Forall (fun e => is_keyword (snd e) = true) ss ->
  compare_samples ss ss st
  = {| checked := checked st + Z.of_nat (List.length ss);
       mismatches := mismatches st;
       missing_indices := missing_indices st;
       count_mismatches := count_mismatches st |}.
Proof.
  intros Hs Hk.
  assert (Hnd : NoDup (map fst ss))
    by (apply (sample_of_nodup hits [] ss Hs); constructor).
  rewrite compare_samples_spec.
  assert (Hget : forall e, In e ss -> dict_get (fst e) ss = Some (snd e)).
  { intros [k v] Hin. apply dict_get_of_member; assumption. }
  rewrite (count_of_none (absent_in ss) ss), (count_of_none (differs_in ss) ss).
  - rewrite !Z.add_0_r. reflexivity.
  - rewrite Forall_forall in *. intros e Hin. unfold differs_in.
    rewrite (Hget e Hin), (keyword_eq_refl _ (Hk e Hin)). reflexivity.
  - rewrite Forall_forall. intros e Hin. unfold absent_in.
    rewrite (Hget e Hin). reflexivity.
Qed.

Lemma identical_samples_report_no_drift_witness :
  let ss := sample_or_empty (sampled (map Toy.tag (Toy.docs 3))) in
  compare_samples ss ss zero_verify
  = {| checked := 3; mismatches := 0; missing_indices := 0; count_mismatches := 0 |}.
Proof.
  cbv zeta.
  rewrite (identical_samples_report_no_drift
             (sampled (map Toy.tag (Toy.docs 3)))
             (sample_or_empty (sampled (map Toy.tag (Toy.docs 3)))) zero_verify).
  - reflexivity.
  - reflexivity.
  - repeat constructor.
Defined.

(** ** The timestamp field *)

Section TimestampProps.

Context {W : Type} (rt : Runtime W).

Lemma replicate_prepare_attributes (source_index target_index : string)
    (st : Stats) (s : state W) :
  timestamp_field (snd (snd (replicate_prepare rt source_index target_index (st, s))))
  = timestamp_field s.
Proof.
  unfold replicate_prepare, _create_target_index. run_monad.
  destruct (target_put_settings rt target_index "-1" (world s)) as [[[] | e] w1];
    simpl; [| reflexivity].
  destruct (source_indices_exists rt source_index w1) as [[[|] | e] w2];
    simpl; try reflexivity.
  destruct (source_get_settings rt source_index w2) as [[settings | e] w3];
    simpl; [| reflexivity].
  destruct (source_get_mapping rt source_index w3) as [[mappings | e] w4];
    simpl; [| reflexivity].
  destruct (target_indices_exists rt target_index w4) as [[[|] | e] w5];
    simpl; try reflexivity.
  - destruct (source_count rt source_index w5) as [[n | e] w6]; simpl;
      [destruct (n =? 0) |]; reflexivity.
  - destruct settings as [| [index_name index_settings] settings']; simpl;
      [reflexivity |].
    destruct (clean_settings index_settings) as [cleaned | e]; simpl;
      [| reflexivity].
    destruct (dict_get index_name mappings) as [m |]; simpl; [| reflexivity].
    destruct (add_checksum_mapping m) as [m' | e]; simpl; [| reflexivity].
    destruct (target_indices_create rt target_index cleaned m' w5)
      as [[[] | e] w6]; simpl; [| reflexivity].
    destruct (source_count rt source_index w6) as [[n | e] w7]; simpl;
      [destruct (n =? 0) |]; reflexivity.
Qed.

Lemma replicate_index_attributes (source_index : string)
    (target_index : option string) (s : state W) :
  timestamp_field (snd (replicate_index rt source_index target_index s))
  = timestamp_field s.
Proof.
  rewrite replicate_index_cases.
  pose proof (replicate_prepare_attributes source_index
                (or_else target_index source_index) zero_stats s) as H.
  destruct (replicate_prepare rt source_index
              (or_else target_index source_index) (zero_stats, s))
    as [[[n |] | e] [st s']]; cbn [snd] in *;
    [| | destruct (is_not_found e)]; exact H.
Qed.

Lemma detect_reads_the_world_only (index : string) (s s0 : state W) :
  world s0 = world s ->
  fst (_detect_timestamp_field rt index s0) = fst (_detect_timestamp_field rt index s) /\
  world (snd (_detect_timestamp_field rt index s0))
  = world (snd (_detect_timestamp_field rt index s)).
Proof.
  intros Hw. unfold _detect_timestamp_field. run_monad. rewrite Hw.
  destruct (source_get_mapping rt index (world s)) as [[m | e] w1]; simpl;
    [| split; reflexivity].
  destruct (dict_get index m) as [mm |]; simpl; [| split; reflexivity].
  destruct (dict_get "properties" mm) as [[| | | | |props] |]; simpl;
    try (split; reflexivity).
  destruct (first_date_field props) as [[f |] | e]; simpl;
    try (split; reflexivity).
  destruct (first_nested_date_field props) as [r | e]; simpl; split; reflexivity.
Qed.

(** X17. A timestamp field set on the replicator beforehand - [main]
    stores the configured one there - is never used by a replication: after
    [_replicate_single_index] the attribute holds what detection found for
    that collection, [None] included, whatever it held before. *)
Theorem configured_timestamp_field_is_overwritten (index : string)
    (s : state W) (configured : option string) :
  let s0 := {| world := world s; log := log s;
               timestamp_field := configured;
               last_sync_time := last_sync_time s |} in
  exists detected,
    fst (_detect_timestamp_field rt index s) = Ok detected /\
    timestamp_field (snd (_replicate_single_index rt index s0)) = detected.
Proof.
  cbv zeta.
  destruct (detect_timestamp_field_total rt index s) as (tf & w' & Hd).
  exists tf. rewrite Hd. split; [reflexivity |].
  set (s0 := {| world := world s; log := log s; timestamp_field := configured;
                last_sync_time := last_sync_time s |}).
  destruct (detect_timestamp_field_total rt index s0) as (tf0 & w0 & Hd0).
  destruct (detect_reads_the_world_only index s s0 eq_refl) as [Hf _].
  rewrite Hd, Hd0 in Hf. cbn [fst] in Hf. inversion Hf; subst tf0.
  unfold _replicate_single_index, try_except, bind, set_timestamp_field.
  rewrite Hd0. cbn [fst snd world log timestamp_field last_sync_time].
  match goal with
  | |- context [replicate_index rt index None ?s1] =>
      pose proof (replicate_index_attributes index None s1) as Hattr;
      destruct (replicate_index rt index None s1) as [[st | e] s2]
  end; cbn [snd timestamp_field] in *; exact Hattr.
Qed.

End TimestampProps.

(** ** Configuration *)

Lemma without_timeout_get (k : string) (config : items) :
  dict_get k (without_timeout config)
  = if String.eqb k "timeout" then None else dict_get k config.
Proof.
  unfold without_timeout.
  induction config as [| [k' v'] config IH].
  - cbn. destruct (String.eqb k "timeout"); reflexivity.
  - cbn [filter fst].
    destruct (String.eqb_spec k' "timeout") as [-> | Hne]; cbn [negb dict_get].
    + rewrite IH. destruct (String.eqb k "timeout"); reflexivity.
    + destruct (String.eqb_spec k k') as [-> | Hne'].
      * apply String.eqb_neq in Hne. rewrite Hne. reflexivity.
      * exact IH.
Qed.

(** X18. What the constructor hands to a client, read off the cluster's
    configuration: ['hosts'] is required, the credentials are those under
    ['http_auth'] when that key is present and those under ['basic_auth']
    otherwise, and a configuration with neither raises
    [KeyError('basic_auth')]. A ['timeout'] entry has no influence. *)
Theorem client_kwargs_credentials (config : items) :
  client_kwargs config =
  match dict_get "hosts" config with
  | None => Raise (KeyError "hosts")
  | Some hosts =>
      match dict_get "http_auth" config, dict_get "basic_auth" config with
      | Some auth, _ => Ok (hosts, auth)
      | None, Some auth => Ok (hosts, auth)
      | None, None => Raise (KeyError "basic_auth")
      end
  end.
Proof.
  unfold client_kwargs, rename_http_auth.
  rewrite (without_timeout_get "http_auth").
  cbn [String.eqb Ascii.eqb Bool.eqb].
  destruct (dict_get "http_auth" config) as [a |] eqn:Ea.
  - rewrite dict_get_set_other by discriminate.
    rewrite dict_del_get_other by discriminate.
    rewrite dict_get_set_same.
    rewrite (without_timeout_get "hosts"). reflexivity.
  - rewrite (without_timeout_get "hosts"), (without_timeout_get "basic_auth").
    reflexivity.
Qed.

Lemma setting_set_in (s k section key : string) (v : PyVal) (config : Config) :
  dict_mem section config = true ->
  setting s k (set_in section key v config)
  = if (String.eqb s section && String.eqb k key)%bool then Some v
    else setting s k config.
Proof.
  unfold dict_mem, set_in, setting.
  destruct (dict_get section config) as [d |] eqn:Ed; [intros _ | discriminate].
  destruct (String.eqb_spec s section) as [-> | Hs]; cbn [andb].
  - rewrite dict_get_set_same, Ed.
    destruct (String.eqb_spec k key) as [-> | Hk].
    + apply dict_get_set_same.
    + apply dict_get_set_other. exact Hk.
  - rewrite dict_get_set_other by exact Hs. reflexivity.
Qed.

Lemma mem_set_in (s section key : string) (v : PyVal) (config : Config) :
  dict_mem s config = true -> dict_mem s (set_in section key v config) = true.
Proof.
  unfold set_in, dict_mem.
  destruct (dict_get section config) as [d |] eqn:Ed; [| auto].
  destruct (String.eqb_spec s section) as [-> | Hs].
  - rewrite dict_get_set_same. reflexivity.
  - rewrite dict_get_set_other by exact Hs. auto.
Qed.

Lemma setting_ensure_section (s k section : string) (config : Config) :
  setting s k (ensure_section section config) = setting s k config.
Proof.
  unfold ensure_section, dict_mem, setting.
  destruct (dict_get section config) as [d |] eqn:Ed; [reflexivity |].
  destruct (String.eqb_spec s section) as [-> | Hs].
  - rewrite dict_get_set_same, Ed. reflexivity.
  - rewrite dict_get_set_other by exact Hs. reflexivity.
Qed.

Lemma mem_ensure_section (s section : string) (config : Config) :
  dict_mem s config = true \/ s = section ->
  dict_mem s (ensure_section section config) = true.
Proof.
  unfold ensure_section.
  destruct (dict_mem section config) eqn:Em.
  - intros [H | ->]; assumption.
  - unfold dict_mem. destruct (String.eqb_spec s section) as [-> | Hs].
    + rewrite dict_get_set_same. reflexivity.
    + rewrite dict_get_set_other by exact Hs. intros [H | H]; [exact H | contradiction].
Qed.

Lemma setting_drop_timeout (s k section : string) (config : Config) :
  k <> "timeout" ->
  setting s k (drop_timeout section config) = setting s k config.
Proof.
  intros Hk. unfold drop_timeout, setting.
  destruct (dict_get section config) as [d |] eqn:Ed; [| reflexivity].
  destruct (dict_mem "timeout" d); [| reflexivity].
  destruct (String.eqb_spec s section) as [-> | Hs].
  - rewrite dict_get_set_same, Ed. apply dict_del_get_other. exact Hk.
  - rewrite dict_get_set_other by exact Hs. reflexivity.
Qed.

Lemma mem_merge_cluster (s section : string) (hosts user password : option string)
    (config : Config) :
  dict_mem s config = true ->
  dict_mem s (merge_cluster section hosts user password config) = true.
Proof.
  intros H. unfold merge_cluster.
  destruct (truthy hosts), (truthy user), (truthy password);
    repeat apply mem_set_in; exact H.
Qed.

Lemma setting_merge_cluster (s k section : string)
    (hosts user password : option string) (config : Config) :
  dict_mem section config = true ->
  setting s k (merge_cluster section hosts user password config)
  = if String.eqb s section then
      match String.eqb k "basic_auth", truthy user, truthy password with
      | true, Some u, Some p => Some (VList [VStr u; VStr p])
      | _, _, _ =>
          match String.eqb k "hosts", truthy hosts with
          | true, Some h => Some (str_list (split_on "," h))
          | _, _ => setting s k config
          end
      end
    else setting s k config.
Proof.
  intros Hm. unfold merge_cluster.
  destruct (truthy hosts) as [h |], (truthy user) as [u |],
           (truthy password) as [p |];
    rewrite ?setting_set_in by (repeat apply mem_set_in; exact Hm);
    destruct (String.eqb s section); cbn [andb]; try reflexivity;
    destruct (String.eqb_spec k "basic_auth") as [-> | Hb]; try reflexivity;
    destruct (String.eqb k "hosts"); reflexivity.
Qed.

(** The settings of the replication section after the merge. *)
Lemma merged_replication_setting (k : string) (file_config : option Config)
    (args : Args) :
  k <> "timeout" ->
  setting "replication" k (merge_configs file_config args)
  = match String.eqb k "exclude_patterns", truthy (arg_exclude_patterns args) with
    | true, Some p => Some (str_list (split_on "," p))
    | _, _ =>
    match String.eqb k "timestamp_field", truthy (arg_timestamp_field args) with
    | true, Some f => Some (VStr f)
    | _, _ =>
    match String.eqb k "interval", arg_interval args =? 0 with
    | true, false => Some (VInt (arg_interval args))
    | _, _ =>
    match String.eqb k "continuous", arg_continuous args with
    | true, true => Some (VBool true)
    | _, _ => setting "replication" k (file_or_empty file_config)
    end end end end.
Proof.
  intros Hk. unfold merge_configs.
  set (c0 := merge_cluster "target" _ _ _ _).
  assert (Hm : dict_mem "replication" (ensure_section "replication" c0) = true)
    by (apply mem_ensure_section; right; reflexivity).
  assert (Hc0 : setting "replication" k (ensure_section "replication" c0)
                = setting "replication" k (file_or_empty file_config)).
  { rewrite setting_ensure_section. unfold c0.
    rewrite setting_merge_cluster
      by (apply mem_ensure_section; right; reflexivity).
    cbn [String.eqb Ascii.eqb Bool.eqb].
    rewrite setting_ensure_section.
    rewrite setting_merge_cluster
      by (apply mem_ensure_section; right; reflexivity).
    cbn [String.eqb Ascii.eqb Bool.eqb].
    rewrite setting_ensure_section.
    rewrite !setting_drop_timeout by exact Hk. reflexivity. }
  destruct (truthy (arg_exclude_patterns args)) as [p |],
           (truthy (arg_timestamp_field args)) as [f |],
           (arg_interval args =? 0), (arg_continuous args); cbn [negb];
    rewrite ?setting_set_in by (repeat apply mem_set_in; exact Hm);
    rewrite Hc0; rewrite ?String.eqb_refl; cbn [andb];
    repeat match goal with
           | |- context [String.eqb k ?x] => destruct (String.eqb_spec k x); subst
           end; try reflexivity; try discriminate.
Qed.

(** X19. The interval of a run is the one of the command line whenever
    that is not zero. As [--interval] has the default 3600, a run started
    without the flag uses 3600 seconds whatever interval the configuration
    file gives. *)
Theorem command_line_interval_wins (file_config : option Config) (args : Args) :
  arg_interval args <> 0 ->
  main_interval (merge_configs file_config args) = VInt (arg_interval args).
Proof.
  intros Hi. unfold main_interval.
  rewrite merged_replication_setting by discriminate.
  cbn [String.eqb Ascii.eqb Bool.eqb].
  apply Z.eqb_neq in Hi. rewrite Hi.
  destruct (truthy (arg_exclude_patterns args)), (truthy (arg_timestamp_field args));
    reflexivity.
Qed.

Lemma command_line_interval_wins_witness :
  setting "replication" "interval" file_with_interval = Some (VInt 600) /\
  main_interval (merge_configs (Some file_with_interval) default_args) = VInt 3600.
Proof.
  split; [reflexivity |].
  apply (command_line_interval_wins (Some file_with_interval) default_args).
  cbn. discriminate.
Defined.

(** X20. Which side wins for the other settings: hosts, credentials, the
    timestamp field and the exclusion patterns come from the command line
    when the flag is given with a non-empty value (credentials need both
    the user and the password) and from the file otherwise; [continuous] is
    on when the flag is given or the file says so, so the command line
    cannot turn it off. *)
Theorem merge_configs_precedence (file_config : option Config) (args : Args) :
  let file := file_or_empty file_config in
  let config := merge_configs file_config args in
  setting "source" "hosts" config
  = match truthy (arg_source_hosts args) with
    | Some h => Some (str_list (split_on "," h))
    | None => setting "source" "hosts" file
    end /\
  setting "target" "hosts" config
  = match truthy (arg_target_hosts args) with
    | Some h => Some (str_list (split_on "," h))
    | None => setting "target" "hosts" file
    end /\
  setting "source" "basic_auth" config
  = match truthy (arg_source_user args), truthy (arg_source_password args) with
    | Some u, Some p => Some (VList [VStr u; VStr p])
    | _, _ => setting "source" "basic_auth" file
    end /\
  setting "target" "basic_auth" config
  = match truthy (arg_target_user args), truthy (arg_target_password args) with
    | Some u, Some p => Some (VList [VStr u; VStr p])
    | _, _ => setting "target" "basic_auth" file
    end /\
  setting "replication" "continuous" config
  = (if arg_continuous args then Some (VBool true)
     else setting "replication" "continuous" file) /\
  setting "replication" "timestamp_field" config
  = match truthy (arg_timestamp_field args) with
    | Some f => Some (VStr f)
    | None => setting "replication" "timestamp_field" file
    end /\
  setting "replication" "exclude_patterns" config
  = match truthy (arg_exclude_patterns args) with
    | Some p => Some (str_list (split_on "," p))
    | None => setting "replication" "exclude_patterns" file
    end.
Proof.
  cbv zeta.
  assert (Hcluster : forall s k, s <> "replication" -> k <> "timeout" ->
            setting s k (merge_configs file_config args)
            = setting s k
                (merge_cluster "target" (arg_target_hosts args)
                   (arg_target_user args) (arg_target_password args)
                   (ensure_section "target"
                      (merge_cluster "source" (arg_source_hosts args)
                         (arg_source_user args) (arg_source_password args)
                         (ensure_section "source"
                            (drop_timeout "target"
                               (drop_timeout "source"
                                  (file_or_empty file_config)))))))).
  { intros s k Hs Hk. unfold merge_configs.
    set (c0 := merge_cluster "target" _ _ _ _).
    assert (Hm : dict_mem "replication" (ensure_section "replication" c0) = true)
      by (apply mem_ensure_section; right; reflexivity).
    apply String.eqb_neq in Hs.
    destruct (truthy (arg_exclude_patterns args)) as [p |],
             (truthy (arg_timestamp_field args)) as [f |],
             (arg_interval args =? 0), (arg_continuous args); cbn [negb];
      rewrite ?setting_set_in by (repeat apply mem_set_in; exact Hm);
      rewrite ?Hs; cbn [andb]; apply setting_ensure_section. }
  assert (Hsrc : forall k, k <> "timeout" ->
            setting "source" k (merge_configs file_config args)
            = match String.eqb k "basic_auth", truthy (arg_source_user args),
                    truthy (arg_source_password args) with
              | true, Some u, Some p => Some (VList [VStr u; VStr p])
              | _, _, _ =>
                  match String.eqb k "hosts", truthy (arg_source_hosts args) with
                  | true, Some h => Some (str_list (split_on "," h))
                  | _, _ => setting "source" k (file_or_empty file_config)
                  end
              end).
  { intros k Hk. rewrite Hcluster by (discriminate || exact Hk).
    rewrite setting_merge_cluster
      by (apply mem_ensure_section; right; reflexivity).
    cbn [String.eqb Ascii.eqb Bool.eqb].
    rewrite setting_ensure_section.
    rewrite setting_merge_cluster
      by (apply mem_ensure_section; right; reflexivity).
    cbn [String.eqb Ascii.eqb Bool.eqb].
    rewrite setting_ensure_section, !setting_drop_timeout by exact Hk.
    reflexivity. }
  assert (Htgt : forall k, k <> "timeout" ->
            setting "target" k (merge_configs file_config args)
            = match String.eqb k "basic_auth", truthy (arg_target_user args),
                    truthy (arg_target_password args) with
              | true, Some u, Some p => Some (VList [VStr u; VStr p])
              | _, _, _ =>
                  match String.eqb k "hosts", truthy (arg_target_hosts args) with
                  | true, Some h => Some (str_list (split_on "," h))
                  | _, _ => setting "target" k (file_or_empty file_config)
                  end
              end).
  { intros k Hk. rewrite Hcluster by (discriminate || exact Hk).
    rewrite setting_merge_cluster
      by (apply mem_ensure_section; right; reflexivity).
    cbn [String.eqb Ascii.eqb Bool.eqb].
    rewrite setting_ensure_section.
    rewrite setting_merge_cluster
      by (apply mem_ensure_section; right; reflexivity).
    cbn [String.eqb Ascii.eqb Bool.eqb].
    rewrite setting_ensure_section, !setting_drop_timeout by exact Hk.
    reflexivity. }
  split; [rewrite Hsrc by discriminate; cbn [String.eqb Ascii.eqb Bool.eqb];
          destruct (truthy (arg_source_user args)), (truthy (arg_source_password args));
          reflexivity |].
  split; [rewrite Htgt by discriminate; cbn [String.eqb Ascii.eqb Bool.eqb];
          destruct (truthy (arg_target_user args)), (truthy (arg_target_password args));
          reflexivity |].
  split; [rewrite Hsrc by discriminate; reflexivity |].
  split; [rewrite Htgt by discriminate; reflexivity |].
  split; [rewrite merged_replication_setting by discriminate;
          cbn [String.eqb Ascii.eqb Bool.eqb];
          destruct (truthy (arg_exclude_patterns args)),
                   (truthy (arg_timestamp_field args)),
                   (arg_interval args =? 0), (arg_continuous args); reflexivity |].
  split; [rewrite merged_replication_setting by discriminate;
          cbn [String.eqb Ascii.eqb Bool.eqb];
          destruct (truthy (arg_exclude_patterns args)),
                   (truthy (arg_timestamp_field args)); reflexivity |].
  rewrite merged_replication_setting by discriminate.
  cbn [String.eqb Ascii.eqb Bool.eqb].
  destruct (truthy (arg_exclude_patterns args)); reflexivity.
Qed.
